(** * supabase-vector-search: retry executor, dimension validator,
      search orchestrator, batch insert and the weighted SQL query

    A shallow embedding of
      - [src/utils/retry.ts]          ([withRetry]),
      - [src/embeddings/index.ts]     ([validateEmbeddingDimensions]),
      - [src/search/manager.ts]       ([SearchManager.search], [searchWeighted]),
      - [src/document/manager.ts]     ([DocumentManager.insertBatch]),
    and a small deep embedding of the SELECT statement inside the SQL
    function [match_documents_weighted] (supabase/migrations), with the
    properties the specification states about them.

    Modelling conventions.
      - A JavaScript [number] that carries a weight, a threshold or a vector
        component is a member of a [Number] interface with two instances:
        IEEE 754 binary64 (Rocq's primitive floats: what the program runs on)
        and exact rationals (used where a statement is about arithmetic
        without rounding).
      - Counts and durations (retry budget, attempt number, delays in ms,
        dimensions, batch size, match count) are integers.
      - An [async] function is a computation in the monad [M]: it threads the
        state of the outside world (the backend), may throw, and produces the
        list of events it caused, in order.  Attempts of one call are strictly
        sequential in the source, so a sequential model loses nothing.
      - A JavaScript dense array is a list. *)

From Stdlib Require Import ZArith QArith Qabs Floats List String Bool Lia.
From Stdlib Require Import Sorted.
From Stdlib Require Import DecimalString.
Import ListNotations.

#[local] Set Warnings "-inexact-float,-register-all,-notation-for-abbreviation".
#[local] Open Scope string_scope.
#[local] Open Scope list_scope.
#[local] Open Scope Z_scope.

(* ================================================================== *)
(** ** Numbers *)
(* ================================================================== *)

(** The arithmetic the sources use on weights and scores, and the numeric
    literals they write. *)
Class Number (N : Type) : Type := {
  num_add : N -> N -> N;
  num_sub : N -> N -> N;
  num_mul : N -> N -> N;
  num_div : N -> N -> N;
  num_abs : N -> N;                (* Math.abs *)
  num_eqb : N -> N -> bool;        (* === on two numbers *)
  num_ltb : N -> N -> bool;        (* < *)
  lit_0 : N;                       (* 0 *)
  lit_1 : N;                       (* 1.0 *)
  lit_0_25 : N;                    (* 0.25 *)
  lit_0_5 : N;                     (* 0.5 *)
  lit_0_01 : N                     (* 0.01 *)
}.

Declare Scope num_scope.
Delimit Scope num_scope with num.
Infix "+" := num_add : num_scope.
Infix "-" := num_sub : num_scope.
Infix "*" := num_mul : num_scope.
Infix "/" := num_div : num_scope.
Infix "===" := num_eqb (at level 70, no associativity) : num_scope.
Notation "x > y" := (num_ltb y x) : num_scope.
Notation "x >= y" := (orb (num_ltb y x) (num_eqb x y)) : num_scope.

(** JavaScript numbers: IEEE 754 binary64. *)
#[global] Instance binary64 : Number float := {
  num_add := PrimFloat.add;
  num_sub := PrimFloat.sub;
  num_mul := PrimFloat.mul;
  num_div := PrimFloat.div;
  num_abs := PrimFloat.abs;
  num_eqb := PrimFloat.eqb;
  num_ltb := PrimFloat.ltb;
  lit_0 := 0%float;
  lit_1 := 1%float;
  lit_0_25 := 0.25%float;
  lit_0_5 := 0.5%float;
  lit_0_01 := 0.01%float
}.

(** The same operations without rounding. *)
#[global] Instance exact : Number Q := {
  num_add := Qplus;
  num_sub := Qminus;
  num_mul := Qmult;
  num_div := Qdiv;
  num_abs := Qabs;
  num_eqb := Qeq_bool;
  num_ltb := fun x y => negb (Qle_bool y x);
  lit_0 := 0%Q;
  lit_1 := 1%Q;
  lit_0_25 := 0.25%Q;
  lit_0_5 := 0.5%Q;
  lit_0_01 := 0.01%Q
}.

(** [isNaN(x)] for a value that is already a number: NaN is the only number
    that differs from itself. *)
Definition isNaN {N} `{Number N} (x : N) : bool := negb (x === x)%num.

(** Truthiness of a number, as [x || d] and [if (x)] test it: 0, -0 and NaN
    are falsy. *)
Definition truthy_number {N} `{Number N} (x : N) : bool :=
  negb (x === lit_0)%num && negb (isNaN x).

(** [x ?? d]: the default replaces only [undefined] / [null]. *)
Definition nullish {A} (x : option A) (d : A) : A :=
  match x with Some v => v | None => d end.

(** [x || d] on an optional number: the default replaces every falsy value. *)
Definition or_number {N} `{Number N} (x : option N) (d : N) : N :=
  match x with
  | Some v => if truthy_number v then v else d
  | None => d
  end.

(** [x || d] on an optional integer count. *)
Definition or_count (x : option Z) (d : Z) : Z :=
  match x with
  | Some v => if v =? 0 then d else v
  | None => d
  end.

(** Decimal rendering of an integer inside a template string. *)
Definition string_of_Z (z : Z) : string := NilZero.string_of_int (Z.to_int z).

(* ================================================================== *)
(** ** Values, errors and effects *)
(* ================================================================== *)

Section Program.

Context {N : Type} {NN : Number N}.
(** [St]: the state of the world outside the program (the database behind
    the client, or the state captured by a wrapped closure).
    [Metadata]: JSON objects.  [SearchResult]: a row returned by an RPC. *)
Context {St Metadata SearchResult : Type}.

(** What a caller written in JavaScript can pass where the TypeScript
    signatures say [Embedding]. *)
Inductive JSValue : Type :=
| JSUndefined
| JSNull
| JSBoolean (b : bool)
| JSNumber (x : N)
| JSString (s : string)
| JSArray (elems : list JSValue)
| JSObject.

(** [!!v] *)
Definition truthy (v : JSValue) : bool :=
  match v with
  | JSUndefined | JSNull => false
  | JSBoolean b => b
  | JSNumber x => truthy_number x
  | JSString s => negb (String.eqb s EmptyString)
  | JSArray _ | JSObject => true
  end.

(** [v.length] for a truthy [v]; [None] is [undefined]. *)
Definition js_length (v : JSValue) : option Z :=
  match v with
  | JSArray elems => Some (Z.of_nat (List.length elems))
  | JSString s => Some (Z.of_nat (String.length s))
  | _ => None
  end.

(** [v || null] *)
Definition or_null (v : JSValue) : JSValue := if truthy v then v else JSNull.

(** [typeof val === 'number' && !isNaN(val)] *)
Definition valid_number (val : JSValue) : bool :=
  match val with
  | JSNumber x => negb (isNaN x)
  | _ => false
  end.

(** The error classes of [src/types] ([EmbeddingError]'s third field,
    [provider], is never set by the code modelled here), any other [Error],
    and the value thrown by [throw lastError!] when nothing was caught. *)
Inductive JSError : Type :=
| ValidationError (message : string) (field : option string)
| SearchError (message : string) (code : option string)
| EmbeddingError (message : string) (code : option string)
| OtherError (message : string)
| ThrownUndefined.

(** [error instanceof ValidationError || error instanceof SearchError] *)
Definition is_ValidationError_or_SearchError (error : JSError) : bool :=
  match error with
  | ValidationError _ _ | SearchError _ _ => true
  | _ => false
  end.

(** [error instanceof SearchError] *)
Definition is_SearchError (error : JSError) : bool :=
  match error with
  | SearchError _ _ => true
  | _ => false
  end.

Inductive Outcome (A : Type) : Type :=
| Returned (a : A)
| Thrown (error : JSError).
#[global] Arguments Returned {A} a.
#[global] Arguments Thrown {A} error.

(* ------------------------------------------------------------------ *)
(** *** [validateEmbeddingDimensions] (src/embeddings/index.ts) *)

Definition validateEmbeddingDimensions
    (embedding : JSValue) (expectedDimensions : Z) : Outcome unit :=
  match embedding with
  | JSArray elems =>
      if negb (Z.of_nat (List.length elems) =? expectedDimensions) then
        Thrown (EmbeddingError
                  ("Expected " ++ string_of_Z expectedDimensions
                   ++ " dimensions but got "
                   ++ string_of_Z (Z.of_nat (List.length elems)))%string
                  (Some "DIMENSION_MISMATCH"))
      else if negb (forallb valid_number elems) then
        Thrown (EmbeddingError "Embedding must contain only valid numbers"
                  (Some "INVALID_EMBEDDING_VALUES"))
      else Returned tt
  | _ =>
      Thrown (EmbeddingError "Embedding must be an array"
                (Some "INVALID_EMBEDDING_TYPE"))
  end.

(* ------------------------------------------------------------------ *)
(** *** Requests, replies and events *)

(** Arguments of the RPC [match_documents]. *)
Record MatchArgs : Type := {
  ma_query_embedding : JSValue;
  ma_match_threshold : N;
  ma_match_count : Z;
  ma_filter_metadata : option Metadata
}.

(** Arguments of the RPC [match_documents_weighted]. *)
Record WeightedArgs : Type := {
  query_embedding : JSValue;
  query_section_1 : JSValue;
  query_section_2 : JSValue;
  query_section_3 : JSValue;
  weight_main : N;
  weight_section_1 : N;
  weight_section_2 : N;
  weight_section_3 : N;
  match_threshold : N;
  match_count : Z;
  filter_metadata : option Metadata
}.

Inductive RpcArgs : Type :=
| Match (args : MatchArgs)
| MatchWeighted (args : WeightedArgs).

(** The [error] member of a Supabase reply. *)
Record PostgrestError : Type := {
  pg_message : string;
  pg_code : string
}.

(** [{ data, error }], or a rejected promise. *)
Inductive Reply (D : Type) : Type :=
| Resolved (data : option D) (error : option PostgrestError)
| Rejected (reason : JSError).
#[global] Arguments Resolved {D} data error.
#[global] Arguments Rejected {D} reason.

Record Document : Type := {
  doc_content : string;
  doc_metadata : option Metadata;
  doc_embedding : JSValue;
  doc_embedding_section_1 : JSValue;
  doc_embedding_section_2 : JSValue;
  doc_embedding_section_3 : JSValue
}.

(** The object [insert] / [insertBatch] build for each document. *)
Record InsertRow : Type := {
  content : string;
  metadata : Metadata;
  embedding : JSValue;
  embedding_section_1 : JSValue;
  embedding_section_2 : JSValue;
  embedding_section_3 : JSValue
}.

Inductive LogLevel : Type := Info | Warn.

(** What a call does to its environment, in the order it does it.  The last
    three record invocations of closures the caller supplied. *)
Inductive Event : Type :=
| EvRpc (fn : string) (args : RpcArgs)                 (* client.rpc(fn, args) *)
| EvInsert (table : string) (rows : list InsertRow)     (* client.from(table).insert(rows).select() *)
| EvSleep (ms : Z)                                      (* setTimeout(resolve, ms) awaited *)
| EvLog (level : LogLevel) (message : string)           (* logger.info / logger.warn *)
| EvOperation                                           (* operation() *)
| EvOnRetry (attempt : nat) (error : JSError)           (* onRetry(attempt, error) *)
| EvProgress (completed total : Z).                     (* onProgress(completed, total) *)

(** The Supabase client, as far as the managers use it. *)
Record SupabaseClient : Type := {
  rpc : string -> RpcArgs -> St -> Reply (list SearchResult) * St;
  insert_select : string -> list InsertRow -> St -> Reply (list Document) * St
}.

(* ------------------------------------------------------------------ *)
(** *** The monad of asynchronous computations *)

Definition M (A : Type) : Type := St -> Outcome A * St * list Event.

Definition ret {A} (a : A) : M A := fun s => (Returned a, s, []).

Definition throw {A} (error : JSError) : M A := fun s => (Thrown error, s, []).

Definition bind {A B} (m : M A) (k : A -> M B) : M B :=
  fun s =>
    match m s with
    | (Returned a, s1, ev1) =>
        let '(r, s2, ev2) := k a s1 in (r, s2, ev1 ++ ev2)
    | (Thrown error, s1, ev1) => (Thrown error, s1, ev1)
    end.

(** [try { m } catch (error) { handler }] *)
Definition try_catch {A} (m : M A) (handler : JSError -> M A) : M A :=
  fun s =>
    match m s with
    | (Returned a, s1, ev1) => (Returned a, s1, ev1)
    | (Thrown error, s1, ev1) =>
        let '(r, s2, ev2) := handler error s1 in (r, s2, ev1 ++ ev2)
    end.

Definition emit (e : Event) : M unit := fun s => (Returned tt, s, [e]).

(** A synchronous function that may throw, run inside an [async] one. *)
Definition lift {A} (r : Outcome A) : M A := fun s => (r, s, []).

(** [if (c) { m }] *)
Definition when (c : bool) (m : M unit) : M unit := if c then m else ret tt.

Notation "x <- m ;; k" := (bind m (fun x => k))
  (at level 61, m at next level, right associativity).
Notation "m ;; k" := (bind m (fun _ => k))
  (at level 61, right associativity).

(* ------------------------------------------------------------------ *)
(** *** [withRetry] (src/utils/retry.ts) *)

Record RetryOptions : Type := {
  maxRetries : option nat;
  initialDelayMs : option Z;
  exponentialBackoff : option bool;
  maxDelayMs : option Z;
  onRetry : option (nat -> JSError -> M unit)
}.

(** [await new Promise((resolve) => setTimeout(resolve, delay))] *)
Definition sleep (delay : Z) : M unit := emit (EvSleep delay).

(** [throw lastError!] after the loop. *)
Definition throw_lastError {T} (lastError : option JSError) : M T :=
  match lastError with
  | Some error => throw error
  | None => throw ThrownUndefined
  end.

Section WithRetry.

Context {T : Type}.
Variable operation : M T.
(* the destructured options, defaults applied *)
Variables (maxRetries' : nat) (initialDelayMs' : Z)
          (exponentialBackoff' : bool) (maxDelayMs' : Z)
          (onRetry' : option (nat -> JSError -> M unit)).

(** The [for (let attempt = 0; attempt <= maxRetries; attempt++)] loop,
    entered at [attempt] with [remaining] iterations left before the loop
    condition fails ([remaining = maxRetries + 1 - attempt]). *)
Fixpoint retry_loop (remaining attempt : nat) (lastError : option JSError)
    : M T :=
  match remaining with
  | O => throw_lastError lastError
  | S remaining' =>
      try_catch operation (fun error =>
        (* lastError = error *)
        if Nat.eqb attempt maxRetries' then
          throw_lastError (Some error)            (* break *)
        else
          let delay :=
            if exponentialBackoff'
            then Z.min (initialDelayMs' * 2 ^ Z.of_nat attempt) maxDelayMs'
            else initialDelayMs' in
          match onRetry' with
          | Some callback => callback (attempt + 1)%nat error
          | None => ret tt
          end ;;
          sleep delay ;;
          retry_loop remaining' (S attempt) (Some error))
  end.

End WithRetry.

Definition withRetry {T} (operation : M T) (options : RetryOptions) : M T :=
  let maxRetries' := nullish (maxRetries options) 3%nat in
  let initialDelayMs' := nullish (initialDelayMs options) 1000 in
  let exponentialBackoff' := nullish (exponentialBackoff options) true in
  let maxDelayMs' := nullish (maxDelayMs options) 10000 in
  retry_loop operation maxRetries' initialDelayMs' exponentialBackoff'
    maxDelayMs' (onRetry options) (S maxRetries') 0%nat None.

(** [{ maxRetries: 3, onRetry: ... }] *)
Definition retry_3 (onRetry : nat -> JSError -> M unit) : RetryOptions :=
  {| maxRetries := Some 3%nat; initialDelayMs := None;
     exponentialBackoff := None; maxDelayMs := None;
     onRetry := Some onRetry |}.

(** [logger.warn(message)], [logger.info(message)] *)
Definition logger_warn (message : string) : M unit := emit (EvLog Warn message).
Definition logger_info (message : string) : M unit := emit (EvLog Info message).

(** [await this.client.rpc(fn, args)] *)
Definition client_rpc (client : SupabaseClient) (fn : string) (args : RpcArgs)
    : M (option (list SearchResult) * option PostgrestError) :=
  fun s =>
    match rpc client fn args s with
    | (Resolved data error, s') => (Returned (data, error), s', [EvRpc fn args])
    | (Rejected reason, s') => (Thrown reason, s', [EvRpc fn args])
    end.

(** [await this.client.from(table).insert(rows).select()] *)
Definition client_insert (client : SupabaseClient) (table : string)
    (rows : list InsertRow)
    : M (option (list Document) * option PostgrestError) :=
  fun s =>
    match insert_select client table rows s with
    | (Resolved data error, s') => (Returned (data, error), s', [EvInsert table rows])
    | (Rejected reason, s') => (Thrown reason, s', [EvInsert table rows])
    end.

(* ------------------------------------------------------------------ *)
(** *** [SearchManager] (src/search/manager.ts) *)

Record SearchOptions : Type := {
  so_queryEmbedding : JSValue;
  so_matchThreshold : option N;
  so_matchCount : option Z;
  so_filterMetadata : option Metadata
}.

Record WeightedSearchOptions : Type := {
  queryEmbedding : JSValue;
  querySection1 : JSValue;
  querySection2 : JSValue;
  querySection3 : JSValue;
  weightMain : option N;
  weightSection1 : option N;
  weightSection2 : option N;
  weightSection3 : option N;
  matchThreshold : option N;
  matchCount : option Z;
  filterMetadata : option Metadata
}.

(** [!queryEmbedding || queryEmbedding.length === 0] *)
Definition missing_or_empty (queryEmbedding : JSValue) : bool :=
  negb (truthy queryEmbedding)
  || match js_length queryEmbedding with
     | Some len => len =? 0
     | None => false
     end.

(** [if (expectedDimensions)] on the optional parameter. *)
Definition given (expectedDimensions : option Z) : option Z :=
  match expectedDimensions with
  | Some d => if d =? 0 then None else Some d
  | None => None
  end.

(** The argument object of the [match_documents] call. *)
Definition search_args (options : SearchOptions) : MatchArgs :=
  {| ma_query_embedding := so_queryEmbedding options;
     ma_match_threshold := or_number (so_matchThreshold options) lit_0_5;
     ma_match_count := or_count (so_matchCount options) 10;
     ma_filter_metadata := so_filterMetadata options |}.

(** The template strings of this file are written with an escaped dollar
    sign, so the text between the braces is not evaluated: the messages are
    the constants below. *)
Definition search_failed_message : string :=
  "Search failed: ${error.message}".
Definition search_retry_message : string :=
  "Retrying search (attempt ${attempt}/3): ${error.message}".
Definition search_unexpected_message : string :=
  "Unexpected error during search: ${error instanceof Error ? error.message : 'Unknown error'}".
Definition weighted_failed_message : string :=
  "Weighted search failed: ${error.message}".
Definition weighted_retry_message : string :=
  "Retrying weighted search (attempt ${attempt}/3): ${error.message}".
Definition weighted_unexpected_message : string :=
  "Unexpected error during weighted search: ${error instanceof Error ? error.message : 'Unknown error'}".
Definition weights_normalized_message : string :=
  "Weights normalized: [${providedWeightMain.toFixed(2)}, ${providedWeightSection1.toFixed(2)}, ${providedWeightSection2.toFixed(2)}, ${providedWeightSection3.toFixed(2)}] -> [${normalizedWeightMain.toFixed(2)}, ${normalizedWeightSection1.toFixed(2)}, ${normalizedWeightSection2.toFixed(2)}, ${normalizedWeightSection3.toFixed(2)}]".

(** The closure passed to [withRetry] by [search]. *)
Definition search_operation (client : SupabaseClient) (options : SearchOptions)
    : M (list SearchResult) :=
  reply <- client_rpc client "match_documents" (Match (search_args options)) ;;
  match snd reply with
  | Some error => throw (SearchError search_failed_message (Some (pg_code error)))
  | None => ret (nullish (fst reply) [])
  end.

Definition search (client : SupabaseClient) (options : SearchOptions)
    (expectedDimensions : option Z) : M (list SearchResult) :=
  try_catch
    (when (missing_or_empty (so_queryEmbedding options))
       (throw (ValidationError "Query embedding is required" (Some "queryEmbedding"))) ;;
     match given expectedDimensions with
     | Some d => lift (validateEmbeddingDimensions (so_queryEmbedding options) d)
     | None => ret tt
     end ;;
     withRetry (search_operation client options)
       (retry_3 (fun attempt error => logger_warn search_retry_message)))
    (fun error =>
       if is_ValidationError_or_SearchError error then throw error
       else throw (SearchError search_unexpected_message None)).

(** Lines 225-234 of [searchWeighted]: presence of the main vector, then the
    dimension checks. *)
Definition validate_query (options : WeightedSearchOptions)
    (expectedDimensions : option Z) : M unit :=
  when (missing_or_empty (queryEmbedding options))
    (throw (ValidationError "Query embedding is required" (Some "queryEmbedding"))) ;;
  match given expectedDimensions with
  | Some d =>
      lift (validateEmbeddingDimensions (queryEmbedding options) d) ;;
      when (truthy (querySection1 options))
        (lift (validateEmbeddingDimensions (querySection1 options) d)) ;;
      when (truthy (querySection2 options))
        (lift (validateEmbeddingDimensions (querySection2 options) d)) ;;
      when (truthy (querySection3 options))
        (lift (validateEmbeddingDimensions (querySection3 options) d))
  | None => ret tt
  end.

(** [options.weightX ?? 0.25] for the four slots. *)
Definition providedWeights (options : WeightedSearchOptions) : N * N * N * N :=
  (nullish (weightMain options) lit_0_25,
   nullish (weightSection1 options) lit_0_25,
   nullish (weightSection2 options) lit_0_25,
   nullish (weightSection3 options) lit_0_25).

(** The sum of four weights, added left to right as [totalWeight] is. *)
Definition sumWeights (weights : N * N * N * N) : N :=
  let '(wMain, w1, w2, w3) := weights in (wMain + w1 + w2 + w3)%num.

(** Lines 236-263 of [searchWeighted]: the weights that will be dispatched. *)
Definition normalizeWeights (options : WeightedSearchOptions)
    : M (N * N * N * N) :=
  let '(providedWeightMain, providedWeightSection1,
        providedWeightSection2, providedWeightSection3) :=
    providedWeights options in
  let totalWeight :=
    (providedWeightMain + providedWeightSection1
     + providedWeightSection2 + providedWeightSection3)%num in
  when (totalWeight === lit_0)%num
    (throw (ValidationError "Weights cannot all be zero" (Some "weights"))) ;;
  if (num_abs (totalWeight - lit_1) > lit_0_01)%num then
    logger_info weights_normalized_message ;;
    ret ((providedWeightMain / totalWeight)%num,
         (providedWeightSection1 / totalWeight)%num,
         (providedWeightSection2 / totalWeight)%num,
         (providedWeightSection3 / totalWeight)%num)
  else
    ret (providedWeightMain, providedWeightSection1,
         providedWeightSection2, providedWeightSection3).

(** The argument object of the [match_documents_weighted] call. *)
Definition weighted_args (options : WeightedSearchOptions)
    (normalized : N * N * N * N) : WeightedArgs :=
  let '(normalizedWeightMain, normalizedWeightSection1,
        normalizedWeightSection2, normalizedWeightSection3) := normalized in
  {| query_embedding := queryEmbedding options;
     query_section_1 := or_null (querySection1 options);
     query_section_2 := or_null (querySection2 options);
     query_section_3 := or_null (querySection3 options);
     weight_main := normalizedWeightMain;
     weight_section_1 := normalizedWeightSection1;
     weight_section_2 := normalizedWeightSection2;
     weight_section_3 := normalizedWeightSection3;
     match_threshold := or_number (matchThreshold options) lit_0_5;
     match_count := or_count (matchCount options) 10;
     filter_metadata := filterMetadata options |}.

(** The closure passed to [withRetry] by [searchWeighted]. *)
Definition weighted_operation (client : SupabaseClient)
    (options : WeightedSearchOptions) (normalized : N * N * N * N)
    : M (list SearchResult) :=
  reply <- client_rpc client "match_documents_weighted"
             (MatchWeighted (weighted_args options normalized)) ;;
  match snd reply with
  | Some error => throw (SearchError weighted_failed_message (Some (pg_code error)))
  | None => ret (nullish (fst reply) [])
  end.

Definition searchWeighted (client : SupabaseClient)
    (options : WeightedSearchOptions) (expectedDimensions : option Z)
    : M (list SearchResult) :=
  try_catch
    (validate_query options expectedDimensions ;;
     normalized <- normalizeWeights options ;;
     withRetry (weighted_operation client options normalized)
       (retry_3 (fun attempt error => logger_warn weighted_retry_message)))
    (fun error =>
       if is_ValidationError_or_SearchError error then throw error
       else throw (SearchError weighted_unexpected_message None)).

(* ------------------------------------------------------------------ *)
(** *** [DocumentManager.insertBatch] (src/document/manager.ts) *)

(** [array.slice(start, end)] *)
Definition slice {A} (l : list A) (start end_ : Z) : list A :=
  let len := Z.of_nat (List.length l) in
  let k := if start <? 0 then Z.max (len + start) 0 else Z.min start len in
  let final := if end_ <? 0 then Z.max (len + end_) 0 else Z.min end_ len in
  firstn (Z.to_nat (final - k)) (skipn (Z.to_nat k) l).

(** [doc.metadata || {}], [doc.embedding || null], ... *)
Definition insert_row (empty_metadata : Metadata) (doc : Document) : InsertRow :=
  {| content := doc_content doc;
     metadata := nullish (doc_metadata doc) empty_metadata;
     embedding := or_null (doc_embedding doc);
     embedding_section_1 := or_null (doc_embedding_section_1 doc);
     embedding_section_2 := or_null (doc_embedding_section_2 doc);
     embedding_section_3 := or_null (doc_embedding_section_3 doc) |}.

Definition batch_failed_message : string :=
  "Failed to insert batch: ${error.message}".
Definition batch_retry_message : string :=
  "Retrying batch insert (attempt ${attempt}/3): ${error.message}".
Definition batch_unexpected_message : string :=
  "Unexpected error in batch insert: ${error instanceof Error ? error.message : 'Unknown error'}".

(** The closure passed to [withRetry] for one chunk.  [data as Document[]]
    is returned as it is, [null] included. *)
Definition batch_operation (client : SupabaseClient) (tableName : string)
    (empty_metadata : Metadata) (batch : list Document)
    : M (option (list Document)) :=
  reply <- client_insert client tableName (map (insert_row empty_metadata) batch) ;;
  match snd reply with
  | Some error => throw (SearchError batch_failed_message (Some (pg_code error)))
  | None => ret (fst reply)
  end.

(** One iteration of the loop body: insert the chunk, extend [results],
    advance [completed], report progress. *)
Definition insert_chunk (client : SupabaseClient) (tableName : string)
    (empty_metadata : Metadata) (documents : list Document) (batchSize : Z)
    (onProgress : option (Z -> Z -> M unit))
    (i : Z) (results : list Document) (completed : Z)
    : M (list Document * Z) :=
  let batch := slice documents i (i + batchSize) in
  batchResult <- withRetry (batch_operation client tableName empty_metadata batch)
                   (retry_3 (fun attempt error => logger_warn batch_retry_message)) ;;
  (* results.push(...batchResult): spreading null throws a TypeError *)
  results' <- match batchResult with
              | Some rows => ret (results ++ rows)
              | None => throw (OtherError "batchResult is not iterable")
              end ;;
  let completed' := completed + Z.of_nat (List.length batch) in
  match onProgress with
  | Some callback => callback completed' (Z.of_nat (List.length documents))
  | None => ret tt
  end ;;
  ret (results', completed').

(** [for (let i = 0; i < documents.length; i += batchSize)], entered at [i].
    The loop need not terminate ([batchSize <= 0]): [None] means that [fuel]
    iterations were not enough. *)
Fixpoint insertBatch_loop (fuel : nat) (client : SupabaseClient)
    (tableName : string) (empty_metadata : Metadata)
    (documents : list Document) (batchSize : Z)
    (onProgress : option (Z -> Z -> M unit))
    (i : Z) (results : list Document) (completed : Z) (s : St)
    : option (Outcome (list Document) * St * list Event) :=
  if i <? Z.of_nat (List.length documents) then
    match fuel with
    | O => None
    | S fuel' =>
        match insert_chunk client tableName empty_metadata documents batchSize
                onProgress i results completed s with
        | (Thrown error, s1, ev1) => Some (Thrown error, s1, ev1)
        | (Returned (results', completed'), s1, ev1) =>
            match insertBatch_loop fuel' client tableName empty_metadata
                    documents batchSize onProgress (i + batchSize)
                    results' completed' s1 with
            | Some (r, s2, ev2) => Some (r, s2, ev1 ++ ev2)
            | None => None
            end
        end
    end
  else Some (Returned results, s, []).

Definition insertBatch (fuel : nat) (client : SupabaseClient)
    (tableName : string) (empty_metadata : Metadata)
    (documents : list Document) (batchSize : Z)
    (onProgress : option (Z -> Z -> M unit)) (s : St)
    : option (Outcome (list Document) * St * list Event) :=
  if Z.of_nat (List.length documents) =? 0 then Some (Returned [], s, [])
  else
    match insertBatch_loop fuel client tableName empty_metadata documents
            batchSize onProgress 0 [] 0 s with
    | Some (Thrown error, s', ev) =>
        (* catch (error) *)
        Some (if is_SearchError error then Thrown error
              else Thrown (SearchError batch_unexpected_message None), s', ev)
    | other => other
    end.

End Program.

Arguments JSValue : clear implicits.
Arguments Event : clear implicits.
Arguments M : clear implicits.
Arguments SupabaseClient : clear implicits.
Arguments Document : clear implicits.
Arguments InsertRow : clear implicits.
Arguments RpcArgs : clear implicits.
Arguments MatchArgs : clear implicits.
Arguments WeightedArgs : clear implicits.
Arguments SearchOptions : clear implicits.
Arguments WeightedSearchOptions : clear implicits.
Arguments RetryOptions : clear implicits.

Notation "x <- m ;; k" := (bind m (fun x => k))
  (at level 61, m at next level, right associativity).
Notation "m ;; k" := (bind m (fun _ => k))
  (at level 61, right associativity).

(* ================================================================== *)
(** ** Recording doubles and observers *)
(* ================================================================== *)

Section Doubles.

Context {N : Type} {NN : Number N} {St Metadata SearchResult : Type}.

(** An operation that records each invocation and whose [k]-th invocation
    (counted from 0 by the state) ends as [script k]. *)
Definition scripted {T} (script : nat -> Outcome T) : M N nat Metadata T :=
  fun calls => (script calls, S calls, [EvOperation]).

(** Callbacks that record their arguments. *)
Definition recording_onRetry (attempt : nat) (error : JSError)
    : M N St Metadata unit :=
  emit (EvOnRetry attempt error).

Definition recording_onProgress (completed total : Z) : M N St Metadata unit :=
  emit (EvProgress completed total).

(** How many times the operation was invoked. *)
Fixpoint operation_calls (events : list (Event N Metadata)) : nat :=
  match events with
  | [] => O
  | EvOperation :: rest => S (operation_calls rest)
  | _ :: rest => operation_calls rest
  end.

(** The arguments of the [onRetry] invocations, in order. *)
Fixpoint onRetry_calls (events : list (Event N Metadata)) : list (nat * JSError) :=
  match events with
  | [] => []
  | EvOnRetry attempt error :: rest => (attempt, error) :: onRetry_calls rest
  | _ :: rest => onRetry_calls rest
  end.

(** The arguments of the [onProgress] invocations, in order. *)
Fixpoint progress_calls (events : list (Event N Metadata)) : list (Z * Z) :=
  match events with
  | [] => []
  | EvProgress completed total :: rest => (completed, total) :: progress_calls rest
  | _ :: rest => progress_calls rest
  end.

(** The RPCs sent to the backend, in order. *)
Fixpoint dispatched (events : list (Event N Metadata))
    : list (string * RpcArgs N Metadata) :=
  match events with
  | [] => []
  | EvRpc fn args :: rest => (fn, args) :: dispatched rest
  | _ :: rest => dispatched rest
  end.

(** The four weights of a dispatched weighted search. *)
Definition weights_of (args : WeightedArgs N Metadata) : N * N * N * N :=
  (weight_main args, weight_section_1 args,
   weight_section_2 args, weight_section_3 args).

(** [Array.isArray(v)] *)
Definition is_array (v : JSValue N) : bool :=
  match v with JSArray _ => true | _ => false end.

(** A component that is not a number, or is the number NaN. *)
Definition not_a_number_or_NaN (val : JSValue N) : Prop :=
  match val with
  | JSNumber x => isNaN x = true
  | _ => True
  end.

(** A component that is a number other than NaN. *)
Definition number_not_NaN (val : JSValue N) : Prop :=
  exists x, val = JSNumber x /\ isNaN x = false.

(** The query of a single-vector search passes validation: the vector is
    present and not empty, and the validator accepts it when a
    dimensionality is expected. *)
Definition search_input_valid (options : SearchOptions N Metadata)
    (expectedDimensions : option Z) : Prop :=
  missing_or_empty (so_queryEmbedding options) = false
  /\ match given expectedDimensions with
     | Some d =>
         validateEmbeddingDimensions (so_queryEmbedding options) d = Returned tt
     | None => True
     end.

(** The same for the vectors of a weighted search: the main vector, and
    each section vector that is supplied. *)
Definition weighted_input_valid (options : WeightedSearchOptions N Metadata)
    (expectedDimensions : option Z) : Prop :=
  missing_or_empty (queryEmbedding options) = false
  /\ match given expectedDimensions with
     | Some d =>
         validateEmbeddingDimensions (queryEmbedding options) d = Returned tt
         /\ (truthy (querySection1 options) = true ->
             validateEmbeddingDimensions (querySection1 options) d = Returned tt)
         /\ (truthy (querySection2 options) = true ->
             validateEmbeddingDimensions (querySection2 options) d = Returned tt)
         /\ (truthy (querySection3 options) = true ->
             validateEmbeddingDimensions (querySection3 options) d = Returned tt)
     | None => True
     end.

(** Each of four weights divided by [total]. *)
Definition divided_by (weights : N * N * N * N) (total : N) : N * N * N * N :=
  let '(wMain, w1, w2, w3) := weights in
  ((wMain / total)%num, (w1 / total)%num, (w2 / total)%num, (w3 / total)%num).

(** The weighted RPCs among the dispatched ones all carry these weights. *)
Definition all_weights (calls : list (string * RpcArgs N Metadata))
    (weights : N * N * N * N) : Prop :=
  Forall (fun call =>
            fst call = "match_documents_weighted"
            /\ exists args, snd call = MatchWeighted args
                            /\ weights_of args = weights) calls.

(** The number of chunks of [n] documents in chunks of [b]. *)
Definition chunk_count (n b : Z) : nat := Z.to_nat ((n + b - 1) / b).

(** The count reported after chunk [k] (from 0): [b] more each time, and
    [n] after the last one. *)
Definition completed_after (n b : Z) (k : nat) : Z :=
  Z.min ((Z.of_nat k + 1) * b) n.

(** The progress reports of a batch insert that goes through. *)
Definition expected_progress (n b : Z) : list (Z * Z) :=
  map (fun k => (completed_after n b k, n)) (seq 0 (chunk_count n b)).

(** The whole trace of a batch insert when no insert fails: for each chunk
    its insertion, then its progress report. *)
Definition expected_trace (tableName : string) (empty_metadata : Metadata)
    (documents : list (Document N Metadata)) (b : Z)
    : list (Event N Metadata) :=
  let n := Z.of_nat (List.length documents) in
  flat_map
    (fun k =>
       [EvInsert tableName
          (map (insert_row empty_metadata)
             (slice documents (Z.of_nat k * b) (Z.of_nat k * b + b)));
        EvProgress (completed_after n b k) n])
    (seq 0 (chunk_count n b)).

(** Every insert is accepted and answered with rows. *)
Definition accepts_every_insert
    (client : SupabaseClient N St Metadata SearchResult) : Prop :=
  forall table rows s,
    exists data s',
      insert_select client table rows s = (Resolved (Some data) None, s').

(** A backend that answers every RPC with no rows and accepts every insert,
    returning nothing of interest. *)
Definition quiet_client : SupabaseClient N St Metadata SearchResult :=
  {| rpc := fun _ _ s => (Resolved (Some []) None, s);
     insert_select := fun _ _ s => (Resolved (Some []) None, s) |}.

(** [{ ...options, matchThreshold: value }] and
    [{ ...options, matchCount: value }], for both kinds of options. *)
Definition search_with_threshold (options : SearchOptions N Metadata)
    (value : option N) : SearchOptions N Metadata :=
  {| so_queryEmbedding := so_queryEmbedding options;
     so_matchThreshold := value;
     so_matchCount := so_matchCount options;
     so_filterMetadata := so_filterMetadata options |}.

Definition search_with_count (options : SearchOptions N Metadata)
    (value : option Z) : SearchOptions N Metadata :=
  {| so_queryEmbedding := so_queryEmbedding options;
     so_matchThreshold := so_matchThreshold options;
     so_matchCount := value;
     so_filterMetadata := so_filterMetadata options |}.

Definition weighted_with_threshold (options : WeightedSearchOptions N Metadata)
    (value : option N) : WeightedSearchOptions N Metadata :=
  {| queryEmbedding := queryEmbedding options;
     querySection1 := querySection1 options;
     querySection2 := querySection2 options;
     querySection3 := querySection3 options;
     weightMain := weightMain options;
     weightSection1 := weightSection1 options;
     weightSection2 := weightSection2 options;
     weightSection3 := weightSection3 options;
     matchThreshold := value;
     matchCount := matchCount options;
     filterMetadata := filterMetadata options |}.

Definition weighted_with_count (options : WeightedSearchOptions N Metadata)
    (value : option Z) : WeightedSearchOptions N Metadata :=
  {| queryEmbedding := queryEmbedding options;
     querySection1 := querySection1 options;
     querySection2 := querySection2 options;
     querySection3 := querySection3 options;
     weightMain := weightMain options;
     weightSection1 := weightSection1 options;
     weightSection2 := weightSection2 options;
     weightSection3 := weightSection3 options;
     matchThreshold := matchThreshold options;
     matchCount := value;
     filterMetadata := filterMetadata options |}.

(** Every dispatched call is a weighted RPC whose arguments satisfy [P]. *)
Definition all_weighted_args (calls : list (string * RpcArgs N Metadata))
    (P : WeightedArgs N Metadata -> Prop) : Prop :=
  Forall (fun call =>
            exists args,
              call = ("match_documents_weighted", MatchWeighted args)
              /\ P args) calls.

(** Every dispatched call is a single-vector RPC whose arguments satisfy
    [P]. *)
Definition all_match_args (calls : list (string * RpcArgs N Metadata))
    (P : MatchArgs N Metadata -> Prop) : Prop :=
  Forall (fun call =>
            exists args,
              call = ("match_documents", Match args) /\ P args) calls.

End Doubles.

(** Example inputs on binary64 numbers: a three-component query vector,
    with the weights, threshold and count left to the example. *)
Definition example_vector : JSValue float :=
  JSArray [JSNumber 0.1%float; JSNumber 0.2%float; JSNumber 0.3%float].

Definition example_search (threshold : option float) (count : option Z)
    : SearchOptions float unit :=
  {| so_queryEmbedding := example_vector;
     so_matchThreshold := threshold;
     so_matchCount := count;
     so_filterMetadata := None |}.

Definition example_weighted (wMain w1 w2 w3 : option float)
    (threshold : option float) (count : option Z)
    : WeightedSearchOptions float unit :=
  {| queryEmbedding := example_vector;
     querySection1 := JSUndefined;
     querySection2 := JSArray [JSNumber 0.3%float; JSNumber 0.2%float; JSNumber 0.1%float];
     querySection3 := JSUndefined;
     weightMain := wMain;
     weightSection1 := w1;
     weightSection2 := w2;
     weightSection3 := w3;
     matchThreshold := threshold;
     matchCount := count;
     filterMetadata := None |}.

(** A document with content only. *)
Definition example_document (text : string) : Document float unit :=
  {| doc_content := text; doc_metadata := None;
     doc_embedding := JSUndefined; doc_embedding_section_1 := JSUndefined;
     doc_embedding_section_2 := JSUndefined;
     doc_embedding_section_3 := JSUndefined |}.

(** The backend of the examples: no state, no rows, no failures. *)
Definition example_client : SupabaseClient float unit unit unit := quiet_client.

(* ================================================================== *)
(** ** The statement inside [match_documents_weighted] *)
(* ================================================================== *)

(** The SELECT of the function, as syntax, with the part of PostgreSQL's
    semantics it exercises: three-valued expressions over one row, the
    grouping rule of the analyser, WHERE / HAVING / ORDER BY / LIMIT. *)
Module Sql.

Section Query.

Context {N : Type} {NN : Number N}.
(** [Vector] and [<=>] come from the pgvector extension, [@>] on [jsonb]
    from PostgreSQL; they are parameters of the model. *)
Context {Vector Jsonb Uuid : Type}.
Variable cosine_distance : Vector -> Vector -> N.
Variable jsonb_contains : Jsonb -> Jsonb -> bool.

(** A row of [public.documents] (migration 002; the timestamps are not
    read by the query). *)
Record DocumentsRow : Type := {
  id : Uuid;
  content : string;
  metadata : option Jsonb;
  embedding : option Vector;
  embedding_section_1 : option Vector;
  embedding_section_2 : option Vector;
  embedding_section_3 : option Vector
}.

(** The arguments of the function; [None] is SQL NULL. *)
Record CallArgs : Type := {
  query_embedding : option Vector;
  query_section_1 : option Vector;
  query_section_2 : option Vector;
  query_section_3 : option Vector;
  weight_main : option N;
  weight_section_1 : option N;
  weight_section_2 : option N;
  weight_section_3 : option N;
  match_threshold : option N;
  match_count : option Z;
  filter_metadata : option Jsonb
}.

Inductive Column : Type :=
| c_id | c_content | c_metadata | c_embedding
| c_embedding_section_1 | c_embedding_section_2 | c_embedding_section_3.

Inductive Param : Type :=
| p_query_embedding | p_query_section_1 | p_query_section_2 | p_query_section_3
| p_weight_main | p_weight_section_1 | p_weight_section_2 | p_weight_section_3
| p_match_threshold | p_match_count | p_filter_metadata.

Inductive Value : Type :=
| VNull
| VFloat (x : N)
| VInt (z : Z)
| VBool (b : bool)
| VText (s : string)
| VUuid (u : Uuid)
| VJsonb (j : Jsonb)
| VVector (v : Vector).

Inductive Expr : Type :=
| Col (c : Column)                    (* documents.c *)
| Par (p : Param)
| Lit (x : N)
| Dist (a b : Expr)                   (* a <=> b *)
| Minus (a b : Expr)
| Times (a b : Expr)
| Plus (a b : Expr)
| Coalesce (a b : Expr)
| CaseWhen (c t e : Expr)             (* CASE WHEN c THEN t ELSE e END *)
| NullLit                             (* NULL *)
| IsNull (a : Expr)
| IsNotNull (a : Expr)
| And (a b : Expr)
| Or (a b : Expr)
| GreaterEq (a b : Expr)
| Contains (a b : Expr).              (* a @> b *)

Definition of_option {A} (inj : A -> Value) (x : option A) : Value :=
  match x with Some a => inj a | None => VNull end.

Definition column_value (row : DocumentsRow) (c : Column) : Value :=
  match c with
  | c_id => VUuid (id row)
  | c_content => VText (content row)
  | c_metadata => of_option VJsonb (metadata row)
  | c_embedding => of_option VVector (embedding row)
  | c_embedding_section_1 => of_option VVector (embedding_section_1 row)
  | c_embedding_section_2 => of_option VVector (embedding_section_2 row)
  | c_embedding_section_3 => of_option VVector (embedding_section_3 row)
  end.

Definition parameter_value (args : CallArgs) (p : Param) : Value :=
  match p with
  | p_query_embedding => of_option VVector (query_embedding args)
  | p_query_section_1 => of_option VVector (query_section_1 args)
  | p_query_section_2 => of_option VVector (query_section_2 args)
  | p_query_section_3 => of_option VVector (query_section_3 args)
  | p_weight_main => of_option VFloat (weight_main args)
  | p_weight_section_1 => of_option VFloat (weight_section_1 args)
  | p_weight_section_2 => of_option VFloat (weight_section_2 args)
  | p_weight_section_3 => of_option VFloat (weight_section_3 args)
  | p_match_threshold => of_option VFloat (match_threshold args)
  | p_match_count => of_option VInt (match_count args)
  | p_filter_metadata => of_option VJsonb (filter_metadata args)
  end.

(** A strict binary operator on floats: NULL if either side is NULL. *)
Definition float_op (f : N -> N -> Value) (a b : Value) : option Value :=
  match a, b with
  | VFloat x, VFloat y => Some (f x y)
  | VNull, (VNull | VFloat _) | VFloat _, VNull => Some VNull
  | _, _ => None
  end.

(** Evaluation over one row ([None] for the grouped query, which has no
    current row).  The outer [None] is a type error or a column read with
    no row. *)
Fixpoint eval (args : CallArgs) (row : option DocumentsRow) (e : Expr)
    : option Value :=
  match e with
  | Col c => option_map (fun r => column_value r c) row
  | Par p => Some (parameter_value args p)
  | Lit x => Some (VFloat x)
  | NullLit => Some VNull
  | Dist a b =>
      match eval args row a, eval args row b with
      | Some (VVector u), Some (VVector v) => Some (VFloat (cosine_distance u v))
      | Some VNull, Some (VNull | VVector _)
      | Some (VVector _), Some VNull => Some VNull
      | _, _ => None
      end
  | Minus a b =>
      match eval args row a, eval args row b with
      | Some x, Some y => float_op (fun x y => VFloat (x - y)%num) x y
      | _, _ => None
      end
  | Times a b =>
      match eval args row a, eval args row b with
      | Some x, Some y => float_op (fun x y => VFloat (x * y)%num) x y
      | _, _ => None
      end
  | Plus a b =>
      match eval args row a, eval args row b with
      | Some x, Some y => float_op (fun x y => VFloat (x + y)%num) x y
      | _, _ => None
      end
  | GreaterEq a b =>
      match eval args row a, eval args row b with
      | Some x, Some y => float_op (fun x y => VBool (x >= y)%num) x y
      | _, _ => None
      end
  | Coalesce a b =>
      match eval args row a, eval args row b with
      | Some VNull, Some y => Some y
      | Some x, Some _ => Some x
      | _, _ => None
      end
  | CaseWhen c t e =>
      match eval args row c, eval args row t, eval args row e with
      | Some (VBool true), Some x, Some _ => Some x
      | Some (VBool false | VNull), Some _, Some y => Some y
      | _, _, _ => None
      end
  | IsNull a =>
      match eval args row a with
      | Some VNull => Some (VBool true)
      | Some _ => Some (VBool false)
      | None => None
      end
  | IsNotNull a =>
      match eval args row a with
      | Some VNull => Some (VBool false)
      | Some _ => Some (VBool true)
      | None => None
      end
  | And a b =>
      match eval args row a, eval args row b with
      | Some (VBool false), Some (VBool _ | VNull)
      | Some (VBool true | VNull), Some (VBool false) => Some (VBool false)
      | Some (VBool true), Some (VBool true) => Some (VBool true)
      | Some (VBool true | VNull), Some VNull
      | Some VNull, Some (VBool true) => Some VNull
      | _, _ => None
      end
  | Or a b =>
      match eval args row a, eval args row b with
      | Some (VBool true), Some (VBool _ | VNull)
      | Some (VBool false | VNull), Some (VBool true) => Some (VBool true)
      | Some (VBool false), Some (VBool false) => Some (VBool false)
      | Some (VBool false | VNull), Some VNull
      | Some VNull, Some (VBool false) => Some VNull
      | _, _ => None
      end
  | Contains a b =>
      match eval args row a, eval args row b with
      | Some (VJsonb x), Some (VJsonb y) => Some (VBool (jsonb_contains x y))
      | Some VNull, Some (VNull | VJsonb _)
      | Some (VJsonb _), Some VNull => Some VNull
      | _, _ => None
      end
  end.

(** Does the expression read a column of the FROM table? *)
Fixpoint reads_column (e : Expr) : bool :=
  match e with
  | Col _ => true
  | Par _ | Lit _ | NullLit => false
  | IsNull a | IsNotNull a => reads_column a
  | Dist a b | Minus a b | Times a b | Plus a b | Coalesce a b
  | And a b | Or a b | GreaterEq a b | Contains a b =>
      reads_column a || reads_column b
  | CaseWhen c t e => reads_column c || reads_column t || reads_column e
  end.

(** [SELECT targets FROM public.documents WHERE .. HAVING .. ORDER BY
    <output column> DESC LIMIT ..]; the statement has no GROUP BY and no
    aggregate function, so neither has the syntax. *)
Record Select : Type := {
  targets : list (string * Expr);
  where_ : option Expr;
  having : option Expr;
  order_by_desc : string;
  limit : Expr
}.

Inductive SqlError : Type :=
| GroupingError     (* 42803: column must appear in the GROUP BY clause or
                       be used in an aggregate function *)
| DatatypeMismatch  (* an operator applied to the wrong type *)
| InvalidLimit.     (* 2201W: LIMIT must not be negative *)

(** The analyser's grouping rule: a HAVING clause makes the query a grouped
    one (a single group when there is no GROUP BY), and in a grouped query
    the target list and the HAVING clause may read a column only through
    GROUP BY or an aggregate; here, not at all. *)
Definition grouping_ok (q : Select) : bool :=
  match having q with
  | None => true
  | Some h =>
      negb (existsb (fun t => reads_column (snd t)) (targets q))
      && negb (reads_column h)
  end.

(** A condition keeps a row when it is true, not when it is false or NULL. *)
Definition holds (args : CallArgs) (row : option DocumentsRow)
    (cond : option Expr) : option bool :=
  match cond with
  | None => Some true
  | Some e =>
      match eval args row e with
      | Some (VBool b) => Some b
      | Some VNull => Some false
      | _ => None
      end
  end.

Definition project (args : CallArgs) (row : option DocumentsRow)
    (q : Select) : option (list (string * Value)) :=
  fold_right
    (fun t acc =>
       match eval args row (snd t), acc with
       | Some v, Some vs => Some ((fst t, v) :: vs)
       | _, _ => None
       end)
    (Some []) (targets q).

Fixpoint filter_rows (args : CallArgs) (cond : option Expr)
    (rows : list DocumentsRow) : option (list DocumentsRow) :=
  match rows with
  | [] => Some []
  | r :: rest =>
      match holds args (Some r) cond, filter_rows args cond rest with
      | Some true, Some kept => Some (r :: kept)
      | Some false, Some kept => Some kept
      | _, _ => None
      end
  end.

Fixpoint project_rows (args : CallArgs) (q : Select)
    (rows : list DocumentsRow) : option (list (list (string * Value))) :=
  match rows with
  | [] => Some []
  | r :: rest =>
      match project args (Some r) q, project_rows args q rest with
      | Some out, Some outs => Some (out :: outs)
      | _, _ => None
      end
  end.

Fixpoint output_column (name : string) (out : list (string * Value)) : Value :=
  match out with
  | [] => VNull
  | (n, v) :: rest => if String.eqb n name then v else output_column name rest
  end.

(** [a] sorts before [b] under DESC: NULLs first, then larger floats. *)
Definition before_desc (a b : Value) : bool :=
  match a, b with
  | VNull, VNull => false
  | VNull, _ => true
  | VFloat x, VFloat y => (x > y)%num
  | _, _ => false
  end.

Fixpoint insert_desc (name : string) (out : list (string * Value))
    (sorted : list (list (string * Value))) : list (list (string * Value)) :=
  match sorted with
  | [] => [out]
  | o :: rest =>
      if before_desc (output_column name out) (output_column name o)
      then out :: sorted
      else o :: insert_desc name out rest
  end.

Definition sort_desc (name : string) (outs : list (list (string * Value)))
    : list (list (string * Value)) :=
  fold_right (insert_desc name) [] outs.

Definition apply_limit {A} (args : CallArgs) (q : Select) (outs : list A)
    : SqlError + list A :=
  match eval args None (limit q) with
  | Some VNull => inr outs
  | Some (VInt n) => if n <? 0 then inl InvalidLimit else inr (firstn (Z.to_nat n) outs)
  | _ => inl DatatypeMismatch
  end.

(** Running a SELECT over the table. *)
Definition run (q : Select) (args : CallArgs) (table : list DocumentsRow)
    : SqlError + list (list (string * Value)) :=
  if negb (grouping_ok q) then inl GroupingError
  else
    match filter_rows args (where_ q) table with
    | None => inl DatatypeMismatch
    | Some kept =>
        match having q with
        | None =>
            match project_rows args q kept with
            | None => inl DatatypeMismatch
            | Some outs => apply_limit args q (sort_desc (order_by_desc q) outs)
            end
        | Some h =>
            (* one group, whatever the table holds *)
            match holds args None (Some h), project args None q with
            | Some true, Some out => apply_limit args q [out]
            | Some false, Some _ => inr []
            | _, _ => inl DatatypeMismatch
            end
        end
    end.

(** [1 - (documents.<column> <=> <query>)] *)
Definition similarity_to (c : Column) (p : Param) : Expr :=
  Minus (Lit lit_1) (Dist (Col c) (Par p)).

(** [COALESCE(CASE WHEN <query> IS NOT NULL AND documents.<column> IS NOT NULL
     THEN (1 - (documents.<column> <=> <query>)) * <weight> ELSE 0 END, 0)] *)
Definition section_term (c : Column) (p w : Param) : Expr :=
  Coalesce
    (CaseWhen (And (IsNotNull (Par p)) (IsNotNull (Col c)))
       (Times (similarity_to c p) (Par w))
       (Lit lit_0))
    (Lit lit_0).

(** The weighted sum, as it is written twice in the statement. *)
Definition weighted_similarity : Expr :=
  Plus (Plus (Plus
    (Times (Coalesce (similarity_to c_embedding p_query_embedding) (Lit lit_0))
           (Par p_weight_main))
    (section_term c_embedding_section_1 p_query_section_1 p_weight_section_1))
    (section_term c_embedding_section_2 p_query_section_2 p_weight_section_2))
    (section_term c_embedding_section_3 p_query_section_3 p_weight_section_3).

(** [CASE WHEN <query> IS NOT NULL AND documents.<column> IS NOT NULL
     THEN (1 - (documents.<column> <=> <query>)) ELSE NULL END] *)
Definition section_similarity (c : Column) (p : Param) : Expr :=
  CaseWhen (And (IsNotNull (Par p)) (IsNotNull (Col c)))
    (similarity_to c p) NullLit.

Definition statement : Select :=
  {| targets :=
       [ ("id", Col c_id);
         ("content", Col c_content);
         ("metadata", Col c_metadata);
         ("similarity", weighted_similarity);
         ("similarity_main", similarity_to c_embedding p_query_embedding);
         ("similarity_section_1",
            section_similarity c_embedding_section_1 p_query_section_1);
         ("similarity_section_2",
            section_similarity c_embedding_section_2 p_query_section_2);
         ("similarity_section_3",
            section_similarity c_embedding_section_3 p_query_section_3) ];
     where_ :=
       Some (Or (IsNull (Par p_filter_metadata))
                (Contains (Col c_metadata) (Par p_filter_metadata)));
     having := Some (GreaterEq weighted_similarity (Par p_match_threshold));
     order_by_desc := "similarity";
     limit := Par p_match_count |}.

(** What one section slot adds to the aggregate according to the
    specification: similarity times weight when the query vector and the
    document's embedding are both present, 0 otherwise. *)
Definition slot_contribution (query stored : option Vector) (weight : N) : N :=
  match query, stored with
  | Some q, Some e => ((lit_1 - cosine_distance e q) * weight)%num
  | _, _ => lit_0
  end.

(** [RETURN QUERY <statement>] *)
Definition match_documents_weighted (args : CallArgs)
    (table : list DocumentsRow) : SqlError + list (list (string * Value)) :=
  run statement args table.

End Query.

End Sql.

(* ================================================================== *)
(** ** The rest of the retry utility (src/utils/retry.ts) *)
(* ================================================================== *)

(** Strings are ASCII text here, as the messages of Node, PostgREST and
    PostgreSQL are; on ASCII text [toLowerCase] changes the letters A-Z and
    nothing else. *)
Definition lower_ascii (c : Ascii.ascii) : Ascii.ascii :=
  let code := Ascii.nat_of_ascii c in
  if (65 <=? code)%nat && (code <=? 90)%nat
  then Ascii.ascii_of_nat (code + 32)
  else c.

(** [s.toLowerCase()] *)
Fixpoint toLowerCase (s : string) : string :=
  match s with
  | EmptyString => EmptyString
  | String c rest => String (lower_ascii c) (toLowerCase rest)
  end.

(** [s.includes(sub)] *)
Fixpoint includes (s sub : string) : bool :=
  String.prefix sub s
  || match s with
     | EmptyString => false
     | String _ rest => includes rest sub
     end.

Definition retryableMessages : list string :=
  [ "ECONNREFUSED"; "ECONNRESET"; "ETIMEDOUT"; "ENOTFOUND";
    "network"; "timeout"; "connection";
    "PGRST301";   (* Supabase timeout *)
    "PGRST504" ]. (* Supabase gateway timeout *)

(** [error.message]; reading a property of [undefined] throws a TypeError. *)
Definition message_of (error : JSError) : Outcome string :=
  match error with
  | ValidationError message _ | SearchError message _
  | EmbeddingError message _ | OtherError message => Returned message
  | ThrownUndefined =>
      Thrown (OtherError "Cannot read properties of undefined (reading 'message')")
  end.

Definition isRetryableError (error : JSError) : Outcome bool :=
  match message_of error with
  | Returned message =>
      let errorMessage := toLowerCase message in
      Returned (existsb (fun msg => includes errorMessage (toLowerCase msg))
                  retryableMessages)
  | Thrown typeError => Thrown typeError
  end.

Section ConditionalRetry.

Context {N : Type} {NN : Number N} {St Metadata : Type}.

(** The [onRetry] that [withConditionalRetry] passes to [withRetry]. *)
Definition conditional_onRetry
    (userOnRetry : option (nat -> JSError -> M N St Metadata unit))
    (attempt : nat) (error : JSError) : M N St Metadata unit :=
  retryable <- lift (isRetryableError error) ;;
  if negb retryable then throw error
  else
    match userOnRetry with
    | Some callback => callback attempt error
    | None => ret tt
    end.

(** [{ ...options, onRetry: ... }] inside [try { return await withRetry(..) }
    catch (error) { throw error; }] *)
Definition withConditionalRetry {T} (operation : M N St Metadata T)
    (options : RetryOptions N St Metadata) : M N St Metadata T :=
  try_catch
    (withRetry operation
       {| maxRetries := maxRetries options;
          initialDelayMs := initialDelayMs options;
          exponentialBackoff := exponentialBackoff options;
          maxDelayMs := maxDelayMs options;
          onRetry := Some (conditional_onRetry (onRetry options)) |})
    (fun error => throw error).

(** The delay [withRetry] computes after the failure of attempt [attempt]. *)
Definition retry_delay (options : RetryOptions N St Metadata) (attempt : nat) : Z :=
  if nullish (exponentialBackoff options) true
  then Z.min (nullish (initialDelayMs options) 1000 * 2 ^ Z.of_nat attempt)
         (nullish (maxDelayMs options) 10000)
  else nullish (initialDelayMs options) 1000.

(** The durations of the sleeps, in order. *)
Fixpoint sleep_calls (events : list (Event N Metadata)) : list Z :=
  match events with
  | [] => []
  | EvSleep ms :: rest => ms :: sleep_calls rest
  | _ :: rest => sleep_calls rest
  end.

(** The messages logged, in order. *)
Fixpoint log_calls (events : list (Event N Metadata)) : list (LogLevel * string) :=
  match events with
  | [] => []
  | EvLog level message :: rest => (level, message) :: log_calls rest
  | _ :: rest => log_calls rest
  end.

(** The chunks of rows sent to [insert], in order. *)
Fixpoint insert_calls (events : list (Event N Metadata))
    : list (list (InsertRow N Metadata)) :=
  match events with
  | [] => []
  | EvInsert _ rows :: rest => rows :: insert_calls rest
  | _ :: rest => insert_calls rest
  end.

(** [if (onRetry) { onRetry(attempt, error); }] *)
Definition call_onRetry
    (callback : option (nat -> JSError -> M N St Metadata unit))
    (attempt : nat) (error : JSError) : M N St Metadata unit :=
  match callback with
  | Some f => f attempt error
  | None => ret tt
  end.

(** What [withRetry] causes when the attempts [0 .. failures - 1] fail and
    attempt [failures] is the last one made: for each failed attempt what
    the attempt caused, what the callback caused, the sleep; then what the
    last attempt caused.  [first] is the state before attempt 0. *)
Definition retry_trace (options : RetryOptions N St Metadata)
    (attempt_events : nat -> list (Event N Metadata))
    (callback_events : nat -> JSError -> list (Event N Metadata))
    (errs : nat -> JSError) (first failures : nat)
    : list (Event N Metadata) :=
  flat_map
    (fun k =>
       attempt_events (first + k)%nat
       ++ callback_events (S k) (errs k)
       ++ [EvSleep (retry_delay options k)])
    (seq 0 failures)
  ++ attempt_events (first + failures)%nat.

End ConditionalRetry.

(** What the catch block of both searches makes of an error. *)
Definition surfaced (unexpected_message : string) (error : JSError) : JSError :=
  if is_ValidationError_or_SearchError error then error
  else SearchError unexpected_message None.

Section ScriptedBackend.

Context {N : Type} {Metadata SearchResult : Type}.

(** A backend whose [k]-th call (counted from 0 by the state, RPCs and
    inserts alike) is answered by [rpc_replies k] or [insert_replies k]. *)
Definition scripted_backend
    (rpc_replies : nat -> Reply (list SearchResult))
    (insert_replies : nat -> Reply (list (Document N Metadata)))
    : SupabaseClient N nat Metadata SearchResult :=
  {| rpc := fun _ _ calls => (rpc_replies calls, S calls);
     insert_select := fun _ _ calls => (insert_replies calls, S calls) |}.

(** How one attempt of a search ends on a given reply. *)
Definition search_outcome (failed_message : string)
    (reply : Reply (list SearchResult)) : Outcome (list SearchResult) :=
  match reply with
  | Resolved data (Some error) =>
      Thrown (SearchError failed_message (Some (pg_code error)))
  | Resolved data None => Returned (nullish data [])
  | Rejected reason => Thrown reason
  end.

(** How one attempt of a chunk insert ends on a given reply. *)
Definition batch_outcome (reply : Reply (list (Document N Metadata)))
    : Outcome (option (list (Document N Metadata))) :=
  match reply with
  | Resolved data (Some error) =>
      Thrown (SearchError batch_failed_message (Some (pg_code error)))
  | Resolved data None => Returned data
  | Rejected reason => Thrown reason
  end.

End ScriptedBackend.


(* ================================================================== *)
(** ** Vector helpers (src/embeddings/index.ts) *)
(* ================================================================== *)

(** [Math.sqrt] *)
Class Sqrt (N : Type) : Type := math_sqrt : N -> N.

#[global] Instance binary64_sqrt : Sqrt float := PrimFloat.sqrt.

Section Vectors.

Context {N : Type} {NN : Number N} {NS : Sqrt N}.

(** [embedding.reduce((sum, val) => sum + val * val, 0)] *)
Definition sum_of_squares (embedding : list N) : N :=
  fold_left (fun sum val => (sum + val * val)%num) embedding lit_0.

Definition normalizeEmbedding (embedding : list N) : Outcome (list N) :=
  let magnitude := math_sqrt (sum_of_squares embedding) in
  if (magnitude === lit_0)%num
  then Thrown (EmbeddingError "Cannot normalize zero vector" (Some "ZERO_VECTOR"))
  else Returned (map (fun val => (val / magnitude)%num) embedding).

(** The loop of [cosineSimilarity] over the two vectors, which have the same
    length when it is entered; the accumulators are [dotProduct],
    [magnitude1] and [magnitude2]. *)
Fixpoint cosine_loop (embedding1 embedding2 : list N) (acc : N * N * N)
    : N * N * N :=
  match embedding1, embedding2 with
  | x :: rest1, y :: rest2 =>
      let '(dotProduct, magnitude1, magnitude2) := acc in
      cosine_loop rest1 rest2
        ((dotProduct + x * y)%num, (magnitude1 + x * x)%num,
         (magnitude2 + y * y)%num)
  | _, _ => acc
  end.

Definition cosineSimilarity (embedding1 embedding2 : list N) : Outcome N :=
  if negb (List.length embedding1 =? List.length embedding2)%nat
  then Thrown (EmbeddingError "Embeddings must have same dimensions"
                 (Some "DIMENSION_MISMATCH"))
  else
    let '(dotProduct, magnitude1, magnitude2) :=
      cosine_loop embedding1 embedding2 (lit_0, lit_0, lit_0) in
    let magnitude1 := math_sqrt magnitude1 in
    let magnitude2 := math_sqrt magnitude2 in
    if (magnitude1 === lit_0)%num || (magnitude2 === lit_0)%num
    then Returned lit_0
    else Returned (dotProduct / (magnitude1 * magnitude2))%num.

End Vectors.

(* ================================================================== *)
(** ** Generating embeddings (src/embeddings/index.ts) *)
(* ================================================================== *)

(** White space as [trim] sees it on ASCII text: TAB, LF, VT, FF, CR and
    the space. *)
Definition is_whitespace (c : Ascii.ascii) : bool :=
  let code := Ascii.nat_of_ascii c in
  ((9 <=? code)%nat && (code <=? 13)%nat) || (code =? 32)%nat.

Fixpoint trimStart (s : string) : string :=
  match s with
  | EmptyString => EmptyString
  | String c rest => if is_whitespace c then trimStart rest else s
  end.

Fixpoint trimEnd (s : string) : string :=
  match s with
  | EmptyString => EmptyString
  | String c rest =>
      match trimEnd rest with
      | EmptyString => if is_whitespace c then EmptyString else String c EmptyString
      | kept => String c kept
      end
  end.

(** [s.trim()] *)
Definition trim (s : string) : string := trimEnd (trimStart s).

(** A string is truthy unless it is empty. *)
Definition truthy_string (s : string) : bool :=
  match s with
  | EmptyString => false
  | String _ _ => true
  end.

(** [text && text.trim().length > 0], the filter of the batch function. *)
Definition valid_text (text : string) : bool :=
  truthy_string text && (0 <? String.length (trim text))%nat.

(** [error instanceof EmbeddingError] *)
Definition is_EmbeddingError (error : JSError) : bool :=
  match error with
  | EmbeddingError _ _ => true
  | _ => false
  end.

(** [error instanceof Error ? error.message : 'Unknown error'] *)
Definition message_or_unknown (error : JSError) : string :=
  match error with
  | ValidationError message _ | SearchError message _
  | EmbeddingError message _ | OtherError message => message
  | ThrownUndefined => "Unknown error"
  end.

(** The argument of [provider.generateEmbedding]: a string or an array of
    strings. *)
Inductive ProviderInput : Type :=
| OneText (text : string)
| ManyTexts (batch : list string).

(** The texts of the calls of a provider, one after the other. *)
Definition texts_sent (calls : list ProviderInput) : list string :=
  flat_map (fun input =>
              match input with
              | OneText text => [text]
              | ManyTexts batch => batch
              end) calls.

Section Embeddings.

Context {N : Type} {NN : Number N} {St Metadata : Type}.

(** An embedding provider, as far as this module uses it. *)
Record EmbeddingProvider : Type := {
  provider_generateEmbedding : ProviderInput -> M N St Metadata (list (list N))
}.

(** [const [embedding] = await ...; return embedding;]: the first element,
    [undefined] ([None]) for an empty array. *)
Definition generateEmbedding (text : string) (provider : EmbeddingProvider)
    : M N St Metadata (option (list N)) :=
  try_catch
    (when (negb (truthy_string text) || negb (truthy_string (trim text)))
       (throw (EmbeddingError "Text cannot be empty" (Some "EMPTY_INPUT"))) ;;
     embeddings <- provider_generateEmbedding provider (OneText (trim text)) ;;
     ret (hd_error embeddings))
    (fun error =>
       if is_EmbeddingError error then throw error
       else throw (EmbeddingError
                     ("Failed to generate embedding: " ++ message_or_unknown error)
                     (Some "GENERATION_FAILED"))).

Record BatchEmbeddingOptions : Type := {
  texts : list string;
  batchSize : option Z;
  delayMs : option Z;
  onProgress : option (Z -> Z -> M N St Metadata unit)
}.

(** One iteration of the loop body of [generateEmbeddingsBatch]. *)
Definition embed_chunk (provider : EmbeddingProvider) (texts : list string)
    (batchSize delayMs : Z)
    (onProgress : option (Z -> Z -> M N St Metadata unit))
    (i : Z) (results : list (list N)) (completed : Z)
    : M N St Metadata (list (list N) * Z) :=
  let batch := slice texts i (i + batchSize) in
  (* Filter out empty strings *)
  let validBatch := filter valid_text batch in
  results' <- (if (0 <? List.length validBatch)%nat
               then
                 batchEmbeddings <-
                   provider_generateEmbedding provider (ManyTexts validBatch) ;;
                 ret (results ++ batchEmbeddings)
               else ret results) ;;
  let completed' := completed + Z.of_nat (List.length batch) in
  match onProgress with
  | Some callback => callback completed' (Z.of_nat (List.length texts))
  | None => ret tt
  end ;;
  when ((0 <? delayMs) && (i + batchSize <? Z.of_nat (List.length texts)))
    (sleep delayMs) ;;
  ret (results', completed').

(** [for (let i = 0; i < texts.length; i += batchSize)], entered at [i];
    [None] means that [fuel] iterations were not enough. *)
Fixpoint generateEmbeddingsBatch_loop (fuel : nat)
    (provider : EmbeddingProvider) (texts : list string)
    (batchSize delayMs : Z)
    (onProgress : option (Z -> Z -> M N St Metadata unit))
    (i : Z) (results : list (list N)) (completed : Z) (s : St)
    : option (Outcome (list (list N)) * St * list (Event N Metadata)) :=
  if i <? Z.of_nat (List.length texts) then
    match fuel with
    | O => None
    | S fuel' =>
        match embed_chunk provider texts batchSize delayMs onProgress
                i results completed s with
        | (Thrown error, s1, ev1) => Some (Thrown error, s1, ev1)
        | (Returned (results', completed'), s1, ev1) =>
            match generateEmbeddingsBatch_loop fuel' provider texts batchSize
                    delayMs onProgress (i + batchSize) results' completed' s1 with
            | Some (r, s2, ev2) => Some (r, s2, ev1 ++ ev2)
            | None => None
            end
        end
    end
  else Some (Returned results, s, []).

Definition generateEmbeddingsBatch (fuel : nat)
    (options : BatchEmbeddingOptions) (provider : EmbeddingProvider) (s : St)
    : option (Outcome (list (list N)) * St * list (Event N Metadata)) :=
  if Z.of_nat (List.length (texts options)) =? 0 then Some (Returned [], s, [])
  else
    match generateEmbeddingsBatch_loop fuel provider (texts options)
            (nullish (batchSize options) 100) (nullish (delayMs options) 0)
            (onProgress options) 0 [] 0 s with
    | Some (Thrown error, s', ev) =>
        (* catch (error) *)
        Some (if is_EmbeddingError error then Thrown error
              else Thrown (EmbeddingError
                             ("Failed to generate batch embeddings: "
                              ++ message_or_unknown error)
                             (Some "BATCH_GENERATION_FAILED")),
              s', ev)
    | other => other
    end.

End Embeddings.

Arguments EmbeddingProvider : clear implicits.
Arguments BatchEmbeddingOptions : clear implicits.

Section ProviderDoubles.

Context {N : Type} {Metadata : Type}.

(** A provider that records its calls in the state and answers by
    [answer]. *)
Definition recording_provider
    (answer : ProviderInput -> Outcome (list (list N)))
    : EmbeddingProvider N (list ProviderInput) Metadata :=
  {| provider_generateEmbedding :=
       fun input calls => (answer input, calls ++ [input], []) |}.

(** The answer of a provider that embeds each text by [embed]. *)
Definition embeds_each (embed : string -> list N) (input : ProviderInput)
    : Outcome (list (list N)) :=
  Returned match input with
           | OneText text => [embed text]
           | ManyTexts batch => map embed batch
           end.

End ProviderDoubles.

(* ================================================================== *)
(** ** Single documents (src/document/manager.ts, src/search/client.ts) *)
(* ================================================================== *)

Module DocumentManager.

Section Manager.

Context {N : Type} {NN : Number N} {St Metadata : Type}.

(** The single-row calls of the query builder. *)
Record TableClient : Type := {
  (* client.from(table).insert(row).select().single() *)
  insert_single :
    string -> InsertRow N Metadata -> St -> Reply (Document N Metadata) * St;
  (* client.from(table).select().eq('id', id).single() *)
  select_single : string -> string -> St -> Reply (Document N Metadata) * St
}.

(** [const { data, error } = await call] *)
Definition await_reply {D} (call : St -> Reply D * St)
    : M N St Metadata (option D * option PostgrestError) :=
  fun s =>
    match call s with
    | (Resolved data error, s') => (Returned (data, error), s', [])
    | (Rejected reason, s') => (Thrown reason, s', [])
    end.

(** The template strings of this file are written with an escaped dollar
    sign as well. *)
Definition insert_failed_message : string :=
  "Failed to insert document: ${error.message}".
Definition insert_retry_message : string :=
  "Retrying document insert (attempt ${attempt}/3): ${error.message}".
Definition insert_unexpected_message : string :=
  "Unexpected error inserting document: ${error instanceof Error ? error.message : 'Unknown error'}".
Definition get_failed_message : string :=
  "Failed to get document: ${error.message}".
Definition get_retry_message : string :=
  "Retrying document get (attempt ${attempt}/3): ${error.message}".
Definition get_unexpected_message : string :=
  "Unexpected error getting document: ${error instanceof Error ? error.message : 'Unknown error'}".

(** The closure passed to [withRetry] by [insert]. *)
Definition insert_operation (client : TableClient) (tableName : string)
    (empty_metadata : Metadata) (document : Document N Metadata)
    : M N St Metadata (option (Document N Metadata)) :=
  reply <- await_reply
             (insert_single client tableName (insert_row empty_metadata document)) ;;
  match snd reply with
  | Some error => throw (SearchError insert_failed_message (Some (pg_code error)))
  | None => ret (fst reply)
  end.

Definition insert (client : TableClient) (tableName : string)
    (empty_metadata : Metadata) (document : Document N Metadata)
    : M N St Metadata (option (Document N Metadata)) :=
  try_catch
    (when (negb (truthy_string (doc_content document))
           || negb (truthy_string (trim (doc_content document))))
       (throw (ValidationError "Document content is required" (Some "content"))) ;;
     withRetry (insert_operation client tableName empty_metadata document)
       (retry_3 (fun attempt error => logger_warn insert_retry_message)))
    (fun error =>
       if is_ValidationError_or_SearchError error then throw error
       else throw (SearchError insert_unexpected_message None)).

(** The closure passed to [withRetry] by [get]; [None] is [null]. *)
Definition get_operation (client : TableClient) (tableName id : string)
    : M N St Metadata (option (Document N Metadata)) :=
  reply <- await_reply (select_single client tableName id) ;;
  match snd reply with
  | Some error =>
      if String.eqb (pg_code error) "PGRST116" then ret None (* Not found *)
      else throw (SearchError get_failed_message (Some (pg_code error)))
  | None => ret (fst reply)
  end.

Definition get (client : TableClient) (tableName id : string)
    : M N St Metadata (option (Document N Metadata)) :=
  try_catch
    (withRetry (get_operation client tableName id)
       (retry_3 (fun attempt error => logger_warn get_retry_message)))
    (fun error =>
       if is_SearchError error then throw error
       else throw (SearchError get_unexpected_message None)).

End Manager.

Arguments TableClient : clear implicits.

End DocumentManager.

Module VectorSearchClient.

Section Client.

Context {N : Type} {NN : Number N} {St Metadata : Type}.

(** The value assigned to [document.embedding]: the embedding, or
    [undefined] when the provider returned none. *)
Definition embedding_value (embedding : option (list N)) : JSValue N :=
  match embedding with
  | Some components => JSArray (map JSNumber components)
  | None => JSUndefined
  end.

(** [document.embedding = value] *)
Definition with_embedding (document : Document N Metadata) (value : JSValue N)
    : Document N Metadata :=
  {| doc_content := doc_content document;
     doc_metadata := doc_metadata document;
     doc_embedding := value;
     doc_embedding_section_1 := doc_embedding_section_1 document;
     doc_embedding_section_2 := doc_embedding_section_2 document;
     doc_embedding_section_3 := doc_embedding_section_3 document |}.

(** [insertDocument]; the document that reaches the manager is the
    caller's, with the embedding assigned to it. *)
Definition insertDocument (client : DocumentManager.TableClient N St Metadata)
    (tableName : string) (empty_metadata : Metadata)
    (embeddingProvider : option (EmbeddingProvider N St Metadata))
    (document : Document N Metadata)
    : M N St Metadata (option (Document N Metadata)) :=
  document' <- match embeddingProvider with
               | Some provider =>
                   if negb (truthy (doc_embedding document)) then
                     embedding <- generateEmbedding (doc_content document) provider ;;
                     ret (with_embedding document (embedding_value embedding))
                   else ret document
               | None => ret document
               end ;;
  DocumentManager.insert client tableName empty_metadata document'.

End Client.

End VectorSearchClient.

Section TableDoubles.

Context {N : Type} {Metadata : Type}.

(** A table whose [k]-th call (counted from 0 by the state) is answered by
    [insert_replies k] or [select_replies k]. *)
Definition scripted_table
    (insert_replies select_replies : nat -> Reply (Document N Metadata))
    : DocumentManager.TableClient N nat Metadata :=
  {| DocumentManager.insert_single := fun _ _ calls => (insert_replies calls, S calls);
     DocumentManager.select_single := fun _ _ calls => (select_replies calls, S calls) |}.

(** How one attempt of [get] ends on a given reply. *)
Definition get_outcome (reply : Reply (Document N Metadata))
    : Outcome (option (Document N Metadata)) :=
  match reply with
  | Resolved data (Some error) =>
      if String.eqb (pg_code error) "PGRST116" then Returned None
      else Thrown (SearchError DocumentManager.get_failed_message
                     (Some (pg_code error)))
  | Resolved data None => Returned data
  | Rejected reason => Thrown reason
  end.

End TableDoubles.

(** A provider that leaves the state alone and answers by [answer]. *)
Definition stateless_provider {N St Metadata : Type}
    (answer : ProviderInput -> Outcome (list (list N)))
    : EmbeddingProvider N St Metadata :=
  {| provider_generateEmbedding := fun input => lift (answer input) |}.

(* ================================================================== *)
(** ** The statement inside [match_documents] *)
(* ================================================================== *)

From Stdlib Require Permutation.

(** The SELECT of the single-vector function, over the expressions and the
    rows of [Sql]: WHERE, ORDER BY an expression (ascending), LIMIT.  It is
    run as a sequential scan runs it, for a query vector of the dimension of
    the column.  pgvector raises an error when [<=>] meets vectors of
    different dimensions, and a scan of the HNSW index of migration 003 may
    leave out qualifying rows; neither is part of this semantics, so the
    facts stated of it below are those of a call that returns rows: what
    every returned row is, and how many there can be. *)
Module MatchDocuments.

Section Query.

Context {N : Type} {NN : Number N}.
Context {Vector Jsonb Uuid : Type}.
Variable cosine_distance : Vector -> Vector -> N.
Variable jsonb_contains : Jsonb -> Jsonb -> bool.

Notation Row := (Sql.DocumentsRow (Vector := Vector) (Jsonb := Jsonb) (Uuid := Uuid)).
Notation Args := (Sql.CallArgs (N := N) (Vector := Vector) (Jsonb := Jsonb)).
Notation Expr := (Sql.Expr (N := N)).
Notation Value := (Sql.Value (N := N) (Vector := Vector) (Jsonb := Jsonb) (Uuid := Uuid)).
Notation eval := (Sql.eval cosine_distance jsonb_contains).

(** [SELECT targets FROM public.documents WHERE .. ORDER BY <expression>
    LIMIT ..] *)
Record Select : Type := {
  targets : list (string * Expr);
  where_ : Expr;
  order_by : Expr;
  limit : Expr
}.

(** The function has four parameters; the others of [Sql] do not occur in
    its statement. *)
Definition call (query_embedding : option Vector) (match_threshold : option N)
    (match_count : option Z) (filter_metadata : option Jsonb) : Args :=
  {| Sql.query_embedding := query_embedding;
     Sql.query_section_1 := None;
     Sql.query_section_2 := None;
     Sql.query_section_3 := None;
     Sql.weight_main := None;
     Sql.weight_section_1 := None;
     Sql.weight_section_2 := None;
     Sql.weight_section_3 := None;
     Sql.match_threshold := match_threshold;
     Sql.match_count := match_count;
     Sql.filter_metadata := filter_metadata |}.

(** [documents.embedding <=> query_embedding] *)
Definition distance : Expr :=
  Sql.Dist (Sql.Col Sql.c_embedding) (Sql.Par Sql.p_query_embedding).

(** [1 - (documents.embedding <=> query_embedding)] *)
Definition similarity : Expr := Sql.Minus (Sql.Lit lit_1) distance.

Definition statement : Select :=
  {| targets :=
       [ ("id", Sql.Col Sql.c_id);
         ("content", Sql.Col Sql.c_content);
         ("metadata", Sql.Col Sql.c_metadata);
         ("similarity", similarity) ];
     where_ :=
       Sql.And
         (Sql.GreaterEq similarity (Sql.Par Sql.p_match_threshold))
         (Sql.Or (Sql.IsNull (Sql.Par Sql.p_filter_metadata))
                 (Sql.Contains (Sql.Col Sql.c_metadata)
                    (Sql.Par Sql.p_filter_metadata)));
     order_by := distance;
     limit := Sql.Par Sql.p_match_count |}.

(** Each kept row with the value of its sort key. *)
Fixpoint with_keys (args : Args) (key : Expr) (rows : list Row)
    : option (list (Value * Row)) :=
  match rows with
  | [] => Some []
  | r :: rest =>
      match eval args (Some r) key, with_keys args key rest with
      | Some v, Some keyed => Some ((v, r) :: keyed)
      | _, _ => None
      end
  end.

(** [a] sorts before [b] under ASC: smaller floats first, NULLs last. *)
Definition before_asc (a b : Value) : bool :=
  match a, b with
  | Sql.VFloat x, Sql.VFloat y => (y > x)%num
  | Sql.VFloat _, Sql.VNull => true
  | _, _ => false
  end.

Fixpoint insert_asc (entry : Value * Row) (sorted : list (Value * Row))
    : list (Value * Row) :=
  match sorted with
  | [] => [entry]
  | e :: rest =>
      if before_asc (fst entry) (fst e) then entry :: sorted
      else e :: insert_asc entry rest
  end.

Definition sort_asc (entries : list (Value * Row)) : list (Value * Row) :=
  fold_right insert_asc [] entries.

Definition apply_limit {A} (args : Args) (q : Select) (rows : list A)
    : Sql.SqlError + list A :=
  match eval args (@None Row) (limit q) with
  | Some Sql.VNull => inr rows
  | Some (Sql.VInt n) =>
      if n <? 0 then inl Sql.InvalidLimit else inr (firstn (Z.to_nat n) rows)
  | _ => inl Sql.DatatypeMismatch
  end.

Definition project (args : Args) (q : Select) (row : Row)
    : option (list (string * Value)) :=
  fold_right
    (fun t acc =>
       match eval args (Some row) (snd t), acc with
       | Some v, Some vs => Some ((fst t, v) :: vs)
       | _, _ => None
       end)
    (Some []) (targets q).

Fixpoint project_rows (args : Args) (q : Select) (rows : list Row)
    : option (list (list (string * Value))) :=
  match rows with
  | [] => Some []
  | r :: rest =>
      match project args q r, project_rows args q rest with
      | Some out, Some outs => Some (out :: outs)
      | _, _ => None
      end
  end.

(** Running the SELECT over the table. *)
Definition run (q : Select) (args : Args) (table : list Row)
    : Sql.SqlError + list (list (string * Value)) :=
  match Sql.filter_rows cosine_distance jsonb_contains args (Some (where_ q)) table with
  | None => inl Sql.DatatypeMismatch
  | Some kept =>
      match with_keys args (order_by q) kept with
      | None => inl Sql.DatatypeMismatch
      | Some keyed =>
          match apply_limit args q (map snd (sort_asc keyed)) with
          | inl error => inl error
          | inr chosen =>
              match project_rows args q chosen with
              | None => inl Sql.DatatypeMismatch
              | Some outs => inr outs
              end
          end
      end
  end.

(** [RETURN QUERY <statement>] *)
Definition match_documents (args : Args) (table : list Row)
    : Sql.SqlError + list (list (string * Value)) :=
  run statement args table.

(** The rows the WHERE clause keeps: an embedding, a query vector and a
    threshold are all present, the similarity reaches the threshold, and the
    metadata contain the filter when one is given. *)
Definition qualifies (args : Args) (row : Row) : bool :=
  match Sql.embedding row, Sql.query_embedding args, Sql.match_threshold args with
  | Some e, Some q, Some t =>
      ((lit_1 - cosine_distance e q)%num >= t)%num
      && match Sql.filter_metadata args with
         | None => true
         | Some f =>
             match Sql.metadata row with
             | Some m => jsonb_contains m f
             | None => false
             end
         end
  | _, _, _ => false
  end.

(** The distance of a row that has an embedding from a query vector. *)
Definition distance_of (args : Args) (row : Row) : option N :=
  match Sql.embedding row, Sql.query_embedding args with
  | Some e, Some q => Some (cosine_distance e q)
  | _, _ => None
  end.

(** The output row of a table row. *)
Definition output (args : Args) (row : Row) : list (string * Value) :=
  [ ("id", Sql.VUuid (Sql.id row));
    ("content", Sql.VText (Sql.content row));
    ("metadata", Sql.of_option Sql.VJsonb (Sql.metadata row));
    ("similarity",
       match distance_of args row with
       | Some d => Sql.VFloat (lit_1 - d)%num
       | None => Sql.VNull
       end) ].

(** The sort key of a row. *)
Definition key_of (args : Args) (row : Row) : Value :=
  match distance_of args row with
  | Some d => Sql.VFloat d
  | None => Sql.VNull
  end.

(** The kept rows in the order of the ORDER BY clause. *)
Definition ranked (args : Args) (table : list Row) : list Row :=
  map snd (sort_asc (map (fun row => (key_of args row, row))
                       (filter (qualifies args) table))).

End Query.

End MatchDocuments.

(** A table of three documents over exact numbers; vectors are numbers,
    their distance is the absolute difference, and a JSON object is a list
    of tags. *)
Definition example_distance (u v : Q) : Q := Qabs (u - v).

Definition example_contains (object filter : list string) : bool :=
  forallb (fun tag => existsb (String.eqb tag) object) filter.

Definition example_row (key : nat) (text : string) (tags : option (list string))
    (vector : option Q)
    : Sql.DocumentsRow (Vector := Q) (Jsonb := list string) (Uuid := nat) :=
  {| Sql.id := key; Sql.content := text; Sql.metadata := tags;
     Sql.embedding := vector;
     Sql.embedding_section_1 := None;
     Sql.embedding_section_2 := None;
     Sql.embedding_section_3 := None |}.

Definition example_table
    : list (Sql.DocumentsRow (Vector := Q) (Jsonb := list string) (Uuid := nat)) :=
  [ example_row 1 "far" (Some ["resume"%string]) (Some 0.9%Q);
    example_row 2 "no embedding" (Some ["resume"%string]) None;
    example_row 3 "near" (Some ["resume"%string]) (Some 0.1%Q);
    example_row 4 "nearer" None (Some 0.05%Q) ].

(* ================================================================== *)
(** ** The dimension validator *)
(* ================================================================== *)

Section Validator.

Context {N : Type} {NN : Number N}.

Lemma valid_number_iff (val : JSValue N) :
  valid_number val = true <-> number_not_NaN val.
Proof.
  unfold number_not_NaN; destruct val; simpl; split;
    try discriminate; try (intros (x0 & Hx & _); discriminate).
  - intros Hv. exists x. split; [reflexivity|].
    destruct (isNaN x); [discriminate | reflexivity].
  - intros (x0 & Hx & Hn). injection Hx as ->. now rewrite Hn.
Qed.

Lemma valid_number_false_iff (val : JSValue N) :
  valid_number val = false <-> not_a_number_or_NaN val.
Proof.
  destruct val; simpl; try tauto.
  destruct (isNaN x); simpl; split; intros; congruence.
Qed.

Lemma forallb_valid_number (elems : list (JSValue N)) :
  forallb valid_number elems = true <-> Forall number_not_NaN elems.
Proof.
  rewrite forallb_forall, Forall_forall.
  split; intros Hall val Hin; apply valid_number_iff, Hall, Hin.
Qed.

Lemma forallb_valid_number_false (elems : list (JSValue N)) :
  Exists not_a_number_or_NaN elems -> forallb valid_number elems = false.
Proof.
  induction 1 as [val rest Hval | val rest _ IH]; simpl.
  - apply valid_number_false_iff in Hval. now rewrite Hval.
  - rewrite IH. apply andb_false_r.
Qed.

(** C5.  The validator decides in this order: a value that is not an array
    fails with INVALID_EMBEDDING_TYPE; an array whose length differs from
    the expected dimensionality fails with DIMENSION_MISMATCH; an array of
    the right length with a component that is not a number or is NaN fails
    with INVALID_EMBEDDING_VALUES; every other array is accepted (the
    function returns nothing). *)
Theorem validateEmbeddingDimensions_cases
    (embedding : JSValue N) (expectedDimensions : Z) :
  (is_array embedding = false ->
     validateEmbeddingDimensions embedding expectedDimensions
     = Thrown (EmbeddingError "Embedding must be an array"
                 (Some "INVALID_EMBEDDING_TYPE")))
  /\ (forall elems, embedding = JSArray elems ->
        Z.of_nat (List.length elems) <> expectedDimensions ->
        exists message,
          validateEmbeddingDimensions embedding expectedDimensions
          = Thrown (EmbeddingError message (Some "DIMENSION_MISMATCH")))
  /\ (forall elems, embedding = JSArray elems ->
        Z.of_nat (List.length elems) = expectedDimensions ->
        Exists not_a_number_or_NaN elems ->
        validateEmbeddingDimensions embedding expectedDimensions
        = Thrown (EmbeddingError "Embedding must contain only valid numbers"
                    (Some "INVALID_EMBEDDING_VALUES")))
  /\ (forall elems, embedding = JSArray elems ->
        Z.of_nat (List.length elems) = expectedDimensions ->
        Forall number_not_NaN elems ->
        validateEmbeddingDimensions embedding expectedDimensions = Returned tt).
Proof.
  repeat split.
  - destruct embedding; simpl; intros; try reflexivity; discriminate.
  - intros elems -> Hlen. simpl.
    destruct (Z.eqb_spec (Z.of_nat (List.length elems)) expectedDimensions);
      [contradiction|]. simpl. eexists. reflexivity.
  - intros elems -> Hlen Hbad. simpl.
    rewrite (proj2 (Z.eqb_eq _ _) Hlen). simpl.
    now rewrite (forallb_valid_number_false _ Hbad).
  - intros elems -> Hlen Hall. simpl.
    rewrite (proj2 (Z.eqb_eq _ _) Hlen). simpl.
    now rewrite (proj2 (forallb_valid_number _) Hall).
Qed.

(** C9, as the code has it.  An array is accepted exactly when it has the
    expected length and every component is a number other than NaN;
    finiteness is not examined. *)
Theorem validateEmbeddingDimensions_accepts_iff
    (elems : list (JSValue N)) (expectedDimensions : Z) :
  validateEmbeddingDimensions (JSArray elems) expectedDimensions = Returned tt
  <-> Z.of_nat (List.length elems) = expectedDimensions
      /\ Forall number_not_NaN elems.
Proof.
  simpl. split.
  - destruct (Z.eqb_spec (Z.of_nat (List.length elems)) expectedDimensions);
      simpl; [|discriminate].
    destruct (forallb valid_number elems) eqn:Hall; simpl; [|discriminate].
    intros _. split; [assumption | now apply forallb_valid_number].
  - intros [Hlen Hall].
    rewrite (proj2 (Z.eqb_eq _ _) Hlen). simpl.
    now rewrite (proj2 (forallb_valid_number _) Hall).
Qed.

End Validator.

(** The four cases of C5 on binary64 inputs: a string, a vector one
    component short, a vector holding NaN, a well-formed vector. *)
Lemma validateEmbeddingDimensions_cases_witness :
  validateEmbeddingDimensions (N := float) (JSString "0.1,0.2") 2
    = Thrown (EmbeddingError "Embedding must be an array"
                (Some "INVALID_EMBEDDING_TYPE"))
  /\ (exists message,
        validateEmbeddingDimensions (JSArray [JSNumber 0.5%float]) 2
        = Thrown (EmbeddingError message (Some "DIMENSION_MISMATCH")))
  /\ validateEmbeddingDimensions (JSArray [JSNumber 0.5%float; JSNumber nan]) 2
     = Thrown (EmbeddingError "Embedding must contain only valid numbers"
                 (Some "INVALID_EMBEDDING_VALUES"))
  /\ validateEmbeddingDimensions
       (JSArray [JSNumber 0.5%float; JSNumber 0.25%float]) 2
     = Returned tt.
Proof.
  split; [|split; [|split]].
  - apply (validateEmbeddingDimensions_cases (JSString "0.1,0.2") 2).
    reflexivity.
  - apply (proj1 (proj2 (validateEmbeddingDimensions_cases
                           (JSArray [JSNumber 0.5%float]) 2))
             [JSNumber 0.5%float]); [reflexivity | simpl; lia].
  - apply (proj1 (proj2 (proj2 (validateEmbeddingDimensions_cases
                                  (JSArray [JSNumber 0.5%float; JSNumber nan]) 2)))
             [JSNumber 0.5%float; JSNumber nan]); [reflexivity | reflexivity |].
    apply Exists_cons_tl, Exists_cons_hd. reflexivity.
  - apply (proj2 (proj2 (proj2 (validateEmbeddingDimensions_cases
                                  (JSArray [JSNumber 0.5%float; JSNumber 0.25%float]) 2)))
             [JSNumber 0.5%float; JSNumber 0.25%float]); [reflexivity | reflexivity |].
    repeat constructor; eexists; (split; [reflexivity | reflexivity]).
Defined.

(** C9 fails on the code: a vector of the expected length whose components
    are all numbers, one of them infinite, is accepted. *)
Lemma validateEmbeddingDimensions_accepts_infinity :
  let embedding := [JSNumber 0.5%float; JSNumber infinity; JSNumber neg_infinity] in
  Z.of_nat (List.length embedding) = 3
  /\ Forall (fun val => exists x : float, val = JSNumber x) embedding
  /\ Exists (fun val => val = JSNumber infinity \/ val = JSNumber neg_infinity)
       embedding
  /\ validateEmbeddingDimensions (JSArray embedding) 3 = Returned tt.
Proof.
  simpl. split; [reflexivity|]. split; [|split].
  - repeat constructor; eexists; reflexivity.
  - apply Exists_cons_tl, Exists_cons_hd. now left.
  - reflexivity.
Qed.

(** An accepted vector and a rejected one, for the equivalence above. *)
Lemma validateEmbeddingDimensions_accepts_iff_witness :
  (validateEmbeddingDimensions (N := float)
     (JSArray [JSNumber infinity; JSNumber 1%float]) 2 = Returned tt
   <-> Z.of_nat (List.length [JSNumber infinity; JSNumber 1%float]) = 2
       /\ Forall number_not_NaN [JSNumber infinity; JSNumber 1%float])
  /\ validateEmbeddingDimensions (N := float)
       (JSArray [JSNumber infinity; JSNumber 1%float]) 2 = Returned tt.
Proof.
  split.
  - apply validateEmbeddingDimensions_accepts_iff.
  - apply validateEmbeddingDimensions_accepts_iff. split; [reflexivity|].
    repeat constructor; eexists; (split; [reflexivity | reflexivity]).
Defined.

(* ================================================================== *)
(** ** The retry executor *)
(* ================================================================== *)

Section Observers.

Context {N : Type} {Metadata : Type}.
Implicit Types ev : list (Event N Metadata).

Lemma operation_calls_app ev1 ev2 :
  operation_calls (ev1 ++ ev2) = (operation_calls ev1 + operation_calls ev2)%nat.
Proof.
  induction ev1 as [|[] ev1 IH]; simpl; rewrite ?IH; reflexivity.
Qed.

Lemma onRetry_calls_app ev1 ev2 :
  onRetry_calls (ev1 ++ ev2) = onRetry_calls ev1 ++ onRetry_calls ev2.
Proof.
  induction ev1 as [|[] ev1 IH]; simpl; rewrite ?IH; reflexivity.
Qed.

Lemma progress_calls_app ev1 ev2 :
  progress_calls (ev1 ++ ev2) = progress_calls ev1 ++ progress_calls ev2.
Proof.
  induction ev1 as [|[] ev1 IH]; simpl; rewrite ?IH; reflexivity.
Qed.

Lemma dispatched_app ev1 ev2 :
  dispatched (ev1 ++ ev2) = dispatched ev1 ++ dispatched ev2.
Proof.
  induction ev1 as [|[] ev1 IH]; simpl; rewrite ?IH; reflexivity.
Qed.

End Observers.

Section Retry.

Context {N : Type} {NN : Number N} {Metadata : Type} {T : Type}.

Variable script : nat -> Outcome T.
Variable errs : nat -> JSError.
Variables (budget : nat) (initialDelay : Z) (backoff : bool) (maxDelay : Z).
(** Whether the caller supplied a callback (the recording one). *)
Variable supplied : bool.

Let callback : option (nat -> JSError -> M N nat Metadata unit) :=
  if supplied then Some recording_onRetry else None.

(** The executor's loop around the scripted operation. *)
Let loop :=
  retry_loop (scripted script) budget initialDelay backoff maxDelay callback.

(** The callback invocations caused by failures of attempts
    [first, first + 1, ..., first + count - 1]. *)
Let retries (first count : nat) : list (nat * JSError) :=
  if supplied then map (fun k => (S k, errs k)) (seq first count) else [].

Lemma loop_success remaining attempt lastError v :
  script attempt = Returned v ->
  loop (S remaining) attempt lastError attempt
  = (Returned v, S attempt, [EvOperation]).
Proof.
  intros Hv. unfold loop. simpl. unfold try_catch, scripted. now rewrite Hv.
Qed.

Lemma loop_last_failure remaining lastError :
  script budget = Thrown (errs budget) ->
  loop (S remaining) budget lastError budget
  = (Thrown (errs budget), S budget, [EvOperation]).
Proof.
  intros He. unfold loop. simpl. unfold try_catch, scripted. rewrite He.
  rewrite Nat.eqb_refl. reflexivity.
Qed.

Lemma loop_failure remaining attempt lastError :
  script attempt = Thrown (errs attempt) ->
  attempt <> budget ->
  exists ev0,
    operation_calls ev0 = 1%nat
    /\ onRetry_calls ev0 = retries attempt 1
    /\ loop (S remaining) attempt lastError attempt
       = let '(r, s, ev) :=
           loop remaining (S attempt) (Some (errs attempt)) (S attempt) in
         (r, s, ev0 ++ ev).
Proof.
  intros He Hne. unfold loop, retries, callback.
  set (delay := if backoff
                then Z.min (initialDelay * 2 ^ Z.of_nat attempt) maxDelay
                else initialDelay).
  destruct supplied.
  - exists [EvOperation; EvOnRetry (S attempt) (errs attempt); EvSleep delay].
    split; [reflexivity|]. split; [reflexivity|].
    simpl. unfold try_catch.
    change (scripted script attempt)
      with (script attempt, S attempt, [@EvOperation N Metadata]).
    rewrite He, (proj2 (Nat.eqb_neq _ _) Hne).
    unfold bind, recording_onRetry, sleep, emit. rewrite Nat.add_1_r.
    destruct (retry_loop _ _ _ _ _ _ remaining (S attempt) _ (S attempt))
      as [[r s] ev].
    reflexivity.
  - exists [EvOperation; EvSleep delay].
    split; [reflexivity|]. split; [reflexivity|].
    simpl. unfold try_catch.
    change (scripted script attempt)
      with (script attempt, S attempt, [@EvOperation N Metadata]).
    rewrite He, (proj2 (Nat.eqb_neq _ _) Hne).
    unfold bind, ret, sleep, emit.
    destruct (retry_loop _ _ _ _ _ _ remaining (S attempt) _ (S attempt))
      as [[r s] ev].
    reflexivity.
Qed.

Lemma retries_cons attempt count :
  retries attempt 1 ++ retries (S attempt) count = retries attempt (S count).
Proof. unfold retries. destruct supplied; reflexivity. Qed.

(** Failing attempts [attempt .. j-1], then success at attempt [j]. *)
Lemma loop_fails_then_succeeds j v :
  (j <= budget)%nat ->
  script j = Returned v ->
  forall remaining attempt lastError,
    (attempt + remaining = S budget)%nat ->
    (attempt <= j)%nat ->
    (forall k, (attempt <= k < j)%nat -> script k = Thrown (errs k)) ->
    exists events,
      loop remaining attempt lastError attempt = (Returned v, S j, events)
      /\ operation_calls events = S (j - attempt)
      /\ onRetry_calls events = retries attempt (j - attempt).
Proof.
  intros Hj Hv. induction remaining as [|remaining IH];
    intros attempt lastError Hsum Hle Hfail; [lia|].
  destruct (Nat.eq_dec attempt j) as [-> | Hlt].
  - rewrite (loop_success _ _ _ _ Hv). eexists. split; [reflexivity|].
    rewrite Nat.sub_diag. unfold retries.
    split; [reflexivity | now destruct supplied].
  - destruct (loop_failure remaining attempt lastError)
      as (ev0 & Hop0 & Hcb0 & ->); [apply Hfail; lia | lia |].
    destruct (IH (S attempt) (Some (errs attempt)))
      as (events & -> & Hops & Hcbs);
      [lia | lia | intros; apply Hfail; lia |].
    eexists. split; [reflexivity|].
    rewrite operation_calls_app, onRetry_calls_app, Hop0, Hcb0, Hops, Hcbs.
    split; [simpl; f_equal; lia|].
    rewrite retries_cons. f_equal. lia.
Qed.

(** Failing attempts [attempt .. budget]. *)
Lemma loop_always_fails :
  forall remaining attempt lastError,
    (attempt + remaining = S budget)%nat ->
    (attempt <= budget)%nat ->
    (forall k, (attempt <= k <= budget)%nat -> script k = Thrown (errs k)) ->
    exists events,
      loop remaining attempt lastError attempt
      = (Thrown (errs budget), S budget, events)
      /\ operation_calls events = remaining
      /\ onRetry_calls events = retries attempt (budget - attempt).
Proof.
  induction remaining as [|remaining IH];
    intros attempt lastError Hsum Hle Hfail; [lia|].
  destruct (Nat.eq_dec attempt budget) as [-> | Hlt].
  - rewrite loop_last_failure by (apply Hfail; lia).
    eexists. split; [reflexivity|]. rewrite Nat.sub_diag. unfold retries.
    split; [simpl; f_equal; lia | now destruct supplied].
  - destruct (loop_failure remaining attempt lastError)
      as (ev0 & Hop0 & Hcb0 & ->); [apply Hfail; lia | lia |].
    destruct (IH (S attempt) (Some (errs attempt)))
      as (events & -> & Hops & Hcbs);
      [lia | lia | intros; apply Hfail; lia |].
    eexists. split; [reflexivity|].
    rewrite operation_calls_app, onRetry_calls_app, Hop0, Hcb0, Hops, Hcbs.
    split; [reflexivity|].
    rewrite retries_cons. f_equal. lia.
Qed.

End Retry.

(** C3.  Around an operation whose first [maxRetries] invocations fail and
    whose next one succeeds, [withRetry] returns the success value after
    [maxRetries + 1] invocations and calls [onRetry] exactly [maxRetries]
    times, with attempt numbers 1, 2, ... and the error of the attempt that
    failed.  Around an operation that fails at every invocation, it invokes
    the operation exactly [maxRetries + 1] times and throws the error of the
    last invocation, the very value the operation threw.  [maxRetries] is
    the option, or 3 when it is not set; the delays are arbitrary. *)
Theorem withRetry_budget {N} {NN : Number N} {Metadata T : Type}
    (script : nat -> Outcome T) (errs : nat -> JSError)
    (maxRetries_ : option nat) (initialDelayMs_ maxDelayMs_ : option Z)
    (exponentialBackoff_ : option bool) (supplied : bool) :
  let options : RetryOptions N nat Metadata :=
    {| maxRetries := maxRetries_;
       initialDelayMs := initialDelayMs_;
       exponentialBackoff := exponentialBackoff_;
       maxDelayMs := maxDelayMs_;
       onRetry := if supplied then Some recording_onRetry else None |} in
  let budget := nullish maxRetries_ 3%nat in
  (forall v,
     (forall k, (k < budget)%nat -> script k = Thrown (errs k)) ->
     script budget = Returned v ->
     exists events,
       withRetry (scripted script) options O = (Returned v, S budget, events)
       /\ operation_calls events = S budget
       /\ onRetry_calls events
          = (if supplied
             then map (fun k => (S k, errs k)) (seq 0 budget) else [])
       /\ (supplied = true -> List.length (onRetry_calls events) = budget))
  /\ ((forall k, (k <= budget)%nat -> script k = Thrown (errs k)) ->
      exists events,
        withRetry (scripted script) options O
        = (Thrown (errs budget), S budget, events)
        /\ operation_calls events = S budget
        /\ (supplied = true -> List.length (onRetry_calls events) = budget)).
Proof.
  intros options budget. split.
  - intros v Hfail Hv.
    destruct (loop_fails_then_succeeds (N := N) (Metadata := Metadata)
                script errs budget
                (nullish initialDelayMs_ 1000) (nullish exponentialBackoff_ true)
                (nullish maxDelayMs_ 10000) supplied budget v
                (Nat.le_refl _) Hv (S budget) O None)
      as (events & Hrun & Hops & Hcbs);
      [reflexivity | lia | intros; apply Hfail; lia |].
    exists events. rewrite Nat.sub_0_r in Hops, Hcbs.
    split; [exact Hrun|]. split; [exact Hops|]. split; [exact Hcbs|].
    intros ->. rewrite Hcbs, length_map, length_seq. reflexivity.
  - intros Hfail.
    destruct (loop_always_fails (N := N) (Metadata := Metadata)
                script errs budget
                (nullish initialDelayMs_ 1000) (nullish exponentialBackoff_ true)
                (nullish maxDelayMs_ 10000) supplied (S budget) O None)
      as (events & Hrun & Hops & Hcbs);
      [reflexivity | lia | intros; apply Hfail; lia |].
    exists events. rewrite Nat.sub_0_r in Hcbs.
    split; [exact Hrun|]. split; [exact Hops|].
    intros ->. rewrite Hcbs, length_map, length_seq. reflexivity.
Qed.

(* ================================================================== *)
(** ** The search orchestrator *)
(* ================================================================== *)

Section Orchestrator.

Context {N : Type} {NN : Number N} {St Metadata SearchResult : Type}.

Notation Ev := (Event N Metadata).
Notation Mon := (M N St Metadata).

Variable client : SupabaseClient N St Metadata SearchResult.

(** One attempt of a search sends exactly one RPC, whatever the reply. *)
Lemma search_operation_dispatched options s :
  dispatched (snd (search_operation client options s))
  = [("match_documents", Match (search_args options))].
Proof.
  unfold search_operation, bind, client_rpc.
  destruct (rpc client _ _ s) as [[data error | reason] s']; simpl;
    [destruct error|]; reflexivity.
Qed.

Lemma weighted_operation_dispatched options normalized s :
  dispatched (snd (weighted_operation client options normalized s))
  = [("match_documents_weighted",
      MatchWeighted (weighted_args options normalized))].
Proof.
  unfold weighted_operation, bind, client_rpc.
  destruct (rpc client _ _ s) as [[data error | reason] s']; simpl;
    [destruct error|]; reflexivity.
Qed.

Lemma retry_loop_S {T} (operation : Mon T) budget initialDelay backoff maxDelay
    callback remaining attempt lastError :
  retry_loop operation budget initialDelay backoff maxDelay callback
    (S remaining) attempt lastError
  = try_catch operation (fun error =>
      if Nat.eqb attempt budget then throw_lastError (Some error)
      else
        match callback with
        | Some callback => callback (attempt + 1)%nat error
        | None => ret tt
        end ;;
        sleep (if backoff
               then Z.min (initialDelay * 2 ^ Z.of_nat attempt) maxDelay
               else initialDelay) ;;
        retry_loop operation budget initialDelay backoff maxDelay callback
          remaining (S attempt) (Some error)).
Proof. reflexivity. Qed.

(** Around an operation that sends the RPC [call] once per attempt, with a
    callback that only logs, the retry loop sends [call] at least once and
    at most once per remaining iteration, and nothing else. *)
Lemma retry_loop_dispatched {T} (operation : Mon T) call message
    budget initialDelay backoff maxDelay :
  (forall s, dispatched (snd (operation s)) = [call]) ->
  forall remaining attempt lastError s,
    exists k,
      (1 <= k <= S remaining)%nat
      /\ dispatched
           (snd (retry_loop operation budget initialDelay backoff maxDelay
                   (Some (fun _ _ => logger_warn message))
                   (S remaining) attempt lastError s))
         = repeat call k.
Proof.
  intros Hop. induction remaining as [|remaining IH];
    intros attempt lastError s; rewrite retry_loop_S; unfold try_catch;
    pose proof (Hop s) as Hs;
    destruct (operation s) as [[[v | error] s1] ev1]; cbn [snd] in Hs |- *.
  - exists 1%nat. split; [lia | exact Hs].
  - exists 1%nat. split; [lia|].
    destruct (Nat.eqb attempt budget); cbn.
    + rewrite app_nil_r. exact Hs.
    + rewrite !dispatched_app, Hs. reflexivity.
  - exists 1%nat. split; [lia | exact Hs].
  - destruct (Nat.eqb attempt budget).
    + exists 1%nat. split; [lia|]. cbn. rewrite app_nil_r. exact Hs.
    + destruct (IH (S attempt) (Some error) s1) as (k & Hk & Hrest).
      exists (S k). split; [lia|].
      unfold bind at 1 2. unfold logger_warn, sleep, emit.
      destruct (retry_loop _ _ _ _ _ _ (S remaining) (S attempt) _ s1)
        as [[r s2] ev2]. cbn [snd] in Hrest |- *.
      rewrite !dispatched_app, Hs, Hrest. reflexivity.
Qed.

Lemma validate_query_passes (options : WeightedSearchOptions N Metadata)
    expectedDimensions (s : St) :
  weighted_input_valid options expectedDimensions ->
  validate_query options expectedDimensions s = (Returned tt, s, []).
Proof.
  intros [Hmain Hdims]. unfold validate_query, bind, when, lift, ret.
  rewrite Hmain.
  destruct (given expectedDimensions) as [d|]; [|reflexivity].
  destruct Hdims as (H0 & H1 & H2 & H3). rewrite H0.
  destruct (truthy (querySection1 options)); [rewrite H1 by reflexivity|];
    (destruct (truthy (querySection2 options)); [rewrite H2 by reflexivity|]);
    (destruct (truthy (querySection3 options)); [rewrite H3 by reflexivity|]);
    reflexivity.
Qed.

(** The three ways [normalizeWeights] ends. *)
Lemma normalizeWeights_zero (options : WeightedSearchOptions N Metadata)
    (s : St) :
  (sumWeights (providedWeights options) === lit_0)%num = true ->
  normalizeWeights options s
  = (Thrown (ValidationError "Weights cannot all be zero" (Some "weights")),
     s, []).
Proof.
  unfold normalizeWeights, sumWeights.
  destruct (providedWeights options) as [[[wMain w1] w2] w3].
  intros Hzero. unfold bind, when. rewrite Hzero. reflexivity.
Qed.

Lemma normalizeWeights_rescaled (options : WeightedSearchOptions N Metadata)
    (s : St) :
  let '(wMain, w1, w2, w3) := providedWeights options in
  let total := sumWeights (providedWeights options) in
  (total === lit_0)%num = false ->
  (num_abs (total - lit_1) > lit_0_01)%num = true ->
  normalizeWeights options s
  = (Returned ((wMain / total)%num, (w1 / total)%num,
               (w2 / total)%num, (w3 / total)%num),
     s, [EvLog Info weights_normalized_message]).
Proof.
  unfold normalizeWeights, sumWeights.
  destruct (providedWeights options) as [[[wMain w1] w2] w3].
  intros Hzero Hfar. unfold bind, when. rewrite Hzero, Hfar. reflexivity.
Qed.

Lemma normalizeWeights_unchanged (options : WeightedSearchOptions N Metadata)
    (s : St) :
  let total := sumWeights (providedWeights options) in
  (total === lit_0)%num = false ->
  (num_abs (total - lit_1) > lit_0_01)%num = false ->
  normalizeWeights options s = (Returned (providedWeights options), s, []).
Proof.
  unfold normalizeWeights, sumWeights.
  destruct (providedWeights options) as [[[wMain w1] w2] w3].
  intros Hzero Hnear. unfold bind, when. rewrite Hzero, Hnear. reflexivity.
Qed.

(** With valid vectors and weights that normalise to [w], a weighted search
    sends the RPC between one and four times, always with the weights [w],
    and nothing else. *)
Lemma searchWeighted_dispatched (options : WeightedSearchOptions N Metadata)
    expectedDimensions (s : St) w (ev0 : list Ev) :
  weighted_input_valid options expectedDimensions ->
  normalizeWeights options s = (Returned w, s, ev0) ->
  dispatched ev0 = [] ->
  exists k,
    (1 <= k <= 4)%nat
    /\ dispatched (snd (searchWeighted client options expectedDimensions s))
       = repeat ("match_documents_weighted",
                 MatchWeighted (weighted_args options w)) k.
Proof.
  intros Hvalid Hnorm Hquiet. unfold searchWeighted, try_catch.
  unfold bind at 1. rewrite (validate_query_passes _ _ _ Hvalid).
  unfold bind at 1. rewrite Hnorm.
  destruct (retry_loop_dispatched
              (weighted_operation client options w) _
              weighted_retry_message 3 1000 true 10000
              (weighted_operation_dispatched options w) 3 O None s)
    as (k & Hk & Hcalls).
  exists k. split; [exact Hk|].
  unfold withRetry, retry_3. cbn [maxRetries initialDelayMs exponentialBackoff
                                   maxDelayMs onRetry nullish].
  destruct (retry_loop _ _ _ _ _ _ 4 O None s) as [[[v | error] s1] ev1];
    cbn [snd] in Hcalls |- *.
  - rewrite !dispatched_app, Hquiet. exact Hcalls.
  - destruct (is_ValidationError_or_SearchError error); cbn;
      rewrite app_nil_r, !dispatched_app, Hquiet; exact Hcalls.
Qed.

(** With a valid vector, a search sends the RPC between one and four times,
    always with the same arguments, and nothing else. *)
Lemma search_dispatched (options : SearchOptions N Metadata)
    expectedDimensions (s : St) :
  search_input_valid options expectedDimensions ->
  exists k,
    (1 <= k <= 4)%nat
    /\ dispatched (snd (search client options expectedDimensions s))
       = repeat ("match_documents", Match (search_args options)) k.
Proof.
  intros [Hmain Hdims]. unfold search, try_catch.
  unfold bind at 1. unfold when. rewrite Hmain. unfold ret at 1.
  unfold bind at 1.
  assert (Hlift : match given expectedDimensions with
                  | Some d => lift (validateEmbeddingDimensions
                                      (so_queryEmbedding options) d)
                  | None => ret tt
                  end s = (Returned tt, s, @nil Ev)).
  { destruct (given expectedDimensions); [rewrite Hdims|]; reflexivity. }
  rewrite Hlift.
  destruct (retry_loop_dispatched
              (search_operation client options) _
              search_retry_message 3 1000 true 10000
              (search_operation_dispatched options) 3 O None s)
    as (k & Hk & Hcalls).
  exists k. split; [exact Hk|].
  unfold withRetry, retry_3. cbn [maxRetries initialDelayMs exponentialBackoff
                                   maxDelayMs onRetry nullish].
  destruct (retry_loop _ _ _ _ _ _ 4 O None s) as [[[v | error] s1] ev1];
    cbn [snd] in Hcalls |- *.
  - exact Hcalls.
  - destruct (is_ValidationError_or_SearchError error); cbn;
      rewrite app_nil_r; exact Hcalls.
Qed.

Lemma weights_of_weighted_args (options : WeightedSearchOptions N Metadata) w :
  weights_of (weighted_args options w) = w.
Proof. destruct w as [[[wMain w1] w2] w3]. reflexivity. Qed.

Lemma all_weights_repeat (options : WeightedSearchOptions N Metadata) w k :
  all_weights
    (repeat ("match_documents_weighted",
             MatchWeighted (weighted_args options w)) k) w.
Proof.
  unfold all_weights. apply Forall_forall. intros call Hin.
  apply repeat_spec in Hin. subst call. split; [reflexivity|].
  eexists. split; [reflexivity | apply weights_of_weighted_args].
Qed.

(** [searchWeighted_dispatched], read as a fact about the weights sent. *)
Lemma searchWeighted_weights (options : WeightedSearchOptions N Metadata)
    expectedDimensions (s : St) w (ev0 : list Ev) :
  weighted_input_valid options expectedDimensions ->
  normalizeWeights options s = (Returned w, s, ev0) ->
  dispatched ev0 = [] ->
  let calls :=
    dispatched (snd (searchWeighted client options expectedDimensions s)) in
  calls <> [] /\ all_weights calls w.
Proof.
  intros Hvalid Hnorm Hquiet.
  destruct (searchWeighted_dispatched _ _ _ _ _ Hvalid Hnorm Hquiet)
    as (k & Hk & Hcalls).
  cbv zeta. rewrite Hcalls. split.
  - destruct k; [lia | discriminate].
  - apply all_weights_repeat.
Qed.

(** The two ways a weighted search with a non-zero total goes on. *)
Lemma searchWeighted_rescaled (options : WeightedSearchOptions N Metadata)
    expectedDimensions (s : St) :
  weighted_input_valid options expectedDimensions ->
  let provided := providedWeights options in
  let total := sumWeights provided in
  (total === lit_0)%num = false ->
  (num_abs (total - lit_1) > lit_0_01)%num = true ->
  let calls :=
    dispatched (snd (searchWeighted client options expectedDimensions s)) in
  calls <> [] /\ all_weights calls (divided_by provided total).
Proof.
  intros Hvalid provided total Hzero Hfar.
  pose proof (normalizeWeights_rescaled options s) as Hnorm.
  fold provided in Hnorm. unfold divided_by.
  destruct provided as [[[wMain w1] w2] w3] eqn:Hprovided.
  specialize (Hnorm Hzero Hfar).
  exact (searchWeighted_weights options expectedDimensions s _ _
           Hvalid Hnorm eq_refl).
Qed.

Lemma searchWeighted_unchanged (options : WeightedSearchOptions N Metadata)
    expectedDimensions (s : St) :
  weighted_input_valid options expectedDimensions ->
  let provided := providedWeights options in
  let total := sumWeights provided in
  (total === lit_0)%num = false ->
  (num_abs (total - lit_1) > lit_0_01)%num = false ->
  let calls :=
    dispatched (snd (searchWeighted client options expectedDimensions s)) in
  calls <> [] /\ all_weights calls provided.
Proof.
  intros Hvalid provided total Hzero Hnear.
  exact (searchWeighted_weights options expectedDimensions s _ _
           Hvalid (normalizeWeights_unchanged options s Hzero Hnear) eq_refl).
Qed.

(** With valid vectors and a non-zero total, the RPC is sent between one and
    four times, each time with the arguments built from the options and one
    and the same weights. *)
Lemma searchWeighted_calls (options : WeightedSearchOptions N Metadata)
    expectedDimensions (s : St) :
  weighted_input_valid options expectedDimensions ->
  (sumWeights (providedWeights options) === lit_0)%num = false ->
  exists k w,
    (1 <= k <= 4)%nat
    /\ dispatched (snd (searchWeighted client options expectedDimensions s))
       = repeat ("match_documents_weighted",
                 MatchWeighted (weighted_args options w)) k.
Proof.
  intros Hvalid Hzero.
  destruct (num_abs (sumWeights (providedWeights options) - lit_1) > lit_0_01)%num
    eqn:Hfar.
  - pose proof (normalizeWeights_rescaled options s) as Hnorm.
    destruct (providedWeights options) as [[[wMain w1] w2] w3] eqn:Hprovided.
    specialize (Hnorm Hzero Hfar).
    destruct (searchWeighted_dispatched _ _ _ _ _ Hvalid Hnorm eq_refl)
      as (k & Hk & Hcalls).
    eauto.
  - destruct (searchWeighted_dispatched _ _ _ _ _ Hvalid
                (normalizeWeights_unchanged options s Hzero Hfar) eq_refl)
      as (k & Hk & Hcalls).
    eauto.
Qed.

(** The validator throws nothing but [EmbeddingError]. *)
Lemma validateEmbeddingDimensions_throws (embedding : JSValue N) d error :
  validateEmbeddingDimensions embedding d = Thrown error ->
  is_ValidationError_or_SearchError error = false.
Proof.
  unfold validateEmbeddingDimensions.
  destruct embedding; try (intros [= <-]; reflexivity).
  destruct (negb _); [intros [= <-]; reflexivity|].
  destruct (negb _); [intros [= <-]; reflexivity | discriminate].
Qed.

(** A search without a usable query vector throws the validation error
    itself and touches nothing. *)
Lemma search_missing_vector (options : SearchOptions N Metadata)
    expectedDimensions (s : St) :
  missing_or_empty (so_queryEmbedding options) = true ->
  search client options expectedDimensions s
  = (Thrown (ValidationError "Query embedding is required"
               (Some "queryEmbedding")), s, []).
Proof.
  intros Hmissing. unfold search, try_catch, bind, when.
  rewrite Hmissing. reflexivity.
Qed.

Lemma searchWeighted_missing_vector (options : WeightedSearchOptions N Metadata)
    expectedDimensions (s : St) :
  missing_or_empty (queryEmbedding options) = true ->
  searchWeighted client options expectedDimensions s
  = (Thrown (ValidationError "Query embedding is required"
               (Some "queryEmbedding")), s, []).
Proof.
  intros Hmissing. unfold searchWeighted, try_catch, validate_query, bind, when.
  rewrite Hmissing. reflexivity.
Qed.

(** A search whose query vector the validator rejects throws a new
    [SearchError] with the "unexpected error" text, and touches nothing. *)
Lemma search_dimension_failure (options : SearchOptions N Metadata)
    expectedDimensions d error (s : St) :
  missing_or_empty (so_queryEmbedding options) = false ->
  given expectedDimensions = Some d ->
  validateEmbeddingDimensions (so_queryEmbedding options) d = Thrown error ->
  search client options expectedDimensions s
  = (Thrown (SearchError search_unexpected_message None), s, []).
Proof.
  intros Hmain Hd Hthrown. unfold search, try_catch, bind, when, lift, ret.
  rewrite Hmain, Hd, Hthrown.
  rewrite (validateEmbeddingDimensions_throws _ _ _ Hthrown). reflexivity.
Qed.

(** A weighted search whose vectors are valid and whose weights add up to
    zero throws the weight error and touches nothing. *)
Lemma searchWeighted_zero_total (options : WeightedSearchOptions N Metadata)
    expectedDimensions (s : St) :
  weighted_input_valid options expectedDimensions ->
  (sumWeights (providedWeights options) === lit_0)%num = true ->
  searchWeighted client options expectedDimensions s
  = (Thrown (ValidationError "Weights cannot all be zero" (Some "weights")),
     s, []).
Proof.
  intros Hvalid Hzero. unfold searchWeighted, try_catch.
  unfold bind at 1. rewrite (validate_query_passes _ _ _ Hvalid).
  unfold bind at 1. rewrite (normalizeWeights_zero _ _ Hzero). reflexivity.
Qed.

End Orchestrator.

(* ================================================================== *)
(** ** Facts about binary64 comparisons *)
(* ================================================================== *)

Lemma SFcompare_antisym (a b : spec_float) :
  SFcompare b a = option_map CompOpp (SFcompare a b).
Proof.
  destruct a as [sa | sa | | sa ma ea], b as [sb | sb | | sb mb eb]; simpl;
    try reflexivity;
    try (destruct sa; reflexivity); try (destruct sb; reflexivity);
    try (destruct sa, sb; reflexivity).
  destruct sa, sb; simpl; try reflexivity;
    rewrite (Z.compare_antisym ea eb);
    destruct (ea ?= eb)%Z; simpl; try reflexivity;
    rewrite ?CompOpp_involutive.
  - f_equal. apply (Pos.compare_cont_antisym mb ma Eq).
  - f_equal. symmetry. apply (Pos.compare_cont_antisym ma mb Eq).
Qed.

(** [x <= y] excludes [y < x]. *)
Lemma leb_ltb_false (x y : float) :
  PrimFloat.leb x y = true -> PrimFloat.ltb y x = false.
Proof.
  rewrite FloatAxioms.leb_spec, FloatAxioms.ltb_spec. unfold SFleb, SFltb.
  rewrite (SFcompare_antisym (Prim2SF x) (Prim2SF y)).
  destruct (SFcompare (Prim2SF x) (Prim2SF y)) as [[]|]; simpl; congruence.
Qed.

(** Only the two zeros are [===] to 0. *)
Lemma eqb_zero (t : float) :
  PrimFloat.eqb t 0 = true -> t = 0%float \/ t = (-0)%float.
Proof.
  rewrite FloatAxioms.eqb_spec. unfold SFeqb.
  change (Prim2SF 0) with (S754_zero false).
  intros H. rewrite <- (SF2Prim_Prim2SF t).
  destruct (Prim2SF t) as [[] | [] | | [] m e]; simpl in H; try discriminate.
  - right. reflexivity.
  - left. reflexivity.
Qed.

(** A total within 0.01 of 1.0 is not zero. *)
Lemma near_one_not_zero (total : float) :
  PrimFloat.leb (PrimFloat.abs (total - 1)) 0.01 = true ->
  PrimFloat.eqb total 0 = false.
Proof.
  intros Hnear. destruct (PrimFloat.eqb total 0) eqn:Hzero; [|reflexivity].
  destruct (eqb_zero _ Hzero) as [-> | ->]; vm_compute in Hnear; discriminate.
Qed.

(* ================================================================== *)
(** ** Weight normalisation as dispatched *)
(* ================================================================== *)

(** C2, as the code has it.  With valid query vectors, let [total] be the
    sum of the four effective weights (the supplied one, or 0.25).  If
    [total] is exactly zero the call throws the ValidationError on field
    "weights" and causes no event at all, so no backend call.  Otherwise the
    RPC is sent, and every time with the same weights: each effective weight
    divided by [total] when [|total - 1.0| > 0.01], the effective weights
    unchanged when not.  In exact arithmetic the divided weights add up to
    exactly 1, and the unchanged ones to [total], which is then within 0.01
    of 1 (not within 1e-6). *)
Theorem searchWeighted_normalization :
  (forall (N : Type) (NN : Number N) (St Metadata SearchResult : Type)
          (client : SupabaseClient N St Metadata SearchResult)
          (options : WeightedSearchOptions N Metadata)
          (expectedDimensions : option Z) (s : St),
      weighted_input_valid options expectedDimensions ->
      let provided := providedWeights options in
      let total := sumWeights provided in
      let calls :=
        dispatched (snd (searchWeighted client options expectedDimensions s)) in
      ((total === lit_0)%num = true ->
         searchWeighted client options expectedDimensions s
         = (Thrown (ValidationError "Weights cannot all be zero" (Some "weights")),
            s, []))
      /\ ((total === lit_0)%num = false ->
          (num_abs (total - lit_1) > lit_0_01)%num = true ->
          calls <> [] /\ all_weights calls (divided_by provided total))
      /\ ((total === lit_0)%num = false ->
          (num_abs (total - lit_1) > lit_0_01)%num = false ->
          calls <> [] /\ all_weights calls provided))
  /\ (forall a b c d : Q,
        let total := sumWeights (a, b, c, d) in
        ~ (total == 0)%Q ->
        (sumWeights (divided_by (a, b, c, d) total) == 1)%Q
        /\ ((num_abs (total - lit_1) > lit_0_01)%num = false ->
            (Qabs (total - 1) <= 0.01)%Q)).
Proof.
  split.
  - intros N NN St Metadata SearchResult client options expectedDimensions s
      Hvalid provided total calls.
    split; [|split].
    + intros Hzero. now apply searchWeighted_zero_total.
    + intros Hzero Hfar.
      now apply (searchWeighted_rescaled client options expectedDimensions s).
    + intros Hzero Hnear.
      now apply (searchWeighted_unchanged client options expectedDimensions s).
  - intros a b c d total Hnz. split.
    + unfold divided_by, sumWeights in *. cbn [num_add num_div exact] in *.
      subst total. field. exact Hnz.
    + cbn [num_abs num_sub num_ltb lit_1 lit_0_01 exact].
      intros Hnear. apply Qle_bool_iff.
      destruct (Qle_bool (Qabs (total - 1)) 0.01); [reflexivity | discriminate].
Qed.

(** The three cases of C2 on binary64 inputs, and the exact sum for the
    weights 50, 0, 50, 0. *)
Lemma searchWeighted_normalization_witness :
  (let options := (example_weighted (Some 50) (Some 0) (Some 50) (Some 0)
                    None None)%float in
   let calls :=
     dispatched (snd (searchWeighted example_client options (Some 3) tt)) in
   calls <> [] /\ all_weights calls (0.5, 0, 0.5, 0)%float)
  /\ (let options := (example_weighted (Some 0) (Some 0) (Some 0) (Some 0)
                       None None)%float in
      searchWeighted example_client options (Some 3) tt
      = (Thrown (ValidationError "Weights cannot all be zero" (Some "weights")),
         tt, []))
  /\ (let options := (example_weighted (Some 0.2) (Some 0.1) (Some 0.5) (Some 0.2)
                       None None)%float in
      let calls :=
        dispatched (snd (searchWeighted example_client options (Some 3) tt)) in
      calls <> [] /\ all_weights calls (0.2, 0.1, 0.5, 0.2)%float)
  /\ (sumWeights (divided_by (50, 0, 50, 0) (sumWeights (50, 0, 50, 0))) == 1)%Q.
Proof.
  assert (Hvalid : forall wMain w1 w2 w3,
             weighted_input_valid
               (example_weighted wMain w1 w2 w3 None None) (Some 3)).
  { intros. split; [reflexivity|]. cbn.
    repeat split; intros; try reflexivity; discriminate. }
  split; [|split; [|split]].
  - exact (proj1 (proj2 (proj1 searchWeighted_normalization
                           float binary64 unit unit unit example_client
                           (example_weighted (Some 50) (Some 0) (Some 50) (Some 0)
                              None None)%float
                           (Some 3) tt (Hvalid _ _ _ _)))
             eq_refl eq_refl).
  - exact (proj1 (proj1 searchWeighted_normalization
                    float binary64 unit unit unit example_client
                    (example_weighted (Some 0) (Some 0) (Some 0) (Some 0)
                       None None)%float
                    (Some 3) tt (Hvalid _ _ _ _))
             eq_refl).
  - exact (proj2 (proj2 (proj1 searchWeighted_normalization
                           float binary64 unit unit unit example_client
                           (example_weighted (Some 0.2) (Some 0.1) (Some 0.5)
                              (Some 0.2) None None)%float
                           (Some 3) tt (Hvalid _ _ _ _)))
             eq_refl eq_refl).
  - apply (proj2 searchWeighted_normalization 50 0 50 0)%Q.
    intros H. vm_compute in H. discriminate.
Defined.

(** C2 fails on the code as stated.  With weights 1.005, 0, 0, 0 the total
    is positive and within 0.01 of 1.0, the weights are dispatched as they
    are, and their sum differs from 1.0 by more than 1e-6.  With weights
    1e308, 1e308, 0, 0 the total overflows to Infinity, every dispatched
    weight is 0 and the sum is 0. *)
Lemma searchWeighted_sum_not_one :
  (let options := (example_weighted (Some 1.005) (Some 0) (Some 0) (Some 0)
                    None None)%float in
   let total := sumWeights (providedWeights options) in
   let calls :=
     dispatched (snd (searchWeighted example_client options None tt)) in
   PrimFloat.ltb 0 total = true
   /\ calls <> []
   /\ all_weights calls (1.005, 0, 0, 0)%float
   /\ PrimFloat.ltb 1e-6 (PrimFloat.abs (sumWeights (1.005, 0, 0, 0) - 1)) = true)%float
  /\ (let options := (example_weighted (Some 1e308) (Some 1e308) (Some 0) (Some 0)
                       None None)%float in
      let total := sumWeights (providedWeights options) in
      let calls :=
        dispatched (snd (searchWeighted example_client options None tt)) in
      PrimFloat.ltb 0 total = true
      /\ calls <> []
      /\ all_weights calls (0, 0, 0, 0)%float
      /\ PrimFloat.ltb 1e-6 (PrimFloat.abs (sumWeights (0, 0, 0, 0) - 1)) = true)%float.
Proof.
  assert (Hall : forall (args : WeightedArgs float unit) w,
             weights_of args = w ->
             all_weights [("match_documents_weighted", MatchWeighted args)] w).
  { intros args w Hw. constructor; [|constructor].
    split; [reflexivity|]. exists args. split; [reflexivity | exact Hw]. }
  split; cbv zeta; (split; [reflexivity|]); (split; [vm_compute; discriminate|]);
    (split; [|reflexivity]); apply Hall; reflexivity.
Qed.

(** C8.  With valid query vectors and effective weights whose total is
    within 0.01 of 1.0, the RPC is sent, and every time with exactly the
    effective weights: normalising weights that are already normalised
    changes nothing. *)
Theorem searchWeighted_near_one_unchanged {St Metadata SearchResult : Type}
    (client : SupabaseClient float St Metadata SearchResult)
    (options : WeightedSearchOptions float Metadata)
    (expectedDimensions : option Z) (s : St) :
  weighted_input_valid options expectedDimensions ->
  let provided := providedWeights options in
  PrimFloat.leb (PrimFloat.abs (sumWeights provided - 1)) 0.01 = true ->
  let calls :=
    dispatched (snd (searchWeighted client options expectedDimensions s)) in
  calls <> [] /\ all_weights calls provided.
Proof.
  intros Hvalid provided Hnear.
  apply (searchWeighted_unchanged client options expectedDimensions s Hvalid).
  - exact (near_one_not_zero _ Hnear).
  - exact (leb_ltb_false _ _ Hnear).
Qed.

Lemma searchWeighted_near_one_unchanged_witness :
  let options := (example_weighted (Some 0.2) (Some 0.1) (Some 0.5) (Some 0.205)
                    None None)%float in
  let calls :=
    dispatched (snd (searchWeighted example_client options (Some 3) tt)) in
  calls <> [] /\ all_weights calls (0.2, 0.1, 0.5, 0.205)%float.
Proof.
  apply (searchWeighted_near_one_unchanged example_client
           (example_weighted (Some 0.2) (Some 0.1) (Some 0.5) (Some 0.205)
              None None)%float (Some 3) tt).
  - split; [reflexivity|]. cbn.
    repeat split; intros; try reflexivity; discriminate.
  - reflexivity.
Defined.

(** C6 fails on the code as stated: with weights 50 and 50 for main and
    section 2 and the other two unset, the one RPC sent carries
    50/100.5, 0.25/100.5, 50/100.5, 0.25/100.5, not 0.5, 0, 0.5, 0. *)
Lemma searchWeighted_50_50_unset_not_half :
  let options := (example_weighted (Some 50) None (Some 50) None None None)%float in
  exists args,
    dispatched (snd (searchWeighted example_client options None tt))
    = [("match_documents_weighted", MatchWeighted args)]
    /\ weights_of args = (50 / 100.5, 0.25 / 100.5, 50 / 100.5, 0.25 / 100.5)%float
    /\ PrimFloat.eqb (weight_main args) 0.5 = false
    /\ PrimFloat.eqb (weight_section_1 args) 0 = false
    /\ PrimFloat.eqb (weight_section_2 args) 0.5 = false
    /\ PrimFloat.eqb (weight_section_3 args) 0 = false.
Proof.
  eexists. split; [vm_compute; reflexivity|]. repeat split.
Qed.

(** C6, as the code has it.  With valid query vectors and raw weights 50
    for main and 50 for section 2: when the other two weights are unset
    they count as 0.25 each, the total is 100.5 and every RPC carries
    50/100.5, 0.25/100.5, 50/100.5, 0.25/100.5; when the other two weights
    are given as 0, every RPC carries exactly 0.5, 0, 0.5, 0. *)
Theorem searchWeighted_50_50 {St Metadata SearchResult : Type}
    (client : SupabaseClient float St Metadata SearchResult)
    (options : WeightedSearchOptions float Metadata)
    (expectedDimensions : option Z) (s : St) :
  weighted_input_valid options expectedDimensions ->
  weightMain options = Some 50%float ->
  weightSection2 options = Some 50%float ->
  let calls :=
    dispatched (snd (searchWeighted client options expectedDimensions s)) in
  (weightSection1 options = None -> weightSection3 options = None ->
     providedWeights options = (50, 0.25, 50, 0.25)%float
     /\ sumWeights (providedWeights options) = 100.5%float
     /\ calls <> []
     /\ all_weights calls
          (50 / 100.5, 0.25 / 100.5, 50 / 100.5, 0.25 / 100.5)%float)
  /\ (weightSection1 options = Some 0%float ->
      weightSection3 options = Some 0%float ->
      calls <> [] /\ all_weights calls (0.5, 0, 0.5, 0)%float).
Proof.
  intros Hvalid Hmain H2 calls.
  pose proof (searchWeighted_rescaled client options expectedDimensions s Hvalid)
    as Hrescaled.
  split; intros H1 H3.
  - assert (Hprovided : providedWeights options = (50, 0.25, 50, 0.25)%float).
    { unfold providedWeights. now rewrite Hmain, H1, H2, H3. }
    rewrite Hprovided in *. split; [reflexivity|]. split; [reflexivity|].
    exact (Hrescaled eq_refl eq_refl).
  - assert (Hprovided : providedWeights options = (50, 0, 50, 0)%float).
    { unfold providedWeights. now rewrite Hmain, H1, H2, H3. }
    rewrite Hprovided in *. exact (Hrescaled eq_refl eq_refl).
Qed.

Lemma searchWeighted_50_50_witness :
  (let options := (example_weighted (Some 50) None (Some 50) None None None)%float in
   let calls :=
     dispatched (snd (searchWeighted example_client options (Some 3) tt)) in
   providedWeights options = (50, 0.25, 50, 0.25)%float
   /\ sumWeights (providedWeights options) = 100.5%float
   /\ calls <> []
   /\ all_weights calls
        (50 / 100.5, 0.25 / 100.5, 50 / 100.5, 0.25 / 100.5)%float)
  /\ (let options := (example_weighted (Some 50) (Some 0) (Some 50) (Some 0)
                        None None)%float in
      let calls :=
        dispatched (snd (searchWeighted example_client options (Some 3) tt)) in
      calls <> [] /\ all_weights calls (0.5, 0, 0.5, 0)%float).
Proof.
  assert (Hvalid : forall wMain w1 w2 w3,
             weighted_input_valid
               (example_weighted wMain w1 w2 w3 None None) (Some 3)).
  { intros. split; [reflexivity|]. cbn.
    repeat split; intros; try reflexivity; discriminate. }
  split.
  - exact (proj1 (searchWeighted_50_50 example_client
                    (example_weighted (Some 50) None (Some 50) None None None)%float
                    (Some 3) tt (Hvalid _ _ _ _) eq_refl eq_refl)
             eq_refl eq_refl).
  - exact (proj2 (searchWeighted_50_50 example_client
                    (example_weighted (Some 50) (Some 0) (Some 50) (Some 0)
                       None None)%float
                    (Some 3) tt (Hvalid _ _ _ _) eq_refl eq_refl)
             eq_refl eq_refl).
Defined.

(* ================================================================== *)
(** ** Defaults of the threshold and the count *)
(* ================================================================== *)

Section Defaults.

Context {St Metadata SearchResult : Type}.
Variable client : SupabaseClient float St Metadata SearchResult.
Variable expectedDimensions : option Z.

(** [search] reads its options through the query vector and the argument
    object only. *)
Lemma search_same_args (options options' : SearchOptions float Metadata) s :
  so_queryEmbedding options' = so_queryEmbedding options ->
  search_args options' = search_args options ->
  search client options' expectedDimensions s
  = search client options expectedDimensions s.
Proof.
  intros Hvector Hargs. unfold search, search_operation.
  now rewrite Hvector, Hargs.
Qed.

(** [searchWeighted] reads the threshold and the count through the argument
    object only. *)
Lemma searchWeighted_same_args
    (options options' : WeightedSearchOptions float Metadata) s :
  validate_query (St := St) options' expectedDimensions
  = validate_query options expectedDimensions ->
  normalizeWeights (St := St) options' = normalizeWeights options ->
  (forall w, weighted_args options' w = weighted_args options w) ->
  searchWeighted client options' expectedDimensions s
  = searchWeighted client options expectedDimensions s.
Proof.
  intros Hvalidate Hnormalize Hargs. unfold searchWeighted, try_catch.
  rewrite Hvalidate. unfold bind at 1 3.
  destruct (validate_query options expectedDimensions s)
    as [[[[] | error] s1] ev1]; [|reflexivity].
  rewrite Hnormalize. unfold bind.
  destruct (normalizeWeights options s1) as [[[w | error] s2] ev2];
    [|reflexivity].
  unfold weighted_operation. now rewrite Hargs.
Qed.

(** What [search] sends with a valid query. *)
Lemma search_sends (options : SearchOptions float Metadata) s
    (P : MatchArgs float Metadata -> Prop) :
  search_input_valid options expectedDimensions ->
  P (search_args options) ->
  let calls := dispatched (snd (search client options expectedDimensions s)) in
  calls <> [] /\ all_match_args calls P.
Proof.
  intros Hvalid HP calls.
  destruct (search_dispatched client options expectedDimensions s Hvalid)
    as (k & Hk & Hcalls).
  subst calls. rewrite Hcalls. split; [destruct k; [lia | discriminate]|].
  apply Forall_forall. intros call Hin. apply repeat_spec in Hin. subst call.
  eexists. split; [reflexivity | exact HP].
Qed.

(** What [searchWeighted] sends with valid vectors and a non-zero total. *)
Lemma searchWeighted_sends (options : WeightedSearchOptions float Metadata) s
    (P : WeightedArgs float Metadata -> Prop) :
  weighted_input_valid options expectedDimensions ->
  PrimFloat.eqb (sumWeights (providedWeights options)) 0 = false ->
  (forall w, P (weighted_args options w)) ->
  let calls :=
    dispatched (snd (searchWeighted client options expectedDimensions s)) in
  calls <> [] /\ all_weighted_args calls P.
Proof.
  intros Hvalid Hzero HP calls.
  destruct (searchWeighted_calls client options expectedDimensions s
              Hvalid Hzero) as (k & w & Hk & Hcalls).
  subst calls. rewrite Hcalls. split; [destruct k; [lia | discriminate]|].
  apply Forall_forall. intros call Hin. apply repeat_spec in Hin. subst call.
  eexists. split; [reflexivity | apply HP].
Qed.

End Defaults.

(** Zero divided by a total that is neither zero nor NaN is a zero. *)
Lemma zero_divided (total : float) :
  PrimFloat.eqb total 0 = false ->
  PrimFloat.ltb 0.01 (PrimFloat.abs (total - 1)) = true ->
  PrimFloat.eqb (0 / total) 0 = true.
Proof.
  rewrite !FloatAxioms.eqb_spec, FloatAxioms.ltb_spec, FloatAxioms.abs_spec,
    FloatAxioms.sub_spec, FloatAxioms.div_spec.
  change (Prim2SF 0) with (S754_zero false).
  destruct (Prim2SF total) as [[] | [] | | [] m e]; intros Hzero Hfar;
    try reflexivity; try discriminate Hzero; try discriminate Hfar.
Qed.

(** C10.  The threshold and the count are defaulted separately, in both
    searches.  A [matchThreshold] of 0 makes the call what it is with the
    threshold unset, whatever the count: the same result, state and events,
    and with a valid query every RPC carries [match_threshold = 0.5] and the
    count the caller gave.  A [matchCount] of 0 likewise makes the call what
    it is with the count unset, and every RPC carries [match_count = 10] and
    the caller's threshold.  A weight given as 0 is different: in every RPC
    of a weighted search the weight of that slot is a zero (0, or -0 after
    the division by a negative total), not the 0.25 of an unset weight. *)
Theorem zero_threshold_and_count_defaulted {St Metadata SearchResult : Type}
    (client : SupabaseClient float St Metadata SearchResult)
    (expectedDimensions : option Z) (s : St) :
  (forall options : SearchOptions float Metadata,
      so_matchThreshold options = Some 0%float ->
      search client options expectedDimensions s
      = search client (search_with_threshold options None) expectedDimensions s
      /\ (search_input_valid options expectedDimensions ->
          let calls :=
            dispatched (snd (search client options expectedDimensions s)) in
          calls <> []
          /\ all_match_args calls
               (fun args =>
                  ma_match_threshold args = 0.5%float
                  /\ ma_match_count args = or_count (so_matchCount options) 10)))
  /\ (forall options : SearchOptions float Metadata,
        so_matchCount options = Some 0 ->
        search client options expectedDimensions s
        = search client (search_with_count options None) expectedDimensions s
        /\ (search_input_valid options expectedDimensions ->
            let calls :=
              dispatched (snd (search client options expectedDimensions s)) in
            calls <> []
            /\ all_match_args calls
                 (fun args =>
                    ma_match_count args = 10
                    /\ ma_match_threshold args
                       = or_number (so_matchThreshold options) 0.5%float)))
  /\ (forall options : WeightedSearchOptions float Metadata,
        matchThreshold options = Some 0%float ->
        searchWeighted client options expectedDimensions s
        = searchWeighted client (weighted_with_threshold options None)
            expectedDimensions s
        /\ (weighted_input_valid options expectedDimensions ->
            PrimFloat.eqb (sumWeights (providedWeights options)) 0 = false ->
            let calls :=
              dispatched (snd (searchWeighted client options
                                 expectedDimensions s)) in
            calls <> []
            /\ all_weighted_args calls
                 (fun args =>
                    match_threshold args = 0.5%float
                    /\ match_count args = or_count (matchCount options) 10)))
  /\ (forall options : WeightedSearchOptions float Metadata,
        matchCount options = Some 0 ->
        searchWeighted client options expectedDimensions s
        = searchWeighted client (weighted_with_count options None)
            expectedDimensions s
        /\ (weighted_input_valid options expectedDimensions ->
            PrimFloat.eqb (sumWeights (providedWeights options)) 0 = false ->
            let calls :=
              dispatched (snd (searchWeighted client options
                                 expectedDimensions s)) in
            calls <> []
            /\ all_weighted_args calls
                 (fun args =>
                    match_count args = 10
                    /\ match_threshold args
                       = or_number (matchThreshold options) 0.5%float)))
  /\ (forall options : WeightedSearchOptions float Metadata,
        weighted_input_valid options expectedDimensions ->
        PrimFloat.eqb (sumWeights (providedWeights options)) 0 = false ->
        let calls :=
          dispatched (snd (searchWeighted client options expectedDimensions s)) in
        calls <> []
        /\ all_weighted_args calls
             (fun args =>
                (weightMain options = Some 0%float ->
                 PrimFloat.eqb (weight_main args) 0 = true)
                /\ (weightSection1 options = Some 0%float ->
                    PrimFloat.eqb (weight_section_1 args) 0 = true)
                /\ (weightSection2 options = Some 0%float ->
                    PrimFloat.eqb (weight_section_2 args) 0 = true)
                /\ (weightSection3 options = Some 0%float ->
                    PrimFloat.eqb (weight_section_3 args) 0 = true))).
Proof.
  split; [|split; [|split; [|split]]].
  - intros options Hthreshold.
    assert (Hargs : search_args (search_with_threshold options None)
                    = search_args options)
      by (unfold search_args; cbn; now rewrite Hthreshold).
    split.
    + symmetry. now apply search_same_args.
    + intros Hvalid. apply search_sends; [exact Hvalid|].
      unfold search_args. cbn. now rewrite Hthreshold.
  - intros options Hcount.
    assert (Hargs : search_args (search_with_count options None)
                    = search_args options)
      by (unfold search_args; cbn; now rewrite Hcount).
    split.
    + symmetry. now apply search_same_args.
    + intros Hvalid. apply search_sends; [exact Hvalid|].
      unfold search_args. cbn. now rewrite Hcount.
  - intros options Hthreshold. split.
    + symmetry. apply searchWeighted_same_args; try reflexivity.
      intros [[[wMain w1] w2] w3]. unfold weighted_args. cbn.
      now rewrite Hthreshold.
    + intros Hvalid Hzero. apply searchWeighted_sends; try assumption.
      intros [[[wMain w1] w2] w3]. cbn. now rewrite Hthreshold.
  - intros options Hcount. split.
    + symmetry. apply searchWeighted_same_args; try reflexivity.
      intros [[[wMain w1] w2] w3]. unfold weighted_args. cbn.
      now rewrite Hcount.
    + intros Hvalid Hzero. apply searchWeighted_sends; try assumption.
      intros [[[wMain w1] w2] w3]. cbn. now rewrite Hcount.
  - intros options Hvalid Hzero calls.
    assert (Hweights :
              calls <> []
              /\ exists w,
                   all_weights calls w
                   /\ (w = providedWeights options
                       \/ w = divided_by (providedWeights options)
                                (sumWeights (providedWeights options))
                          /\ PrimFloat.ltb 0.01
                               (PrimFloat.abs
                                  (sumWeights (providedWeights options) - 1))
                             = true)).
    { destruct (PrimFloat.ltb 0.01
                  (PrimFloat.abs (sumWeights (providedWeights options) - 1)))
        eqn:Hfar.
      - destruct (searchWeighted_rescaled client options expectedDimensions s
                    Hvalid Hzero Hfar) as [Hsent Hall].
        split; [exact Hsent|]. eexists. split; [exact Hall|]. now right.
      - destruct (searchWeighted_unchanged client options expectedDimensions s
                    Hvalid Hzero Hfar) as [Hsent Hall].
        split; [exact Hsent|]. eexists. split; [exact Hall|]. now left. }
    destruct Hweights as (Hsent & w & Hall & Hw). split; [exact Hsent|].
    pose proof (searchWeighted_calls client options expectedDimensions s
                  Hvalid Hzero) as (k & w' & _ & Hcalls).
    fold calls in Hcalls.
    unfold all_weights in Hall. unfold all_weighted_args.
    rewrite Forall_forall in Hall |- *. intros call Hin.
    destruct (Hall call Hin) as (_ & args & Hsnd & Hweights).
    exists args. split.
    { rewrite Hcalls in Hin. apply repeat_spec in Hin. subst call.
      cbn [snd] in Hsnd. now rewrite Hsnd. }
    unfold weights_of in Hweights.
    set (total := sumWeights (providedWeights options)) in *.
    unfold providedWeights in Hw.
    destruct Hw as [-> | [-> Hfar]]; cbn [divided_by] in Hweights;
      injection Hweights as -> -> -> ->;
      repeat split; intros Hgiven; rewrite Hgiven; cbn [nullish];
      (reflexivity || (apply zero_divided; assumption)).
Qed.

(** A zero threshold with a count of 5, a zero count with a threshold of
    0.8, and a zero weight for the main vector. *)
Lemma zero_threshold_and_count_defaulted_witness :
  (let calls :=
     dispatched (snd (search example_client
                        (example_search (Some 0%float) (Some 5)) (Some 3) tt)) in
   calls <> []
   /\ all_match_args calls
        (fun args => ma_match_threshold args = 0.5%float
                     /\ ma_match_count args = 5))
  /\ (let calls :=
        dispatched (snd (search example_client
                           (example_search (Some 0.8%float) (Some 0))
                           (Some 3) tt)) in
      calls <> []
      /\ all_match_args calls
           (fun args => ma_match_count args = 10
                        /\ ma_match_threshold args = 0.8%float))
  /\ (let calls :=
        dispatched (snd (searchWeighted example_client
                           (example_weighted (Some 0%float) None None None
                              (Some 0%float) (Some 5)) (Some 3) tt)) in
      calls <> []
      /\ all_weighted_args calls
           (fun args => match_threshold args = 0.5%float
                        /\ match_count args = 5))
  /\ (let calls :=
        dispatched (snd (searchWeighted example_client
                           (example_weighted (Some 0%float) None None None
                              (Some 0.8%float) (Some 0)) (Some 3) tt)) in
      calls <> []
      /\ all_weighted_args calls
           (fun args => match_count args = 10
                        /\ match_threshold args = 0.8%float))
  /\ (let calls :=
        dispatched (snd (searchWeighted example_client
                           (example_weighted (Some 0%float) None None None
                              None None) (Some 3) tt)) in
      calls <> []
      /\ all_weighted_args calls
           (fun args => PrimFloat.eqb (weight_main args) 0 = true)).
Proof.
  pose proof (zero_threshold_and_count_defaulted example_client (Some 3) tt)
    as (Hthreshold & Hcount & Hwthreshold & Hwcount & Hweight).
  assert (Hvalid : forall wMain threshold count,
             weighted_input_valid
               (example_weighted wMain None None None threshold count) (Some 3)).
  { intros. split; [reflexivity|]. cbn.
    repeat split; intros; try reflexivity; discriminate. }
  split; [|split; [|split; [|split]]].
  - apply (proj2 (Hthreshold (example_search (Some 0%float) (Some 5)) eq_refl)).
    split; reflexivity.
  - apply (proj2 (Hcount (example_search (Some 0.8%float) (Some 0)) eq_refl)).
    split; reflexivity.
  - apply (proj2 (Hwthreshold (example_weighted (Some 0%float) None None None
                                 (Some 0%float) (Some 5)) eq_refl));
      [apply Hvalid | reflexivity].
  - apply (proj2 (Hwcount (example_weighted (Some 0%float) None None None
                             (Some 0.8%float) (Some 0)) eq_refl));
      [apply Hvalid | reflexivity].
  - destruct (Hweight (example_weighted (Some 0%float) None None None None None)
                (Hvalid _ _ _) eq_refl) as [Hsent Hall].
    split; [exact Hsent|].
    unfold all_weighted_args in *. rewrite Forall_forall in Hall |- *.
    intros call Hin. destruct (Hall call Hin) as (args & Hcall & Hmain & _).
    exists args. split; [exact Hcall | exact (Hmain eq_refl)].
Defined.

(* ================================================================== *)
(** ** Validation failures *)
(* ================================================================== *)

(** C4 fails on the code for a dimension failure.  A search for a
    two-component vector where three dimensions are expected, and a weighted
    search whose section vector has two: the validator throws its
    DIMENSION_MISMATCH error, and the caller receives a new [SearchError]
    with the "unexpected error" text and no code.  Nothing is sent and the
    backend state is untouched. *)
Theorem search_wraps_dimension_error {St Metadata SearchResult : Type}
    (client : SupabaseClient float St Metadata SearchResult) (s : St) :
  let short := JSArray [JSNumber 0.1%float; JSNumber 0.2%float] in
  let options :=
    {| so_queryEmbedding := short; so_matchThreshold := None;
       so_matchCount := None; so_filterMetadata := None |} in
  let weighted :=
    {| queryEmbedding := example_vector; querySection1 := short;
       querySection2 := JSUndefined; querySection3 := JSUndefined;
       weightMain := None; weightSection1 := None;
       weightSection2 := None; weightSection3 := None;
       matchThreshold := None; matchCount := None; filterMetadata := None |} in
  validateEmbeddingDimensions short 3
  = Thrown (EmbeddingError "Expected 3 dimensions but got 2"
              (Some "DIMENSION_MISMATCH"))
  /\ search client options (Some 3) s
     = (Thrown (SearchError search_unexpected_message None), s, [])
  /\ searchWeighted client weighted (Some 3) s
     = (Thrown (SearchError weighted_unexpected_message None), s, []).
Proof. repeat split. Qed.

(* ================================================================== *)
(** ** The weighted SQL function *)
(* ================================================================== *)

(** The weighted sum of the statement, evaluated on one row with a query
    vector and four weights: the main slot adds its similarity (0 when the
    document has no main embedding) times the main weight, each section
    slot its contribution. *)
Lemma weighted_similarity_on_row
    {N} {NN : Number N} {Vector Jsonb Uuid : Type}
    (cosine_distance : Vector -> Vector -> N)
    (jsonb_contains : Jsonb -> Jsonb -> bool)
    (args : Sql.CallArgs (N := N) (Vector := Vector) (Jsonb := Jsonb))
    (row : Sql.DocumentsRow (Vector := Vector) (Jsonb := Jsonb) (Uuid := Uuid))
    q wMain w1 w2 w3 :
  Sql.query_embedding args = Some q ->
  Sql.weight_main args = Some wMain ->
  Sql.weight_section_1 args = Some w1 ->
  Sql.weight_section_2 args = Some w2 ->
  Sql.weight_section_3 args = Some w3 ->
  Sql.eval cosine_distance jsonb_contains args (Some row) Sql.weighted_similarity
  = Some (Sql.VFloat
            (match Sql.embedding row with
             | Some e => lit_1 - cosine_distance e q
             | None => lit_0
             end * wMain
             + Sql.slot_contribution cosine_distance
                 (Sql.query_section_1 args) (Sql.embedding_section_1 row) w1
             + Sql.slot_contribution cosine_distance
                 (Sql.query_section_2 args) (Sql.embedding_section_2 row) w2
             + Sql.slot_contribution cosine_distance
                 (Sql.query_section_3 args) (Sql.embedding_section_3 row) w3)%num).
Proof.
  intros Hq Hmain H1 H2 H3.
  unfold Sql.weighted_similarity, Sql.section_term, Sql.similarity_to,
    Sql.slot_contribution.
  cbn [Sql.eval Sql.parameter_value Sql.column_value option_map].
  rewrite Hq, Hmain, H1, H2, H3.
  destruct (Sql.embedding row), (Sql.query_section_1 args),
    (Sql.embedding_section_1 row), (Sql.query_section_2 args),
    (Sql.embedding_section_2 row), (Sql.query_section_3 args),
    (Sql.embedding_section_3 row); reflexivity.
Qed.

(** C1 fails on the code.  The statement has a HAVING clause and no GROUP
    BY, and its target list reads columns of [documents]: the analyser
    rejects it with the grouping error, for every argument list and every
    table, so the function returns no row at all. *)
Theorem match_documents_weighted_rejected
    {N} {NN : Number N} {Vector Jsonb Uuid : Type}
    (cosine_distance : Vector -> Vector -> N)
    (jsonb_contains : Jsonb -> Jsonb -> bool)
    (args : Sql.CallArgs (N := N) (Vector := Vector) (Jsonb := Jsonb))
    (table : list (Sql.DocumentsRow (Vector := Vector) (Jsonb := Jsonb)
                     (Uuid := Uuid))) :
  Sql.grouping_ok (N := N) Sql.statement = false
  /\ Sql.match_documents_weighted cosine_distance jsonb_contains args table
     = inl Sql.GroupingError.
Proof. split; reflexivity. Qed.

(** The executor around a search that fails three times and then returns,
    and around one that fails every time, with the budget of 3 the managers
    use. *)
Lemma withRetry_budget_witness :
  let errs := fun k : nat =>
    SearchError search_failed_message (Some (string_of_Z (Z.of_nat k))) in
  let flaky := fun k : nat =>
    if (k <? 3)%nat then Thrown (errs k) else Returned "rows" in
  let broken := fun k : nat => @Thrown string (errs k) in
  let options : RetryOptions float nat unit :=
    {| maxRetries := Some 3%nat; initialDelayMs := None;
       exponentialBackoff := None; maxDelayMs := None;
       onRetry := Some recording_onRetry |} in
  (exists events,
      withRetry (scripted flaky) options O = (Returned "rows", 4%nat, events)
      /\ operation_calls events = 4%nat
      /\ onRetry_calls events = [(1, errs 0); (2, errs 1); (3, errs 2)]%nat)
  /\ (exists events,
        withRetry (scripted broken) options O = (Thrown (errs 3%nat), 4%nat, events)
        /\ operation_calls events = 4%nat
        /\ List.length (onRetry_calls events) = 3%nat).
Proof.
  intros errs flaky broken options. split.
  - destruct (proj1 (withRetry_budget (N := float) (Metadata := unit)
                       flaky errs (Some 3%nat) None None None true) "rows")
      as (events & Hrun & Hops & Hcbs & _).
    + intros k Hk. cbn in Hk. unfold flaky.
      destruct (Nat.ltb_spec k 3); [reflexivity | lia].
    + reflexivity.
    + exists events. split; [exact Hrun|]. split; [exact Hops | exact Hcbs].
  - destruct (proj2 (withRetry_budget (N := float) (Metadata := unit)
                       broken errs (Some 3%nat) None None None true))
      as (events & Hrun & Hops & Hcbs).
    + intros k Hk. reflexivity.
    + exists events. split; [exact Hrun|]. split; [exact Hops|].
      exact (Hcbs eq_refl).
Defined.

(* ================================================================== *)
(** ** Batch insert *)
(* ================================================================== *)

Section Slices.

Context {A : Type}.

(** A chunk that starts inside the array holds [b] elements, or what is
    left of the array. *)
Lemma slice_length (l : list A) (i b : Z) :
  0 <= i -> 0 < b ->
  Z.of_nat (List.length (slice l i (i + b)))
  = Z.min (i + b) (Z.of_nat (List.length l)) - Z.min i (Z.of_nat (List.length l)).
Proof.
  intros Hi Hb. unfold slice.
  destruct (Z.ltb_spec i 0); [lia|].
  destruct (Z.ltb_spec (i + b) 0); [lia|].
  rewrite length_firstn, length_skipn. lia.
Qed.

End Slices.

Section ChunkArithmetic.

Variables n b : Z.
Hypothesis Hn : 0 <= n.
Hypothesis Hb : 0 < b.

Lemma chunk_count_bounds :
  (Z.of_nat (chunk_count n b) - 1) * b < n <= Z.of_nat (chunk_count n b) * b.
Proof.
  unfold chunk_count.
  assert (0 <= (n + b - 1) / b) by (apply Z.div_pos; lia).
  rewrite Z2Nat.id by assumption.
  pose proof (Z.div_mod (n + b - 1) b ltac:(lia)).
  pose proof (Z.mod_pos_bound (n + b - 1) b Hb).
  nia.
Qed.

(** The loop condition [i < n] at [i = k * b]. *)
Lemma more_chunks (k : nat) :
  Z.of_nat k * b < n <-> (k < chunk_count n b)%nat.
Proof.
  pose proof chunk_count_bounds. split; intros; nia.
Qed.

Lemma completed_after_increasing (j k : nat) :
  (j < k < chunk_count n b)%nat ->
  completed_after n b j < completed_after n b k.
Proof.
  pose proof chunk_count_bounds. unfold completed_after. intros Hjk.
  assert ((Z.of_nat j + 1) * b < n) by nia.
  assert ((Z.of_nat j + 1) * b < (Z.of_nat k + 1) * b) by nia.
  lia.
Qed.

Lemma completed_after_last (k : nat) :
  S k = chunk_count n b -> completed_after n b k = n.
Proof.
  pose proof chunk_count_bounds. unfold completed_after. intros Hk.
  rewrite <- Hk in *. lia.
Qed.

(** The reported counts increase strictly. *)
Lemma expected_progress_sorted :
  StronglySorted Z.lt (map fst (expected_progress n b)).
Proof.
  unfold expected_progress. rewrite map_map. cbn [fst].
  assert (Hgen : forall count first,
             (first + count <= chunk_count n b)%nat ->
             StronglySorted Z.lt
               (map (fun k => completed_after n b k) (seq first count))).
  { induction count as [|count IH]; intros first Hle; [constructor|].
    cbn [seq map]. constructor; [apply IH; lia|].
    apply Forall_forall. intros c Hin. apply in_map_iff in Hin.
    destruct Hin as (k & <- & Hk). apply in_seq in Hk.
    apply completed_after_increasing. lia. }
  apply Hgen. lia.
Qed.

(** The last report, if there is one, is [(n, n)]. *)
Lemma expected_progress_last :
  0 < n -> last (expected_progress n b) (0, 0) = (n, n).
Proof.
  intros Hpos. unfold expected_progress.
  destruct (chunk_count n b) as [|k] eqn:Hcount.
  - pose proof chunk_count_bounds. rewrite Hcount in *. lia.
  - rewrite seq_S, map_app. cbn [map Nat.add]. rewrite last_last.
    now rewrite completed_after_last.
Qed.

End ChunkArithmetic.

Section Batch.

Context {N : Type} {NN : Number N} {St Metadata SearchResult : Type}.

Notation Ev := (Event N Metadata).
Notation Mon := (M N St Metadata).

Variable client : SupabaseClient N St Metadata SearchResult.
Variable tableName : string.
Variable empty_metadata : Metadata.
Variable documents : list (Document N Metadata).
Variable b : Z.
Hypothesis Hb : 0 < b.

Let n : Z := Z.of_nat (List.length documents).

(** Around an operation that reports no progress, with a callback that only
    logs, the retry loop reports no progress. *)
Lemma retry_loop_no_progress {T} (operation : Mon T) message
    budget initialDelay backoff maxDelay :
  (forall s, progress_calls (snd (operation s)) = []) ->
  forall remaining attempt lastError s,
    progress_calls
      (snd (retry_loop operation budget initialDelay backoff maxDelay
              (Some (fun _ _ => logger_warn message))
              remaining attempt lastError s))
    = [].
Proof.
  intros Hop. induction remaining as [|remaining IH];
    intros attempt lastError s.
  - destruct lastError; reflexivity.
  - rewrite retry_loop_S. unfold try_catch.
    pose proof (Hop s) as Hs.
    destruct (operation s) as [[[v | error] s1] ev1]; cbn [snd] in Hs |- *;
      [exact Hs|].
    destruct (Nat.eqb attempt budget).
    + cbn. rewrite app_nil_r. exact Hs.
    + unfold bind at 1 2. unfold logger_warn, sleep, emit.
      specialize (IH (S attempt) (Some error) s1).
      destruct (retry_loop _ _ _ _ _ _ remaining (S attempt) _ s1)
        as [[r s2] ev2]. cbn [snd] in IH |- *.
      rewrite !progress_calls_app, Hs, IH. reflexivity.
Qed.

Lemma batch_operation_no_progress batch s :
  progress_calls
    (snd (batch_operation client tableName empty_metadata batch s)) = [].
Proof.
  unfold batch_operation, bind, client_insert.
  destruct (insert_select client _ _ s) as [[data error | reason] s']; cbn;
    [destruct error|]; reflexivity.
Qed.

(** A chunk that goes through advances [completed] by the size of the chunk
    and reports it, once. *)
Lemma insert_chunk_returned i results completed s results' completed' s1 ev1 :
  insert_chunk client tableName empty_metadata documents b
    (Some recording_onProgress) i results completed s
  = (Returned (results', completed'), s1, ev1) ->
  completed' = completed + Z.of_nat (List.length (slice documents i (i + b)))
  /\ progress_calls ev1 = [(completed', n)].
Proof.
  unfold insert_chunk. unfold bind at 1.
  pose proof (retry_loop_no_progress
                (batch_operation client tableName empty_metadata
                   (slice documents i (i + b)))
                batch_retry_message 3 1000 true 10000
                (batch_operation_no_progress _) 4 O None s) as Hquiet.
  unfold withRetry, retry_3.
  cbn [maxRetries initialDelayMs exponentialBackoff maxDelayMs onRetry nullish].
  destruct (retry_loop _ _ _ _ _ _ 4 O None s)
    as [[[[rows|] | error] s0] ev0]; cbn [snd] in Hquiet;
    cbn; try discriminate.
  intros [= <- <- <- <-]. split; [reflexivity|].
  rewrite !progress_calls_app, Hquiet. reflexivity.
Qed.

(** The loop, entered after [k] chunks: if it returns, it has reported the
    chunks from [k] on. *)
Lemma insertBatch_loop_progress fuel :
  forall k results s results' s' events,
    insertBatch_loop fuel client tableName empty_metadata documents b
      (Some recording_onProgress) (Z.of_nat k * b) results
      (Z.min (Z.of_nat k * b) n) s
    = Some (Returned results', s', events) ->
    progress_calls events
    = map (fun j => (completed_after n b j, n))
        (seq k (chunk_count n b - k)).
Proof.
  assert (Hn : 0 <= n) by (unfold n; lia).
  induction fuel as [|fuel IH]; intros k results s results' s' events;
    cbn [insertBatch_loop]; fold n;
    destruct (Z.ltb_spec (Z.of_nat k * b) n) as [Hlt | Hge];
    try discriminate.
  - intros [= <- <- <-].
    replace (chunk_count n b - k)%nat with O; [reflexivity|].
    pose proof (more_chunks n b Hn Hb k). lia.
  - destruct (insert_chunk _ _ _ _ _ _ _ _ _ s)
      as [[[[results1 completed1] | error] s1] ev1] eqn:Hchunk;
      [|discriminate].
    apply insert_chunk_returned in Hchunk. destruct Hchunk as [Hcompleted Hev1].
    rewrite slice_length in Hcompleted by lia. fold n in Hcompleted.
    assert (Hnext : completed1 = Z.min (Z.of_nat (S k) * b) n) by lia.
    replace (Z.of_nat k * b + b) with (Z.of_nat (S k) * b) by lia.
    rewrite Hnext.
    destruct (insertBatch_loop fuel _ _ _ _ _ _ _ _ _ s1)
      as [[[r s2] ev2]|] eqn:Hrest; [|discriminate].
    intros [= -> <- <-].
    apply IH in Hrest.
    rewrite progress_calls_app, Hev1, Hrest.
    pose proof (proj1 (more_chunks n b Hn Hb k) Hlt).
    replace (chunk_count n b - k)%nat with (S (chunk_count n b - S k)) by lia.
    cbn [seq map app]. f_equal. f_equal.
    rewrite Hnext. unfold completed_after. f_equal. lia.
  - intros [= <- <- <-].
    replace (chunk_count n b - k)%nat with O; [reflexivity|].
    pose proof (more_chunks n b Hn Hb k). lia.
Qed.

Hypothesis Haccepts : accepts_every_insert client.

(** With a backend that accepts every insert, a chunk is inserted at the
    first attempt and reported. *)
Lemma insert_chunk_accepted i results completed s :
  exists data s',
    insert_chunk client tableName empty_metadata documents b
      (Some recording_onProgress) i results completed s
    = (Returned (results ++ data,
                 completed + Z.of_nat (List.length (slice documents i (i + b)))),
       s',
       [EvInsert tableName
          (map (insert_row empty_metadata) (slice documents i (i + b)));
        EvProgress
          (completed + Z.of_nat (List.length (slice documents i (i + b)))) n]).
Proof.
  destruct (Haccepts tableName
              (map (insert_row empty_metadata) (slice documents i (i + b))) s)
    as (data & s' & Hinsert).
  exists data, s'.
  unfold insert_chunk, withRetry, retry_3.
  cbn [maxRetries initialDelayMs exponentialBackoff maxDelayMs onRetry nullish].
  rewrite retry_loop_S.
  unfold bind, try_catch, batch_operation, bind, client_insert.
  rewrite Hinsert. reflexivity.
Qed.

(** The loop, entered after [k] chunks, runs the remaining chunks. *)
Lemma insertBatch_loop_accepted fuel :
  forall k results s,
    (chunk_count n b - k <= fuel)%nat ->
    exists results' s',
      insertBatch_loop fuel client tableName empty_metadata documents b
        (Some recording_onProgress) (Z.of_nat k * b) results
        (Z.min (Z.of_nat k * b) n) s
      = Some (Returned results', s',
              flat_map
                (fun j =>
                   [EvInsert tableName
                      (map (insert_row empty_metadata)
                         (slice documents (Z.of_nat j * b) (Z.of_nat j * b + b)));
                    EvProgress (completed_after n b j) n])
                (seq k (chunk_count n b - k))).
Proof.
  assert (Hn : 0 <= n) by (unfold n; lia).
  induction fuel as [|fuel IH]; intros k results s Hfuel;
    cbn [insertBatch_loop]; fold n;
    destruct (Z.ltb_spec (Z.of_nat k * b) n) as [Hlt | Hge].
  - pose proof (proj1 (more_chunks n b Hn Hb k) Hlt). lia.
  - replace (chunk_count n b - k)%nat with O
      by (pose proof (more_chunks n b Hn Hb k); lia).
    eauto.
  - pose proof (proj1 (more_chunks n b Hn Hb k) Hlt) as Hmore.
    destruct (insert_chunk_accepted (Z.of_nat k * b) results
                (Z.min (Z.of_nat k * b) n) s) as (data & s1 & ->).
    rewrite slice_length by lia. fold n.
    replace (Z.min (Z.of_nat k * b) n
             + (Z.min (Z.of_nat k * b + b) n - Z.min (Z.of_nat k * b) n))
      with (Z.min (Z.of_nat (S k) * b) n) by lia.
    replace (Z.of_nat k * b + b) with (Z.of_nat (S k) * b) by lia.
    destruct (IH (S k) (results ++ data) s1) as (results' & s' & ->); [lia|].
    exists results', s'.
    replace (chunk_count n b - k)%nat with (S (chunk_count n b - S k)) by lia.
    cbn [seq flat_map app]. do 3 f_equal.
    + do 3 f_equal. lia.
    + f_equal. unfold completed_after. f_equal. lia.
  - replace (chunk_count n b - k)%nat with O
      by (pose proof (more_chunks n b Hn Hb k); lia).
    eauto.
Qed.

End Batch.

(** C7.  For a batch insert of [n] documents in chunks of [b >= 1] with a
    recording progress callback:
    - whatever the backend does, if the call returns, the callback was
      invoked exactly once per chunk, with [(min (k*b) n, n)] after the
      [k]-th chunk;
    - with a backend that accepts every insert the call does return (the
      loop runs once per chunk), and its trace is, chunk after chunk, the
      insertion of the chunk followed by its progress report;
    - the reported counts increase strictly and the last one is [n];
    - 250 documents in chunks of 100 give (100,250), (200,250), (250,250). *)
Theorem insertBatch_progress {N} {NN : Number N} {St Metadata SearchResult : Type}
    (client : SupabaseClient N St Metadata SearchResult)
    (tableName : string) (empty_metadata : Metadata)
    (documents : list (Document N Metadata)) (b : Z) :
  0 < b ->
  let n := Z.of_nat (List.length documents) in
  (forall fuel s results s' events,
      insertBatch fuel client tableName empty_metadata documents b
        (Some recording_onProgress) s
      = Some (Returned results, s', events) ->
      progress_calls events = expected_progress n b)
  /\ (accepts_every_insert client ->
      forall fuel s,
        (chunk_count n b <= fuel)%nat ->
        exists results s',
          insertBatch fuel client tableName empty_metadata documents b
            (Some recording_onProgress) s
          = Some (Returned results, s',
                  expected_trace tableName empty_metadata documents b))
  /\ StronglySorted Z.lt (map fst (expected_progress n b))
  /\ (0 < n -> last (expected_progress n b) (0, 0) = (n, n))
  /\ expected_progress 250 100 = [(100, 250); (200, 250); (250, 250)].
Proof.
  intros Hb n.
  assert (Hn : 0 <= n) by (unfold n; lia).
  split; [|split; [|split; [|split]]].
  - intros fuel s results s' events. unfold insertBatch. fold n.
    destruct (Z.eqb_spec n 0) as [Hzero | Hpos].
    + intros [= <- <- <-]. unfold expected_progress.
      replace (chunk_count n b) with O; [reflexivity|].
      pose proof (more_chunks n b Hn Hb O). lia.
    + destruct (insertBatch_loop fuel _ _ _ _ _ _ 0 [] 0 s)
        as [[[[results1 | error] s1] ev1]|] eqn:Hloop;
        try discriminate;
        try (destruct (is_SearchError error); discriminate).
      intros [= <- <- <-].
      pose proof (insertBatch_loop_progress client tableName empty_metadata
                    documents b Hb fuel O [] s results1 s1 ev1) as Hprogress.
      cbn [Z.of_nat Z.mul] in Hprogress. fold n in Hprogress.
      rewrite Z.min_l in Hprogress by lia.
      rewrite (Hprogress Hloop), Nat.sub_0_r. reflexivity.
  - intros Haccepts fuel s Hfuel. unfold insertBatch, expected_trace. fold n.
    destruct (Z.eqb_spec n 0) as [Hzero | Hpos].
    + replace (chunk_count n b) with O;
        [do 2 eexists; reflexivity|].
      pose proof (more_chunks n b Hn Hb O). lia.
    + destruct (insertBatch_loop_accepted client tableName empty_metadata
                  documents b Hb Haccepts fuel O [] s)
        as (results & s' & Hloop); [fold n; lia|].
      cbn [Z.of_nat Z.mul] in Hloop. fold n in Hloop.
      rewrite Z.min_l in Hloop by lia.
      rewrite Hloop, Nat.sub_0_r. eauto.
  - now apply expected_progress_sorted.
  - now apply expected_progress_last.
  - reflexivity.
Qed.

(** 250 documents in chunks of 100 against the backend of the examples:
    the call returns, with three insertions, each followed by its report. *)
Lemma insertBatch_progress_witness :
  let documents := repeat (example_document "resume") 250 in
  exists results events,
    insertBatch 3 example_client "documents" tt documents 100
      (Some recording_onProgress) tt
    = Some (Returned results, tt, events)
    /\ events = expected_trace "documents" tt documents 100
    /\ progress_calls events = [(100, 250); (200, 250); (250, 250)]
    /\ StronglySorted Z.lt [100; 200; 250]
    /\ last (progress_calls events) (0, 0) = (250, 250).
Proof.
  intros documents.
  destruct (insertBatch_progress example_client "documents" tt documents 100)
    as (Hprogress & Hreturns & Hsorted & Hlast & Hexample); [lia|].
  destruct (Hreturns
              (fun table rows s =>
                 ex_intro _ [] (ex_intro _ s eq_refl))
              3%nat tt) as (results & [] & Hrun); [vm_compute; lia|].
  exists results, (expected_trace "documents" tt documents 100).
  pose proof (Hprogress _ _ _ _ _ Hrun) as Hcalls.
  change (Z.of_nat (List.length documents)) with 250 in *.
  rewrite Hexample in *.
  split; [exact Hrun|]. split; [reflexivity|]. split; [exact Hcalls|].
  split; [exact Hsorted|]. rewrite Hcalls. apply Hlast. lia.
Defined.

(* ================================================================== *)
(** ** More about the retry utility *)
(* ================================================================== *)

Section RetryTrace.

Context {N : Type} {NN : Number N} {Metadata : Type} {T : Type}.

(** An operation over a call counter: its [k]-th invocation ends as
    [outcome k] and causes [attempt_events k]. *)
Variable operation : M N nat Metadata T.
Variable outcome : nat -> Outcome T.
Variable attempt_events : nat -> list (Event N Metadata).
Hypothesis Hoperation :
  forall calls, operation calls = (outcome calls, S calls, attempt_events calls).

(** A callback that returns, leaves the counter alone and causes
    [callback_events]. *)
Variable callback : option (nat -> JSError -> M N nat Metadata unit).
Variable callback_events : nat -> JSError -> list (Event N Metadata).
Hypothesis Hcallback :
  forall attempt error calls,
    call_onRetry callback attempt error calls
    = (Returned tt, calls, callback_events attempt error).

Variable options : RetryOptions N nat Metadata.
Variable errs : nat -> JSError.
Variable first : nat.

Let budget := nullish (maxRetries options) 3%nat.

Let loop :=
  retry_loop operation budget
    (nullish (initialDelayMs options) 1000)
    (nullish (exponentialBackoff options) true)
    (nullish (maxDelayMs options) 10000) callback.

Let step (k : nat) : list (Event N Metadata) :=
  attempt_events (first + k)%nat
  ++ callback_events (S k) (errs k)
  ++ [EvSleep (retry_delay options k)].

Lemma counted_loop_failure remaining attempt lastError :
  outcome (first + attempt)%nat = Thrown (errs attempt) ->
  attempt <> budget ->
  loop (S remaining) attempt lastError (first + attempt)%nat
  = let '(r, s, ev) :=
      loop remaining (S attempt) (Some (errs attempt)) (first + S attempt)%nat in
    (r, s, step attempt ++ ev).
Proof.
  intros He Hne. unfold loop. rewrite retry_loop_S. unfold try_catch.
  rewrite Hoperation, He, (proj2 (Nat.eqb_neq _ _) Hne).
  unfold bind at 1.
  change (match callback with
          | Some f => f (attempt + 1)%nat (errs attempt)
          | None => ret tt
          end)
    with (call_onRetry callback (attempt + 1)%nat (errs attempt)).
  rewrite Hcallback. unfold bind, sleep, emit.
  replace (S (first + attempt)) with (first + S attempt)%nat by lia.
  destruct (retry_loop _ _ _ _ _ _ remaining (S attempt) _ _) as [[r s] ev].
  unfold step, retry_delay. rewrite Nat.add_1_r, <- !app_assoc. reflexivity.
Qed.

(** Attempts [attempt .. j - 1] fail, attempt [j] returns. *)
Lemma counted_loop_returns j v :
  (j <= budget)%nat ->
  outcome (first + j)%nat = Returned v ->
  forall remaining attempt lastError,
    (attempt + remaining = S budget)%nat ->
    (attempt <= j)%nat ->
    (forall k, (attempt <= k < j)%nat ->
               outcome (first + k)%nat = Thrown (errs k)) ->
    loop remaining attempt lastError (first + attempt)%nat
    = (Returned v, S (first + j),
       flat_map step (seq attempt (j - attempt)) ++ attempt_events (first + j)%nat).
Proof.
  intros Hj Hv. induction remaining as [|remaining IH];
    intros attempt lastError Hsum Hle Hfail; [lia|].
  destruct (Nat.eq_dec attempt j) as [-> | Hlt].
  - rewrite Nat.sub_diag. unfold loop. rewrite retry_loop_S. unfold try_catch.
    rewrite Hoperation, Hv. reflexivity.
  - rewrite counted_loop_failure by (try apply Hfail; lia).
    rewrite IH by (try lia; intros; apply Hfail; lia).
    replace (j - attempt)%nat with (S (j - S attempt)) by lia.
    cbn [seq flat_map]. now rewrite <- app_assoc.
Qed.

(** Attempts [attempt .. budget] all fail. *)
Lemma counted_loop_gives_up :
  forall remaining attempt lastError,
    (attempt + remaining = S budget)%nat ->
    (attempt <= budget)%nat ->
    (forall k, (attempt <= k <= budget)%nat ->
               outcome (first + k)%nat = Thrown (errs k)) ->
    loop remaining attempt lastError (first + attempt)%nat
    = (Thrown (errs budget), S (first + budget),
       flat_map step (seq attempt (budget - attempt))
       ++ attempt_events (first + budget)%nat).
Proof.
  induction remaining as [|remaining IH];
    intros attempt lastError Hsum Hle Hfail; [lia|].
  destruct (Nat.eq_dec attempt budget) as [-> | Hlt].
  - rewrite Nat.sub_diag. unfold loop. rewrite retry_loop_S. unfold try_catch.
    rewrite Hoperation, Hfail by lia. rewrite Nat.eqb_refl.
    cbn. now rewrite app_nil_r.
  - rewrite counted_loop_failure by (try apply Hfail; lia).
    rewrite IH by (try lia; intros; apply Hfail; lia).
    replace (budget - attempt)%nat with (S (budget - S attempt)) by lia.
    cbn [seq flat_map]. now rewrite <- app_assoc.
Qed.

(** [withRetry] around such an operation, from the counter [first]. *)
Lemma withRetry_counted_returns j v :
  onRetry options = callback ->
  (j <= budget)%nat ->
  (forall k, (k < j)%nat -> outcome (first + k)%nat = Thrown (errs k)) ->
  outcome (first + j)%nat = Returned v ->
  withRetry operation options first
  = (Returned v, S (first + j),
     retry_trace options attempt_events callback_events errs first j).
Proof.
  intros Hcb Hj Hfail Hv. unfold withRetry, retry_trace. rewrite Hcb.
  pose proof (counted_loop_returns j v Hj Hv (S budget) O None) as Hrun.
  rewrite Nat.add_0_r, Nat.sub_0_r in Hrun. unfold loop, budget in Hrun.
  apply Hrun; [reflexivity | lia | intros; apply Hfail; lia].
Qed.

Lemma withRetry_counted_gives_up :
  onRetry options = callback ->
  (forall k, (k <= budget)%nat -> outcome (first + k)%nat = Thrown (errs k)) ->
  withRetry operation options first
  = (Thrown (errs budget), S (first + budget),
     retry_trace options attempt_events callback_events errs first budget).
Proof.
  intros Hcb Hfail. unfold withRetry, retry_trace. rewrite Hcb.
  pose proof (counted_loop_gives_up (S budget) O None) as Hrun.
  rewrite Nat.add_0_r, Nat.sub_0_r in Hrun. unfold loop, budget in Hrun.
  apply Hrun; [reflexivity | lia | intros; apply Hfail; lia].
Qed.

End RetryTrace.

Section MoreObservers.

Context {N : Type} {Metadata : Type}.
Implicit Types ev : list (Event N Metadata).

Lemma sleep_calls_app ev1 ev2 :
  sleep_calls (ev1 ++ ev2) = sleep_calls ev1 ++ sleep_calls ev2.
Proof.
  induction ev1 as [|[] ev1 IH]; simpl; rewrite ?IH; reflexivity.
Qed.

Lemma log_calls_app ev1 ev2 :
  log_calls (ev1 ++ ev2) = log_calls ev1 ++ log_calls ev2.
Proof.
  induction ev1 as [|[] ev1 IH]; simpl; rewrite ?IH; reflexivity.
Qed.

Lemma insert_calls_app ev1 ev2 :
  insert_calls (ev1 ++ ev2) = insert_calls ev1 ++ insert_calls ev2.
Proof.
  induction ev1 as [|[] ev1 IH]; simpl; rewrite ?IH; reflexivity.
Qed.

End MoreObservers.

Section Schedule.

Context {N : Type} {NN : Number N} {St Metadata : Type}.

Variable options : RetryOptions N St Metadata.
Variable attempt_events : nat -> list (Event N Metadata).
Variable callback_events : nat -> JSError -> list (Event N Metadata).
Hypothesis Hattempt : forall k, sleep_calls (attempt_events k) = [].
Hypothesis Hcallback : forall k e, sleep_calls (callback_events k e) = [].

(** The sleeps of a retry trace are the delays of the failed attempts. *)
Lemma sleep_calls_retry_trace errs first failures :
  sleep_calls (retry_trace options attempt_events callback_events errs
                 first failures)
  = map (retry_delay options) (seq 0 failures).
Proof.
  unfold retry_trace. rewrite sleep_calls_app, Hattempt, app_nil_r.
  generalize 0%nat as start.
  induction failures as [|failures IH]; intros start; [reflexivity|].
  cbn [seq flat_map map].
  rewrite !sleep_calls_app, Hattempt, Hcallback, IH. reflexivity.
Qed.

(** With exponential backoff no delay exceeds [maxDelayMs], and with a
    non-negative initial delay the delays never decrease. *)
Lemma retry_delay_bounds (k : nat) :
  (exponentialBackoff options <> Some false ->
   retry_delay options k <= nullish (maxDelayMs options) 10000)
  /\ (0 <= nullish (initialDelayMs options) 1000 ->
      retry_delay options k <= retry_delay options (S k)).
Proof.
  unfold retry_delay. split.
  - intros Hbackoff. destruct (exponentialBackoff options) as [[]|]; cbn;
      try lia. congruence.
  - intros Hinitial.
    assert (2 ^ Z.of_nat k <= 2 ^ Z.of_nat (S k))
      by (apply Z.pow_le_mono_r; lia).
    destruct (nullish (exponentialBackoff options) true); nia.
Qed.

End Schedule.

(** X1.  The whole interaction of [withRetry] with an operation whose first
    [j <= maxRetries] invocations fail: for each failure the attempt, the
    callback with the attempt number and that error (when one is supplied),
    a sleep; then the attempt that ends the call.  The sleep after failure
    [k] lasts [min (initialDelayMs * 2^k) maxDelayMs] ms, or
    [initialDelayMs] without backoff; nothing follows the last attempt.
    With backoff no sleep exceeds [maxDelayMs], and the sleeps never get
    shorter when the initial delay is not negative.  With the defaults an
    operation that always fails is given up after sleeps of 1000, 2000 and
    4000 ms. *)
Theorem withRetry_schedule {N} {NN : Number N} {Metadata T : Type}
    (script : nat -> Outcome T) (errs : nat -> JSError)
    (maxRetries_ : option nat) (initialDelayMs_ maxDelayMs_ : option Z)
    (exponentialBackoff_ : option bool) (supplied : bool) :
  let options : RetryOptions N nat Metadata :=
    {| maxRetries := maxRetries_;
       initialDelayMs := initialDelayMs_;
       exponentialBackoff := exponentialBackoff_;
       maxDelayMs := maxDelayMs_;
       onRetry := if supplied then Some recording_onRetry else None |} in
  let budget := nullish maxRetries_ 3%nat in
  let trace :=
    retry_trace options (fun _ => [EvOperation])
      (fun attempt error => if supplied then [EvOnRetry attempt error] else [])
      errs O in
  (forall j v,
      (j <= budget)%nat ->
      (forall k, (k < j)%nat -> script k = Thrown (errs k)) ->
      script j = Returned v ->
      withRetry (scripted script) options O = (Returned v, S j, trace j)
      /\ sleep_calls (trace j) = map (retry_delay options) (seq 0 j))
  /\ ((forall k, (k <= budget)%nat -> script k = Thrown (errs k)) ->
      withRetry (scripted script) options O
      = (Thrown (errs budget), S budget, trace budget)
      /\ sleep_calls (trace budget) = map (retry_delay options) (seq 0 budget))
  /\ (forall k,
        (exponentialBackoff_ <> Some false ->
         retry_delay options k <= nullish maxDelayMs_ 10000)
        /\ (0 <= nullish initialDelayMs_ 1000 ->
            retry_delay options k <= retry_delay options (S k)))
  /\ (maxRetries_ = None -> initialDelayMs_ = None -> maxDelayMs_ = None ->
      exponentialBackoff_ = None ->
      map (retry_delay options) (seq 0 budget) = [1000; 2000; 4000]).
Proof.
  intros options budget trace.
  assert (Hcb : forall attempt error calls,
             call_onRetry (onRetry options) attempt error calls
             = (Returned tt, calls,
                if supplied then [EvOnRetry attempt error] else [])).
  { intros. cbn. destruct supplied; reflexivity. }
  assert (Hsleeps : forall j,
             sleep_calls (trace j) = map (retry_delay options) (seq 0 j)).
  { intros j. apply sleep_calls_retry_trace; [reflexivity|].
    intros; destruct supplied; reflexivity. }
  split; [|split; [|split]].
  - intros j v Hj Hfail Hv. split; [|apply Hsleeps].
    apply (withRetry_counted_returns (scripted script) script
             (fun _ => [EvOperation]) (fun _ => eq_refl) _ _ Hcb options errs O j v
             eq_refl Hj Hfail Hv).
  - intros Hfail. split; [|apply Hsleeps].
    apply (withRetry_counted_gives_up (scripted script) script
             (fun _ => [EvOperation]) (fun _ => eq_refl) _ _ Hcb options errs O
             eq_refl Hfail).
  - intros k. apply (retry_delay_bounds options k).
  - intros -> -> -> ->. reflexivity.
Qed.

(** An operation that fails twice with a connection reset and then answers,
    under the default options with a recording callback. *)
Lemma withRetry_schedule_witness :
  let reset := OtherError "read ECONNRESET" in
  let flaky := fun k : nat =>
    if (k <? 2)%nat then Thrown reset else Returned "rows" in
  let options : RetryOptions float nat unit :=
    {| maxRetries := None; initialDelayMs := None;
       exponentialBackoff := None; maxDelayMs := None;
       onRetry := Some recording_onRetry |} in
  withRetry (scripted flaky) options O
  = (Returned "rows", 3%nat,
     [EvOperation; EvOnRetry 1 reset; EvSleep 1000;
      EvOperation; EvOnRetry 2 reset; EvSleep 2000;
      EvOperation]).
Proof.
  intros reset flaky options.
  destruct (withRetry_schedule (N := float) (Metadata := unit)
              flaky (fun _ => reset) None None None None true)
    as (Hreturns & _).
  destruct (Hreturns 2%nat "rows") as [Hrun _].
  - cbn. lia.
  - intros k Hk. unfold flaky.
    destruct (Nat.ltb_spec k 2); [reflexivity | lia].
  - reflexivity.
  - exact Hrun.
Defined.


Section Conditional.

Context {N : Type} {NN : Number N} {St Metadata : Type} {T : Type}.

Notation Mon := (M N St Metadata).

(** [catch (error) { throw error; }] changes nothing. *)
Lemma try_catch_rethrow (m : Mon T) (s : St) :
  try_catch m (fun error => throw error) s = m s.
Proof.
  unfold try_catch, throw. destruct (m s) as [[[v | error] s1] ev1];
    [reflexivity|]. now rewrite app_nil_r.
Qed.

(** Two callbacks that do the same on every error the operation can throw
    give the same retry loop. *)
Lemma retry_loop_callbacks_agree (operation : Mon T)
    budget initialDelay backoff maxDelay callback1 callback2 :
  (forall s error s' ev attempt s0,
      operation s = (Thrown error, s', ev) ->
      call_onRetry callback1 attempt error s0
      = call_onRetry callback2 attempt error s0) ->
  forall remaining attempt lastError s,
    retry_loop operation budget initialDelay backoff maxDelay callback1
      remaining attempt lastError s
    = retry_loop operation budget initialDelay backoff maxDelay callback2
        remaining attempt lastError s.
Proof.
  intros Hagree. induction remaining as [|remaining IH];
    intros attempt lastError s; [reflexivity|].
  rewrite !retry_loop_S. unfold try_catch.
  destruct (operation s) as [[[v | error] s1] ev1] eqn:Hop; [reflexivity|].
  destruct (Nat.eqb attempt budget); [reflexivity|].
  unfold bind at 1 3.
  change (match callback1 with
          | Some f => f (attempt + 1)%nat error
          | None => ret tt
          end)
    with (call_onRetry callback1 (attempt + 1)%nat error).
  change (match callback2 with
          | Some f => f (attempt + 1)%nat error
          | None => ret tt
          end)
    with (call_onRetry callback2 (attempt + 1)%nat error).
  rewrite (Hagree s error s1 ev1 (attempt + 1)%nat s1 Hop).
  destruct (call_onRetry callback2 (attempt + 1)%nat error s1)
    as [[[[] | error'] s2] ev2]; [|reflexivity].
  unfold bind, sleep, emit. now rewrite IH.
Qed.

End Conditional.

(** X2.  [withConditionalRetry] gives up at once on an error that is not
    retryable: when the first attempt throws such an error the call ends
    with that very error, in the state and with the events of that one
    attempt (no callback of the caller, no sleep, no second attempt),
    whatever the budget.  When the first attempt throws [undefined] and the
    budget is not 0, reading its message fails and the call ends with that
    TypeError instead. *)
Theorem withConditionalRetry_stops {N} {NN : Number N} {St Metadata T : Type}
    (operation : M N St Metadata T) (options : RetryOptions N St Metadata)
    (s s1 : St) (ev1 : list (Event N Metadata)) :
  (forall error,
      operation s = (Thrown error, s1, ev1) ->
      isRetryableError error = Returned false ->
      withConditionalRetry operation options s = (Thrown error, s1, ev1))
  /\ (operation s = (Thrown ThrownUndefined, s1, ev1) ->
      nullish (maxRetries options) 3%nat <> O ->
      withConditionalRetry operation options s
      = (Thrown (OtherError
                   "Cannot read properties of undefined (reading 'message')"),
         s1, ev1)).
Proof.
  split.
  - intros error Hop Hno. unfold withConditionalRetry.
    rewrite try_catch_rethrow. unfold withRetry. cbn [maxRetries onRetry].
    rewrite retry_loop_S. unfold try_catch. rewrite Hop.
    destruct (Nat.eqb 0 _); cbn; [now rewrite app_nil_r|].
    unfold bind, conditional_onRetry, bind, lift. rewrite Hno. cbn.
    now rewrite app_nil_r.
  - intros Hop Hbudget. unfold withConditionalRetry.
    rewrite try_catch_rethrow. unfold withRetry. cbn [maxRetries onRetry].
    rewrite retry_loop_S. unfold try_catch. rewrite Hop.
    destruct (Nat.eqb_spec 0 (nullish (maxRetries options) 3%nat));
      [congruence|].
    cbn. now rewrite app_nil_r.
Qed.

(** An operation that throws a validation error is not invoked a second
    time. *)
Lemma withConditionalRetry_stops_witness :
  let invalid := ValidationError "Query embedding is required" (Some "queryEmbedding") in
  let options : RetryOptions float nat unit :=
    {| maxRetries := Some 5%nat; initialDelayMs := None;
       exponentialBackoff := None; maxDelayMs := None;
       onRetry := Some recording_onRetry |} in
  withConditionalRetry (scripted (fun _ => @Thrown string invalid)) options O
  = (Thrown invalid, 1%nat, [EvOperation]).
Proof.
  intros invalid options.
  apply (proj1 (withConditionalRetry_stops
                  (scripted (fun _ => @Thrown string invalid)) options
                  O 1%nat [EvOperation]));
    reflexivity.
Defined.


(** X3.  When every error the operation can throw is retryable,
    [withConditionalRetry] is [withRetry]: same result, same state, same
    events, for every budget, delay setting and callback. *)
Theorem withConditionalRetry_all_retryable
    {N} {NN : Number N} {St Metadata T : Type}
    (operation : M N St Metadata T) (options : RetryOptions N St Metadata) :
  (forall s error s' ev,
      operation s = (Thrown error, s', ev) ->
      isRetryableError error = Returned true) ->
  forall s,
    withConditionalRetry operation options s = withRetry operation options s.
Proof.
  intros Hretryable s. unfold withConditionalRetry.
  rewrite try_catch_rethrow. unfold withRetry. cbn [maxRetries initialDelayMs
    exponentialBackoff maxDelayMs onRetry].
  apply retry_loop_callbacks_agree.
  intros s0 error s' ev attempt s2 Hop.
  cbn [call_onRetry]. unfold conditional_onRetry, bind, lift.
  rewrite (Hretryable _ _ _ _ Hop). cbn [negb].
  change (match onRetry options with
          | Some callback => callback attempt error
          | None => ret tt
          end)
    with (call_onRetry (onRetry options) attempt error).
  destruct (call_onRetry (onRetry options) attempt error s2) as [[r s3] ev3].
  reflexivity.
Qed.

(** An operation that fails with connection resets only. *)
Lemma withConditionalRetry_all_retryable_witness :
  let reset := OtherError "read ECONNRESET" in
  let flaky := fun k : nat =>
    if (k <? 2)%nat then Thrown reset else Returned "rows" in
  let options : RetryOptions float nat unit :=
    {| maxRetries := None; initialDelayMs := None;
       exponentialBackoff := None; maxDelayMs := None;
       onRetry := Some recording_onRetry |} in
  withConditionalRetry (scripted flaky) options O
  = withRetry (scripted flaky) options O.
Proof.
  intros reset flaky options.
  apply (withConditionalRetry_all_retryable (scripted flaky) options).
  intros s error s' ev. unfold scripted, flaky.
  destruct (s <? 2)%nat; intros Hrun; [|discriminate Hrun].
  injection Hrun as <- _ _. reflexivity.
Defined.


Section ConditionalStop.

Context {N : Type} {NN : Number N} {Metadata : Type} {T : Type}.

Variable script : nat -> Outcome T.
Variable errs : nat -> JSError.
Variable options : RetryOptions N nat Metadata.

(** The caller's callback returns and leaves the counter alone. *)
Variable user_events : nat -> JSError -> list (Event N Metadata).
Hypothesis Huser :
  forall attempt error calls,
    call_onRetry (onRetry options) attempt error calls
    = (Returned tt, calls, user_events attempt error).

(** Invocations [0 .. j - 1] throw retryable errors, invocation [j] throws
    one that is not. *)
Variable j : nat.
Hypothesis Hretryable :
  forall k, (k < j)%nat ->
            script k = Thrown (errs k)
            /\ isRetryableError (errs k) = Returned true.
Hypothesis Hstop :
  script j = Thrown (errs j) /\ isRetryableError (errs j) = Returned false.

Let budget := nullish (maxRetries options) 3%nat.
Hypothesis Hj : (j <= budget)%nat.

Let loop :=
  retry_loop (scripted script) budget
    (nullish (initialDelayMs options) 1000)
    (nullish (exponentialBackoff options) true)
    (nullish (maxDelayMs options) 10000)
    (Some (conditional_onRetry (onRetry options))).

Let step (k : nat) : list (Event N Metadata) :=
  [EvOperation] ++ user_events (S k) (errs k)
  ++ [EvSleep (retry_delay options k)].

Lemma conditional_loop_stops :
  forall remaining attempt lastError,
    (attempt + remaining = S budget)%nat ->
    (attempt <= j)%nat ->
    loop remaining attempt lastError attempt
    = (Thrown (errs j), S j,
       flat_map step (seq attempt (j - attempt)) ++ [EvOperation]).
Proof.
  induction remaining as [|remaining IH];
    intros attempt lastError Hsum Hle; [lia|].
  unfold loop. rewrite retry_loop_S. unfold try_catch, scripted.
  destruct (Nat.eq_dec attempt j) as [-> | Hlt].
  - rewrite Nat.sub_diag, (proj1 Hstop).
    destruct (Nat.eqb j budget); [reflexivity|].
    unfold bind at 1. unfold conditional_onRetry, bind, lift.
    rewrite (proj2 Hstop). reflexivity.
  - destruct (Hretryable attempt) as [Hthrown Hclass]; [lia|].
    rewrite Hthrown.
    destruct (Nat.eqb_spec attempt budget); [lia|].
    unfold bind at 1. unfold conditional_onRetry at 1, bind at 1, lift.
    rewrite Hclass. cbn [negb].
    change (match onRetry options with
            | Some callback => callback (attempt + 1)%nat (errs attempt)
            | None => ret tt
            end)
      with (call_onRetry (onRetry options) (attempt + 1)%nat (errs attempt)).
    rewrite Huser. unfold bind, sleep, emit.
    fold loop. rewrite IH by lia.
    replace (j - attempt)%nat with (S (j - S attempt)) by lia.
    cbn [seq flat_map]. unfold step at 2, retry_delay.
    rewrite Nat.add_1_r, <- !app_assoc. reflexivity.
Qed.

End ConditionalStop.

(** What can be observed of the trace of [count] retried failures. *)
Lemma conditional_trace_observed {N Metadata : Type} (supplied : bool)
    (errs : nat -> JSError) (delay : nat -> Z) (count : nat) :
  forall start,
    let trace : list (Event N Metadata) :=
      flat_map
        (fun k =>
           [EvOperation]
           ++ (if supplied then [EvOnRetry (S k) (errs k)] else [])
           ++ [EvSleep (delay k)])
        (seq start count)
      ++ [EvOperation] in
    operation_calls trace = S count
    /\ onRetry_calls trace
       = (if supplied then map (fun k => (S k, errs k)) (seq start count)
          else [])
    /\ sleep_calls trace = map delay (seq start count).
Proof.
  induction count as [|count IH]; intros start.
  - cbn. destruct supplied; repeat split.
  - destruct (IH (S start)) as (Hoperations & Hcallbacks & Hsleeps).
    cbn [seq flat_map map].
    set (rest := flat_map _ (seq (S start) count)) in *.
    rewrite <- (app_assoc _ rest [EvOperation]).
    destruct supplied; cbn [app operation_calls onRetry_calls sleep_calls];
      rewrite Hoperations, Hcallbacks, Hsleeps; repeat split.
Qed.

(** X27.  [withConditionalRetry] stops at the first error that is not
    retryable.  Around an operation whose first [j <= maxRetries]
    invocations throw retryable errors and whose next one throws an error
    that is not, the call ends with that error after [j + 1] invocations:
    the caller's callback (when one is supplied) has seen the [j] retryable
    errors and not the last one, [j] sleeps were taken, the usual ones, and
    nothing follows the last invocation. *)
Theorem withConditionalRetry_stops_at_first_non_retryable
    {N} {NN : Number N} {Metadata T : Type}
    (script : nat -> Outcome T) (errs : nat -> JSError)
    (maxRetries_ : option nat) (initialDelayMs_ maxDelayMs_ : option Z)
    (exponentialBackoff_ : option bool) (supplied : bool) (j : nat) :
  let options : RetryOptions N nat Metadata :=
    {| maxRetries := maxRetries_;
       initialDelayMs := initialDelayMs_;
       exponentialBackoff := exponentialBackoff_;
       maxDelayMs := maxDelayMs_;
       onRetry := if supplied then Some recording_onRetry else None |} in
  (j <= nullish maxRetries_ 3%nat)%nat ->
  (forall k, (k < j)%nat ->
             script k = Thrown (errs k)
             /\ isRetryableError (errs k) = Returned true) ->
  script j = Thrown (errs j) ->
  isRetryableError (errs j) = Returned false ->
  exists events,
    withConditionalRetry (scripted script) options O
    = (Thrown (errs j), S j, events)
    /\ operation_calls events = S j
    /\ onRetry_calls events
       = (if supplied then map (fun k => (S k, errs k)) (seq 0 j) else [])
    /\ sleep_calls events = map (retry_delay options) (seq 0 j).
Proof.
  intros options Hj Hretryable Hthrown Hclass.
  set (user_events := fun attempt error =>
         if supplied
         then [EvOnRetry (N := N) (Metadata := Metadata) attempt error]
         else []).
  assert (Huser : forall attempt error calls,
             call_onRetry (onRetry options) attempt error calls
             = (Returned tt, calls, user_events attempt error)).
  { intros. cbn. unfold user_events. destruct supplied; reflexivity. }
  pose proof (conditional_loop_stops script errs options user_events Huser j
                Hretryable (conj Hthrown Hclass) Hj
                (S (nullish maxRetries_ 3%nat)) O None eq_refl (Nat.le_0_l j))
    as Hloop.
  rewrite Nat.sub_0_r in Hloop.
  unfold withConditionalRetry. rewrite try_catch_rethrow.
  unfold withRetry.
  cbn [maxRetries initialDelayMs exponentialBackoff maxDelayMs onRetry options]
    in Hloop |- *.
  rewrite Hloop. eexists. split; [reflexivity|].
  apply conditional_trace_observed.
Qed.

(** Two connection resets, then a permission error. *)
Lemma withConditionalRetry_stops_at_first_non_retryable_witness :
  let reset := OtherError "read ECONNRESET" in
  let denied :=
    SearchError "permission denied for table documents" (Some "42501") in
  let errs := fun k : nat => if (k <? 2)%nat then reset else denied in
  let options : RetryOptions float nat unit :=
    {| maxRetries := None; initialDelayMs := None;
       exponentialBackoff := None; maxDelayMs := None;
       onRetry := Some recording_onRetry |} in
  exists events,
    withConditionalRetry (scripted (fun k => @Thrown string (errs k))) options O
    = (Thrown denied, 3%nat, events)
    /\ operation_calls events = 3%nat
    /\ onRetry_calls events = [(1%nat, reset); (2%nat, reset)]
    /\ sleep_calls events = [1000; 2000].
Proof.
  intros reset denied errs options.
  destruct (withConditionalRetry_stops_at_first_non_retryable
              (N := float) (Metadata := unit)
              (fun k => @Thrown string (errs k)) errs None None None None true
              2%nat)
    as (events & Hrun & Hoperations & Hcallbacks & Hsleeps).
  - cbn. lia.
  - intros k Hk. split; [reflexivity|]. unfold errs.
    destruct (Nat.ltb_spec k 2); [reflexivity | lia].
  - reflexivity.
  - reflexivity.
  - exists events. split; [exact Hrun|]. split; [exact Hoperations|].
    split; [exact Hcallbacks | exact Hsleeps].
Defined.


Lemma toLowerCase_app (a b : string) :
  toLowerCase (a ++ b) = (toLowerCase a ++ toLowerCase b)%string.
Proof.
  induction a as [|c a IH]; [reflexivity|]. cbn. now rewrite IH.
Qed.

Lemma prefix_app (k rest : string) : String.prefix k (k ++ rest) = true.
Proof.
  induction k as [|c k IH]; cbn; [now destruct rest|].
  destruct (Ascii.ascii_dec c c); [exact IH | congruence].
Qed.

Lemma includes_app (before k rest : string) :
  includes (before ++ k ++ rest) k = true.
Proof.
  induction before as [|c before IH]; cbn [String.append].
  - destruct (k ++ rest)%string eqn:Hs; cbn [includes];
      rewrite <- Hs, prefix_app; reflexivity.
  - cbn [includes]. rewrite IH. apply orb_true_r.
Qed.

(** X4.  [isRetryableError] looks for its markers anywhere in the message
    and without regard to letter case: an error whose message contains one
    of the nine markers, written in any mix of upper and lower case, inside
    any surrounding text, is retryable. *)
Theorem isRetryableError_case_insensitive
    (error : JSError) (message marker written before after : string) :
  message_of error = Returned message ->
  In marker retryableMessages ->
  toLowerCase written = toLowerCase marker ->
  message = (before ++ written ++ after)%string ->
  isRetryableError error = Returned true.
Proof.
  intros Hmessage Hmarker Hwritten ->. unfold isRetryableError.
  rewrite Hmessage. f_equal. apply existsb_exists. exists marker.
  split; [exact Hmarker|].
  rewrite !toLowerCase_app, Hwritten. apply includes_app.
Qed.

(** An upper-case TIMEOUT in the middle of a message. *)
Lemma isRetryableError_case_insensitive_witness :
  isRetryableError (OtherError "Upstream TIMEOUT after 30s") = Returned true.
Proof.
  apply (isRetryableError_case_insensitive
           (OtherError "Upstream TIMEOUT after 30s")
           "Upstream TIMEOUT after 30s" "timeout" "TIMEOUT"
           "Upstream " " after 30s").
  - reflexivity.
  - cbn. tauto.
  - reflexivity.
  - reflexivity.
Defined.


(** X5.  Only the message counts, never the code: the errors that [search],
    [searchWeighted] and [insertBatch] raise carry the fixed messages of
    their template strings (the dollar signs are escaped, so the backend's
    message is not part of them), and none of these contains a marker; so
    none of these errors is retryable whatever code the backend reported,
    PGRST301 and PGRST504 included. *)
Theorem manager_errors_not_retryable (code : option string) :
  isRetryableError (SearchError search_failed_message code) = Returned false
  /\ isRetryableError (SearchError weighted_failed_message code) = Returned false
  /\ isRetryableError (SearchError batch_failed_message code) = Returned false
  /\ isRetryableError (SearchError search_unexpected_message code) = Returned false
  /\ isRetryableError (SearchError weighted_unexpected_message code) = Returned false
  /\ isRetryableError (SearchError batch_unexpected_message code) = Returned false.
Proof. repeat split; vm_compute; reflexivity. Qed.

(* ================================================================== *)
(** ** More about the search orchestrator *)
(* ================================================================== *)

Section SearchRuns.

Context {N : Type} {NN : Number N} {St Metadata SearchResult : Type}.

Variable client : SupabaseClient N St Metadata SearchResult.

(** With a valid query vector, [search] is its retried operation seen
    through the catch block. *)
Lemma search_valid_run (options : SearchOptions N Metadata)
    expectedDimensions (s : St) :
  search_input_valid options expectedDimensions ->
  search client options expectedDimensions s
  = match withRetry (search_operation client options)
            (retry_3 (fun _ _ => logger_warn search_retry_message)) s with
    | (Returned rows, s', events) => (Returned rows, s', events)
    | (Thrown error, s', events) =>
        (Thrown (surfaced search_unexpected_message error), s', events)
    end.
Proof.
  intros [Hmain Hdims]. unfold search, try_catch.
  unfold bind at 1. unfold when. rewrite Hmain. unfold ret at 1.
  unfold bind at 1.
  assert (Hlift : match given expectedDimensions with
                  | Some d => lift (validateEmbeddingDimensions
                                      (so_queryEmbedding options) d)
                  | None => ret tt
                  end s = (Returned tt, s, @nil (Event N Metadata))).
  { destruct (given expectedDimensions); [rewrite Hdims|]; reflexivity. }
  rewrite Hlift.
  destruct (withRetry _ _ s) as [[[rows | error] s'] events]; cbn [app];
    [reflexivity|].
  unfold surfaced. destruct (is_ValidationError_or_SearchError error); cbn;
    now rewrite app_nil_r.
Qed.

End SearchRuns.

Section SearchScripted.

Context {N : Type} {NN : Number N} {Metadata SearchResult : Type}.

Variable rpc_replies : nat -> Reply (list SearchResult).
Variable insert_replies : nat -> Reply (list (Document N Metadata)).
Variable options : SearchOptions N Metadata.

Let client := scripted_backend rpc_replies insert_replies.

Lemma search_operation_scripted calls :
  search_operation client options calls
  = (search_outcome search_failed_message (rpc_replies calls), S calls,
     [EvRpc "match_documents" (Match (search_args options))]).
Proof.
  unfold search_operation, bind, client_rpc. cbn [rpc client scripted_backend].
  destruct (rpc_replies calls) as [data [error|] | reason]; reflexivity.
Qed.

Lemma logger_callback_returns message attempt error (calls : nat) :
  call_onRetry (N := N) (Metadata := Metadata)
    (Some (fun _ _ => logger_warn message)) attempt error calls
  = (Returned tt, calls, [EvLog Warn message]).
Proof. reflexivity. Qed.

(** The trace of a search whose first [failures] attempts failed. *)
Lemma search_trace_observed errs failures :
  let trace :=
    retry_trace
      (retry_3 (fun _ _ => logger_warn (N := N) (St := nat) (Metadata := Metadata)
                             search_retry_message))
      (fun _ => [EvRpc "match_documents" (Match (search_args options))])
      (fun _ _ => [EvLog Warn search_retry_message])
      errs O failures in
  (failures <= 3)%nat ->
  dispatched trace
  = repeat ("match_documents", Match (search_args options)) (S failures)
  /\ sleep_calls trace = firstn failures [1000; 2000; 4000]
  /\ log_calls trace = repeat (Warn, search_retry_message) failures.
Proof.
  intros trace Hle.
  destruct failures as [|[|[|[|]]]]; try lia; repeat split.
Qed.

End SearchScripted.

(** X6.  A search with a valid query against a backend that reports an
    error on its first [j <= 3] calls and then answers: the rows of the
    answer are returned as they are (an answer without data gives the empty
    list), after [j + 1] identical RPCs, [j] warnings and sleeps of 1000,
    2000, 4000 ms as far as needed.  When all four calls report an error the
    search throws a [SearchError] carrying the code of the fourth report,
    after four RPCs and sleeps of 1000, 2000 and 4000 ms. *)
Theorem search_retries_backend_errors
    {N} {NN : Number N} {Metadata SearchResult : Type}
    (rpc_replies : nat -> Reply (list SearchResult))
    (insert_replies : nat -> Reply (list (Document N Metadata)))
    (options : SearchOptions N Metadata) (expectedDimensions : option Z)
    (errs : nat -> PostgrestError) :
  search_input_valid options expectedDimensions ->
  let client := scripted_backend rpc_replies insert_replies in
  let call := ("match_documents", Match (search_args options)) in
  (forall j data,
      (j <= 3)%nat ->
      (forall k, (k < j)%nat ->
                 exists ignored, rpc_replies k = Resolved ignored (Some (errs k))) ->
      rpc_replies j = Resolved data None ->
      exists events,
        search client options expectedDimensions O
        = (Returned (nullish data []), S j, events)
        /\ dispatched events = repeat call (S j)
        /\ sleep_calls events = firstn j [1000; 2000; 4000]
        /\ log_calls events = repeat (Warn, search_retry_message) j)
  /\ ((forall k, (k <= 3)%nat ->
                 exists ignored, rpc_replies k = Resolved ignored (Some (errs k))) ->
      exists events,
        search client options expectedDimensions O
        = (Thrown (SearchError search_failed_message (Some (pg_code (errs 3%nat)))),
           4%nat, events)
        /\ dispatched events = repeat call 4
        /\ sleep_calls events = [1000; 2000; 4000]
        /\ log_calls events = repeat (Warn, search_retry_message) 3).
Proof.
  intros Hvalid client call.
  set (raised := fun k =>
         SearchError search_failed_message (Some (pg_code (errs k)))).
  assert (Hfailed : forall k,
             (exists ignored, rpc_replies k = Resolved ignored (Some (errs k))) ->
             search_outcome search_failed_message (rpc_replies k)
             = Thrown (raised k)).
  { intros k [ignored ->]. reflexivity. }
  split.
  - intros j data Hj Hfail Hanswer.
    rewrite (search_valid_run client options expectedDimensions O Hvalid).
    rewrite (withRetry_counted_returns
               (search_operation client options)
               (fun k => search_outcome search_failed_message (rpc_replies k))
               (fun _ => [EvRpc "match_documents" (Match (search_args options))])
               (search_operation_scripted rpc_replies insert_replies options)
               _ (fun _ _ => [EvLog Warn search_retry_message])
               (logger_callback_returns search_retry_message)
               (retry_3 (fun _ _ => logger_warn search_retry_message))
               raised O j (nullish data []) eq_refl Hj).
    + eexists. split; [reflexivity|].
      apply (search_trace_observed options raised j Hj).
    + intros k Hk. apply Hfailed, Hfail, Hk.
    + cbn. now rewrite Hanswer.
  - intros Hfail.
    rewrite (search_valid_run client options expectedDimensions O Hvalid).
    rewrite (withRetry_counted_gives_up
               (search_operation client options)
               (fun k => search_outcome search_failed_message (rpc_replies k))
               (fun _ => [EvRpc "match_documents" (Match (search_args options))])
               (search_operation_scripted rpc_replies insert_replies options)
               _ (fun _ _ => [EvLog Warn search_retry_message])
               (logger_callback_returns search_retry_message)
               (retry_3 (fun _ _ => logger_warn search_retry_message))
               raised O eq_refl).
    + eexists. split; [reflexivity|].
      apply (search_trace_observed options raised 3 (Nat.le_refl _)).
    + intros k Hk. apply Hfailed, Hfail, Hk.
Qed.

(** A backend that cancels two statements and then answers with one row. *)
Lemma search_retries_backend_errors_witness :
  let cancelled :=
    {| pg_message := "canceling statement due to statement timeout";
       pg_code := "57014" |} in
  let rpc_replies := fun k : nat =>
    if (k <? 2)%nat then Resolved None (Some cancelled)
    else Resolved (Some ["row"]) None in
  let insert_replies := fun _ : nat =>
    @Resolved (list (Document float unit)) None None in
  exists events,
    search (scripted_backend rpc_replies insert_replies)
      (example_search None None) (Some 3) O
    = (Returned ["row"], 3%nat, events)
    /\ sleep_calls events = [1000; 2000]
    /\ log_calls events = [(Warn, search_retry_message);
                           (Warn, search_retry_message)].
Proof.
  intros cancelled rpc_replies insert_replies.
  destruct (search_retries_backend_errors rpc_replies insert_replies
              (example_search None None) (Some 3) (fun _ => cancelled))
    as (Hanswers & _).
  - split; reflexivity.
  - destruct (Hanswers 2%nat (Some ["row"]))
      as (events & Hrun & _ & Hsleeps & Hlogs).
    + lia.
    + intros k Hk. exists None. unfold rpc_replies.
      destruct (Nat.ltb_spec k 2); [reflexivity | lia].
    + reflexivity.
    + exists events. split; [exact Hrun|].
      split; [exact Hsleeps | exact Hlogs].
Defined.


(** X7.  A search with a valid query against a backend whose calls are all
    rejected (the promise fails, as on a network failure) makes four RPCs
    with the usual sleeps and then throws a [SearchError] with the fixed
    "unexpected error" text and no code: the reason of the rejection does
    not reach the caller, unless it was itself a [SearchError] or a
    [ValidationError]. *)
Theorem search_rejected_calls
    {N} {NN : Number N} {Metadata SearchResult : Type}
    (rpc_replies : nat -> Reply (list SearchResult))
    (insert_replies : nat -> Reply (list (Document N Metadata)))
    (options : SearchOptions N Metadata) (expectedDimensions : option Z)
    (reasons : nat -> JSError) :
  search_input_valid options expectedDimensions ->
  (forall k, (k <= 3)%nat -> rpc_replies k = Rejected (reasons k)) ->
  exists events,
    search (scripted_backend rpc_replies insert_replies) options
      expectedDimensions O
    = (Thrown (surfaced search_unexpected_message (reasons 3%nat)), 4%nat, events)
    /\ (is_ValidationError_or_SearchError (reasons 3%nat) = false ->
        surfaced search_unexpected_message (reasons 3%nat)
        = SearchError search_unexpected_message None)
    /\ dispatched events
       = repeat ("match_documents", Match (search_args options)) 4
    /\ sleep_calls events = [1000; 2000; 4000].
Proof.
  intros Hvalid Hrejected.
  rewrite (search_valid_run _ options expectedDimensions O Hvalid).
  rewrite (withRetry_counted_gives_up
             (search_operation (scripted_backend rpc_replies insert_replies) options)
             (fun k => search_outcome search_failed_message (rpc_replies k))
             (fun _ => [EvRpc "match_documents" (Match (search_args options))])
             (search_operation_scripted rpc_replies insert_replies options)
             _ (fun _ _ => [EvLog Warn search_retry_message])
             (logger_callback_returns search_retry_message)
             (retry_3 (fun _ _ => logger_warn search_retry_message))
             reasons O eq_refl).
  - eexists. split; [reflexivity|]. split.
    + intros Hother. unfold surfaced. now rewrite Hother.
    + pose proof (search_trace_observed options reasons 3 (Nat.le_refl _))
        as (Hcalls & Hsleeps & _).
      split; [exact Hcalls | exact Hsleeps].
  - intros k Hk. cbn in Hk. cbn [Nat.add]. rewrite (Hrejected k Hk).
    reflexivity.
Qed.

(** A backend that cannot be reached. *)
Lemma search_rejected_calls_witness :
  let rpc_replies := fun _ : nat =>
    @Rejected (list string) (OtherError "fetch failed") in
  let insert_replies := fun _ : nat =>
    @Resolved (list (Document float unit)) None None in
  exists events,
    search (scripted_backend rpc_replies insert_replies)
      (example_search None None) (Some 3) O
    = (Thrown (SearchError search_unexpected_message None), 4%nat, events)
    /\ sleep_calls events = [1000; 2000; 4000].
Proof.
  intros rpc_replies insert_replies.
  destruct (search_rejected_calls rpc_replies insert_replies
              (example_search None None) (Some 3)
              (fun _ => OtherError "fetch failed"))
    as (events & Hrun & _ & _ & Hsleeps).
  - split; reflexivity.
  - intros k Hk. reflexivity.
  - exists events. split; [exact Hrun | exact Hsleeps].
Defined.


(** X8.  Whatever the backend, the input and the state, [search] and
    [searchWeighted] throw nothing but a [ValidationError] or a
    [SearchError]. *)
Theorem searches_throw_only_validation_or_search_errors
    {N} {NN : Number N} {St Metadata SearchResult : Type}
    (client : SupabaseClient N St Metadata SearchResult)
    (expectedDimensions : option Z) (s : St) :
  (forall options error s' events,
      search client options expectedDimensions s = (Thrown error, s', events) ->
      is_ValidationError_or_SearchError error = true)
  /\ (forall options error s' events,
        searchWeighted client options expectedDimensions s
        = (Thrown error, s', events) ->
        is_ValidationError_or_SearchError error = true).
Proof.
  split; intros options error s' events; [unfold search | unfold searchWeighted];
    unfold try_catch;
    match goal with
    | |- context [match ?m s with _ => _ end] =>
        destruct (m s) as [[[rows | inner] s1] ev1]
    end; try discriminate;
    destruct (is_ValidationError_or_SearchError inner) eqn:Hinner; cbn;
    intros [= <- _ _]; [exact Hinner | reflexivity | exact Hinner | reflexivity].
Qed.

(** A search without a query vector. *)
Lemma searches_throw_only_validation_or_search_errors_witness :
  let options : SearchOptions float unit :=
    {| so_queryEmbedding := JSUndefined; so_matchThreshold := None;
       so_matchCount := None; so_filterMetadata := None |} in
  exists error events,
    search example_client options (Some 3) tt = (Thrown error, tt, events)
    /\ is_ValidationError_or_SearchError error = true.
Proof.
  intros options.
  exists (ValidationError "Query embedding is required" (Some "queryEmbedding")), [].
  split; [reflexivity|].
  apply (proj1 (searches_throw_only_validation_or_search_errors
                  example_client (Some 3) tt) options _ tt []).
  reflexivity.
Defined.


(* ================================================================== *)
(** ** More about batch insert *)
(* ================================================================== *)

Section Chunks.

Context {A : Type}.
Variable l : list A.
Variables b : Z.
Hypothesis Hb : 0 < b.

Let n : Z := Z.of_nat (List.length l).

(** A chunk that starts inside the array is the next [b] elements. *)
Lemma slice_firstn (k : nat) :
  slice l (Z.of_nat k * b) (Z.of_nat k * b + b)
  = firstn (Z.to_nat b) (skipn (Z.to_nat (Z.of_nat k * b)) l).
Proof.
  unfold slice. fold n.
  destruct (Z.ltb_spec (Z.of_nat k * b) 0); [nia|].
  destruct (Z.ltb_spec (Z.of_nat k * b + b) 0); [nia|].
  destruct (Z_le_gt_dec (Z.of_nat k * b) n) as [Hin | Hout].
  - rewrite (Z.min_l (Z.of_nat k * b) n) by lia.
    destruct (Z_le_gt_dec (Z.of_nat k * b + b) n).
    + rewrite Z.min_l by lia. f_equal. lia.
    + rewrite Z.min_r by lia.
      rewrite !firstn_all2; try reflexivity; rewrite length_skipn;
        unfold n in *; lia.
  - rewrite !Z.min_r by lia. rewrite Z.sub_diag.
    rewrite !skipn_all2 by (unfold n in *; lia).
    now rewrite !firstn_nil.
Qed.

(** The chunks from chunk [k] on, one after the other, are the array from
    index [k * b] on. *)
Lemma slices_cover (count k : nat) :
  (k + count = chunk_count n b)%nat ->
  List.concat (map (fun j => slice l (Z.of_nat j * b) (Z.of_nat j * b + b))
            (seq k count))
  = skipn (Z.to_nat (Z.of_nat k * b)) l.
Proof.
  assert (Hn : 0 <= n) by (unfold n; lia).
  pose proof (chunk_count_bounds n b Hn Hb) as Hbounds.
  revert k. induction count as [|count IH]; intros k Hk.
  - cbn. rewrite skipn_all2; [reflexivity|].
    rewrite Nat.add_0_r in Hk. rewrite Hk. unfold n in *. lia.
  - cbn [seq map List.concat]. rewrite IH by lia. rewrite slice_firstn.
    replace (Z.to_nat (Z.of_nat (S k) * b))
      with (Z.to_nat b + Z.to_nat (Z.of_nat k * b))%nat by nia.
    rewrite <- skipn_skipn. apply firstn_skipn.
Qed.

(** Every chunk of the loop holds at least one element and at most [b]. *)
Lemma slice_size (k : nat) :
  (k < chunk_count n b)%nat ->
  0 < Z.of_nat (List.length (slice l (Z.of_nat k * b) (Z.of_nat k * b + b)))
    <= b.
Proof.
  assert (Hn : 0 <= n) by (unfold n; lia).
  intros Hk. apply (more_chunks n b Hn Hb) in Hk.
  rewrite slice_length by lia. fold n. lia.
Qed.

End Chunks.

(** X9.  Against a backend that accepts every insert, a batch insert with
    chunk size [b >= 1] returns (the loop runs once per chunk), and the
    chunks it sent, one after the other, are exactly the documents' rows in
    their order: no document is skipped and none is sent twice.  Every chunk
    holds at least one row and at most [b].  Nothing about a document is
    checked on the way: documents with empty content are sent as they
    are. *)
Theorem insertBatch_sends_every_document_once
    {N} {NN : Number N} {St Metadata SearchResult : Type}
    (client : SupabaseClient N St Metadata SearchResult)
    (tableName : string) (empty_metadata : Metadata)
    (documents : list (Document N Metadata)) (b : Z) (fuel : nat) (s : St) :
  0 < b ->
  accepts_every_insert client ->
  (chunk_count (Z.of_nat (List.length documents)) b <= fuel)%nat ->
  exists results s' events,
    insertBatch fuel client tableName empty_metadata documents b
      (Some recording_onProgress) s
    = Some (Returned results, s', events)
    /\ List.concat (insert_calls events) = map (insert_row empty_metadata) documents
    /\ Forall (fun rows => 0 < Z.of_nat (List.length rows) <= b)
         (insert_calls events).
Proof.
  intros Hb Haccepts Hfuel.
  set (n := Z.of_nat (List.length documents)) in *.
  assert (Hn : 0 <= n) by (unfold n; lia).
  set (chunk := fun j : nat =>
         slice documents (Z.of_nat j * b) (Z.of_nat j * b + b)).
  assert (Hcalls : forall k count,
             insert_calls
               (flat_map
                  (fun j =>
                     [EvInsert tableName (map (insert_row empty_metadata) (chunk j));
                      EvProgress (N := N) (Metadata := Metadata)
                        (completed_after n b j) n])
                  (seq k count))
             = map (fun j => map (insert_row empty_metadata) (chunk j))
                 (seq k count)).
  { intros k count. revert k.
    induction count as [|count IH]; intros k; [reflexivity|].
    cbn [seq flat_map map]. cbn [app insert_calls]. now rewrite IH. }
  unfold insertBatch. fold n.
  destruct (Z.eqb_spec n 0) as [Hzero | Hpos].
  - exists [], s, []. split; [reflexivity|].
    destruct documents; [split; [reflexivity | constructor]|].
    unfold n in Hzero. cbn in Hzero. lia.
  - destruct (insertBatch_loop_accepted client tableName empty_metadata
                documents b Hb Haccepts fuel O [] s)
      as (results & s' & Hloop); [fold n; lia|].
    cbn [Z.of_nat Z.mul] in Hloop. fold n in Hloop.
    rewrite Z.min_l in Hloop by lia. rewrite Hloop, Nat.sub_0_r.
    exists results, s'. eexists. split; [reflexivity|].
    fold chunk. rewrite Hcalls. split.
    + transitivity
        (map (insert_row empty_metadata)
           (List.concat (map chunk (seq 0 (chunk_count n b))))).
      * rewrite concat_map, map_map. reflexivity.
      * f_equal. unfold chunk.
        rewrite (slices_cover documents b Hb _ O) by reflexivity.
        reflexivity.
    + apply Forall_forall. intros rows Hin. apply in_map_iff in Hin.
      destruct Hin as (j & <- & Hj). apply in_seq in Hj.
      rewrite length_map. apply (slice_size documents b Hb). fold n. lia.
Qed.

(** Five documents in chunks of two against the backend of the examples. *)
Lemma insertBatch_sends_every_document_once_witness :
  let documents :=
    map example_document ["a"; "b"; "c"; "d"; "e"]%string in
  exists results events,
    insertBatch 3 example_client "documents" tt documents 2
      (Some recording_onProgress) tt
    = Some (Returned results, tt, events)
    /\ List.concat (insert_calls events) = map (insert_row tt) documents
    /\ Forall (fun rows => 0 < Z.of_nat (List.length rows) <= 2)
         (insert_calls events).
Proof.
  intros documents.
  destruct (insertBatch_sends_every_document_once example_client "documents"
              tt documents 2 3%nat tt)
    as (results & [] & events & Hrun & Hrows & Hsizes).
  - lia.
  - intros table rows s. exists [], s. reflexivity.
  - vm_compute. lia.
  - exists results, events. split; [exact Hrun|].
    split; [exact Hrows | exact Hsizes].
Defined.


Section Hang.

Context {N : Type} {NN : Number N} {St Metadata SearchResult : Type}.

Variable client : SupabaseClient N St Metadata SearchResult.
Variable tableName : string.
Variable empty_metadata : Metadata.
Variable documents : list (Document N Metadata).
Variable b : Z.
Hypothesis Hb : b <= 0.
Hypothesis Hdocuments : documents <> [].
Hypothesis Haccepts : accepts_every_insert client.

(** From an index that is not positive the loop never gets to its end. *)
Lemma insertBatch_loop_hangs fuel :
  forall i results completed s,
    i <= 0 ->
    insertBatch_loop fuel client tableName empty_metadata documents b
      (Some recording_onProgress) i results completed s
    = None.
Proof.
  assert (Hn : 0 < Z.of_nat (List.length documents))
    by (destruct documents; [congruence | cbn; lia]).
  induction fuel as [|fuel IH]; intros i results completed s Hi;
    cbn [insertBatch_loop];
    destruct (Z.ltb_spec i (Z.of_nat (List.length documents))); try lia;
    [reflexivity|].
  destruct (insert_chunk_accepted client tableName empty_metadata documents b
              Haccepts i results completed s) as (data & s' & ->).
  rewrite IH by lia. reflexivity.
Qed.

End Hang.

(** X10.  With a chunk size of 0 or less and at least one document, a batch
    insert against a backend that accepts every insert never returns: the
    loop index never reaches the number of documents, so no number of
    iterations ends the call. *)
Theorem insertBatch_never_returns
    {N} {NN : Number N} {St Metadata SearchResult : Type}
    (client : SupabaseClient N St Metadata SearchResult)
    (tableName : string) (empty_metadata : Metadata)
    (documents : list (Document N Metadata)) (b : Z) :
  b <= 0 ->
  documents <> [] ->
  accepts_every_insert client ->
  forall fuel s,
    insertBatch fuel client tableName empty_metadata documents b
      (Some recording_onProgress) s
    = None.
Proof.
  intros Hb Hdocuments Haccepts fuel s. unfold insertBatch.
  destruct (Z.eqb_spec (Z.of_nat (List.length documents)) 0) as [Hzero|_].
  - destruct documents; [congruence | cbn in Hzero; lia].
  - rewrite (insertBatch_loop_hangs client tableName empty_metadata documents b
               Hb Hdocuments Haccepts fuel 0 [] 0 s (Z.le_refl 0)).
    reflexivity.
Qed.

(** One document and a chunk size of 0: a thousand iterations do not end
    the call. *)
Lemma insertBatch_never_returns_witness :
  insertBatch 1000 example_client "documents" tt [example_document "a"] 0
    (Some recording_onProgress) tt
  = None.
Proof.
  apply (insertBatch_never_returns example_client "documents" tt
           [example_document "a"] 0).
  - lia.
  - discriminate.
  - intros table rows s. exists [], s. reflexivity.
Defined.


(** X11.  Whatever the backend, the documents, the chunk size and the
    callback, a batch insert throws nothing but a [SearchError]. *)
Theorem insertBatch_throws_only_search_errors
    {N} {NN : Number N} {St Metadata SearchResult : Type}
    (client : SupabaseClient N St Metadata SearchResult)
    (tableName : string) (empty_metadata : Metadata)
    (documents : list (Document N Metadata)) (b : Z)
    (onProgress : option (Z -> Z -> M N St Metadata unit))
    (fuel : nat) (s s' : St) (error : JSError)
    (events : list (Event N Metadata)) :
  insertBatch fuel client tableName empty_metadata documents b onProgress s
  = Some (Thrown error, s', events) ->
  is_SearchError error = true.
Proof.
  unfold insertBatch.
  destruct (Z.of_nat (List.length documents) =? 0); [discriminate|].
  destruct (insertBatch_loop _ _ _ _ _ _ _ _ _ _ s)
    as [[[[results | inner] s1] ev1]|]; try discriminate.
  destruct (is_SearchError inner) eqn:Hinner; intros [= <- _ _];
    [exact Hinner | reflexivity].
Qed.

(** A backend whose inserts are rejected with [undefined]. *)
Lemma insertBatch_throws_only_search_errors_witness :
  let rpc_replies := fun _ : nat => @Resolved (list unit) None None in
  let insert_replies := fun _ : nat =>
    @Rejected (list (Document float unit)) ThrownUndefined in
  exists error events,
    insertBatch 1 (scripted_backend rpc_replies insert_replies) "documents" tt
      [example_document "a"] 100 None O
    = Some (Thrown error, 4%nat, events)
    /\ is_SearchError error = true.
Proof.
  intros rpc_replies insert_replies.
  exists (SearchError batch_unexpected_message None).
  eexists. split; [vm_compute; reflexivity|].
  apply (insertBatch_throws_only_search_errors
           (scripted_backend rpc_replies insert_replies) "documents" tt
           [example_document "a"] 100 None 1%nat O 4%nat _
           (snd (insert_chunk (scripted_backend rpc_replies insert_replies)
                   "documents" tt [example_document "a"] 100 None 0 [] 0 O))).
  vm_compute. reflexivity.
Defined.


Lemma firstn_seq_le k : forall start len,
  (k <= len)%nat -> firstn k (seq start len) = seq start k.
Proof.
  induction k as [|k IH]; intros start [|len] Hle; try reflexivity; [lia|].
  cbn [seq firstn]. f_equal. apply IH. lia.
Qed.

Section Abort.

Context {N : Type} {NN : Number N} {Metadata SearchResult : Type}.

Variable rpc_replies : nat -> Reply (list SearchResult).
Variable insert_replies : nat -> Reply (list (Document N Metadata)).
Variable tableName : string.
Variable empty_metadata : Metadata.
Variable documents : list (Document N Metadata).
Variable b : Z.
Hypothesis Hb : 0 < b.

(** The backend accepts its first [accepted] inserts. *)
Variable accepted : nat.
Hypothesis Haccepted :
  forall k, (k < accepted)%nat ->
            exists data, insert_replies k = Resolved (Some data) None.

Let client := scripted_backend rpc_replies insert_replies.
Let n : Z := Z.of_nat (List.length documents).
Let chunk (k : nat) : list (InsertRow N Metadata) :=
  map (insert_row empty_metadata)
    (slice documents (Z.of_nat k * b) (Z.of_nat k * b + b)).

Lemma batch_operation_scripted batch calls :
  batch_operation client tableName empty_metadata batch calls
  = (batch_outcome (insert_replies calls), S calls,
     [EvInsert tableName (map (insert_row empty_metadata) batch)]).
Proof.
  unfold batch_operation, bind, client_insert.
  cbn [insert_select client scripted_backend].
  destruct (insert_replies calls) as [data [error|] | reason]; reflexivity.
Qed.

(** A chunk sent as call [k < accepted] goes through at the first attempt. *)
Lemma insert_chunk_goes_through k results completed :
  (k < accepted)%nat ->
  exists data,
    insert_chunk client tableName empty_metadata documents b
      (Some recording_onProgress) (Z.of_nat k * b) results completed k
    = (Returned (results ++ data,
                 completed + Z.of_nat (List.length (chunk k))),
       S k,
       [EvInsert tableName (chunk k);
        EvProgress (completed + Z.of_nat (List.length (chunk k))) n]).
Proof.
  intros Hk. destruct (Haccepted k Hk) as [data Hreply]. exists data.
  unfold insert_chunk. unfold bind at 1.
  rewrite (withRetry_counted_returns
             (batch_operation client tableName empty_metadata _)
             (fun calls => batch_outcome (insert_replies calls))
             (fun _ => [EvInsert tableName (chunk k)])
             (batch_operation_scripted _)
             _ (fun _ _ => [EvLog Warn batch_retry_message])
             (logger_callback_returns batch_retry_message)
             (retry_3 (fun _ _ => logger_warn batch_retry_message))
             (fun _ => ThrownUndefined) k O (Some data) eq_refl (Nat.le_0_l _)).
  - rewrite Nat.add_0_r. unfold chunk. rewrite !length_map. reflexivity.
  - intros j Hj. lia.
  - rewrite Nat.add_0_r, Hreply. reflexivity.
Qed.

(** The chunk sent from call [accepted] on is given up after four attempts
    when the backend reports an error on each. *)
Lemma insert_chunk_given_up (errs : nat -> PostgrestError) :
  (forall k, (k <= 3)%nat ->
             exists ignored,
               insert_replies (accepted + k)%nat
               = Resolved ignored (Some (errs k))) ->
  exists events,
    (forall results completed,
        insert_chunk client tableName empty_metadata documents b
          (Some recording_onProgress) (Z.of_nat accepted * b) results completed
          accepted
        = (Thrown (SearchError batch_failed_message
                     (Some (pg_code (errs 3%nat)))),
           (accepted + 4)%nat, events))
    /\ progress_calls events = []
    /\ insert_calls events = repeat (chunk accepted) 4
    /\ sleep_calls events = [1000; 2000; 4000].
Proof.
  intros Hfailing.
  set (raised := fun k =>
         SearchError batch_failed_message (Some (pg_code (errs k)))).
  exists (retry_trace
            (retry_3 (fun _ _ => logger_warn (St := nat) batch_retry_message))
            (fun _ => [EvInsert tableName (chunk accepted)])
            (fun _ _ => [EvLog Warn batch_retry_message])
            raised accepted 3).
  split; [|repeat split].
  intros results completed. unfold insert_chunk. unfold bind at 1.
  rewrite (withRetry_counted_gives_up
             (batch_operation client tableName empty_metadata _)
             (fun calls => batch_outcome (insert_replies calls))
             (fun _ => [EvInsert tableName (chunk accepted)])
             (batch_operation_scripted _)
             _ (fun _ _ => [EvLog Warn batch_retry_message])
             (logger_callback_returns batch_retry_message)
             (retry_3 (fun _ _ => logger_warn batch_retry_message))
             raised accepted eq_refl).
  - f_equal. f_equal. cbn. lia.
  - intros k Hk. cbn in Hk. destruct (Hfailing k Hk) as [ignored ->].
    reflexivity.
Qed.

(** The chunk sent as call [accepted] is answered without data and without
    error: the insert is not repeated, and spreading [null] into [results]
    throws. *)
Lemma insert_chunk_without_data results completed :
  insert_replies accepted = Resolved None None ->
  insert_chunk client tableName empty_metadata documents b
    (Some recording_onProgress) (Z.of_nat accepted * b) results completed
    accepted
  = (Thrown (OtherError "batchResult is not iterable"), S accepted,
     [EvInsert tableName (chunk accepted)]).
Proof.
  intros Hreply. unfold insert_chunk. unfold bind at 1.
  rewrite (withRetry_counted_returns
             (batch_operation client tableName empty_metadata _)
             (fun calls => batch_outcome (insert_replies calls))
             (fun _ => [EvInsert tableName (chunk accepted)])
             (batch_operation_scripted _)
             _ (fun _ _ => [EvLog Warn batch_retry_message])
             (logger_callback_returns batch_retry_message)
             (retry_3 (fun _ _ => logger_warn batch_retry_message))
             (fun _ => ThrownUndefined) accepted O None eq_refl (Nat.le_0_l _)).
  - rewrite Nat.add_0_r. reflexivity.
  - intros j Hj. lia.
  - rewrite Nat.add_0_r, Hreply. reflexivity.
Qed.

(** Chunk [accepted] ends the loop. *)
Variable last_error : JSError.
Variable last_state : nat.
Variable last_events : list (Event N Metadata).
Hypothesis Hlast :
  forall results completed,
    insert_chunk client tableName empty_metadata documents b
      (Some recording_onProgress) (Z.of_nat accepted * b) results completed
      accepted
    = (Thrown last_error, last_state, last_events).

(** The loop from chunk [k <= accepted] on. *)
Lemma insertBatch_loop_aborts fuel :
  forall k results,
    (k <= accepted)%nat ->
    (accepted < chunk_count n b)%nat ->
    (accepted - k < fuel)%nat ->
    exists events,
      insertBatch_loop fuel client tableName empty_metadata documents b
        (Some recording_onProgress) (Z.of_nat k * b) results
        (Z.min (Z.of_nat k * b) n) k
      = Some (Thrown last_error, last_state, events)
      /\ progress_calls events
         = map (fun j => (completed_after n b j, n)) (seq k (accepted - k))
           ++ progress_calls last_events
      /\ insert_calls events
         = map chunk (seq k (accepted - k)) ++ insert_calls last_events.
Proof.
  assert (Hn : 0 <= n) by (unfold n; lia).
  induction fuel as [|fuel IH]; intros k results Hk Hchunks Hfuel; [lia|].
  cbn [insertBatch_loop]. fold n.
  assert (Hlt : Z.of_nat k * b < n) by (apply (more_chunks n b Hn Hb); lia).
  destruct (Z.ltb_spec (Z.of_nat k * b) n); [|lia].
  destruct (Nat.eq_dec k accepted) as [-> | Hne].
  - rewrite Hlast. exists last_events. rewrite Nat.sub_diag.
    split; [reflexivity|]. split; reflexivity.
  - destruct (insert_chunk_goes_through k results (Z.min (Z.of_nat k * b) n))
      as (data & ->); [lia|].
    assert (Hcompleted :
              Z.min (Z.of_nat k * b) n + Z.of_nat (List.length (chunk k))
              = Z.min (Z.of_nat (S k) * b) n).
    { unfold chunk. rewrite length_map, slice_length by lia. fold n. lia. }
    rewrite Hcompleted.
    replace (Z.of_nat k * b + b) with (Z.of_nat (S k) * b) by lia.
    destruct (IH (S k) (results ++ data)) as (events & -> & Hprogress & Hinserts);
      [lia | lia | lia |].
    eexists. split; [reflexivity|].
    replace (accepted - k)%nat with (S (accepted - S k)) by lia.
    cbn [seq map app progress_calls insert_calls].
    rewrite Hprogress, Hinserts. split; [|reflexivity].
    f_equal. f_equal. unfold completed_after. f_equal. lia.
Qed.

(** The whole call. *)
Lemma insertBatch_aborts fuel :
  (accepted < chunk_count n b)%nat ->
  (accepted < fuel)%nat ->
  exists events,
    insertBatch fuel client tableName empty_metadata documents b
      (Some recording_onProgress) O
    = Some (Thrown (if is_SearchError last_error then last_error
                    else SearchError batch_unexpected_message None),
            last_state, events)
    /\ progress_calls events
       = firstn accepted (expected_progress n b) ++ progress_calls last_events
    /\ insert_calls events
       = map chunk (seq 0 accepted) ++ insert_calls last_events.
Proof.
  intros Hchunks Hfuel.
  assert (Hn : 0 <= n) by (unfold n; lia).
  unfold insertBatch. fold n.
  destruct (Z.eqb_spec n 0) as [Hzero | Hpos].
  - pose proof (more_chunks n b Hn Hb accepted). nia.
  - destruct (insertBatch_loop_aborts fuel O [])
      as (events & Hloop & Hprogress & Hinserts);
      [lia | exact Hchunks | lia |].
    cbn [Z.of_nat Z.mul] in Hloop. fold n in Hloop.
    rewrite Z.min_l in Hloop by lia. rewrite Hloop.
    exists events. rewrite Nat.sub_0_r in Hprogress, Hinserts.
    split; [destruct (is_SearchError last_error); reflexivity|].
    split; [|exact Hinserts].
    rewrite Hprogress. unfold expected_progress.
    rewrite firstn_map, firstn_seq_le by lia. reflexivity.
Qed.

End Abort.

(** X12.  A failing chunk ends a batch insert without undoing or skipping
    anything before it.  Against a backend that accepts its first [f]
    inserts and then reports errors, with chunk size [b >= 1] and more than
    [f] chunks to send: chunks 0 .. f-1 are inserted once each and reported,
    chunk [f] is sent four times, the call throws a [SearchError] with the
    code of the fourth report, and no later chunk is ever sent. *)
Theorem insertBatch_aborts_at_failing_chunk
    {N} {NN : Number N} {Metadata SearchResult : Type}
    (rpc_replies : nat -> Reply (list SearchResult))
    (insert_replies : nat -> Reply (list (Document N Metadata)))
    (tableName : string) (empty_metadata : Metadata)
    (documents : list (Document N Metadata)) (b : Z)
    (f : nat) (errs : nat -> PostgrestError) (fuel : nat) :
  0 < b ->
  (forall k, (k < f)%nat ->
             exists data, insert_replies k = Resolved (Some data) None) ->
  (forall k, (k <= 3)%nat ->
             exists ignored,
               insert_replies (f + k)%nat = Resolved ignored (Some (errs k))) ->
  let n := Z.of_nat (List.length documents) in
  let chunk := fun k : nat =>
    map (insert_row empty_metadata)
      (slice documents (Z.of_nat k * b) (Z.of_nat k * b + b)) in
  (f < chunk_count n b)%nat ->
  (f < fuel)%nat ->
  exists events,
    insertBatch fuel (scripted_backend rpc_replies insert_replies) tableName
      empty_metadata documents b (Some recording_onProgress) O
    = Some (Thrown (SearchError batch_failed_message
                      (Some (pg_code (errs 3%nat)))),
            (f + 4)%nat, events)
    /\ progress_calls events = firstn f (expected_progress n b)
    /\ insert_calls events = map chunk (seq 0 f) ++ repeat (chunk f) 4.
Proof.
  intros Hb Haccepted Hfailing n chunk Hchunks Hfuel.
  destruct (insert_chunk_given_up rpc_replies insert_replies tableName
              empty_metadata documents b f errs Hfailing)
    as (last_events & Hlast & Hprogress & Hinserts & _).
  destruct (insertBatch_aborts rpc_replies insert_replies tableName
              empty_metadata documents b Hb f Haccepted _ _ _ Hlast fuel
              Hchunks Hfuel)
    as (events & Hrun & Hreported & Hsent).
  exists events. split; [exact Hrun|].
  rewrite Hreported, Hsent, Hprogress, Hinserts, app_nil_r. split; reflexivity.
Qed.

(** Five documents in chunks of two; the backend accepts the first insert
    and is out of disk space from then on. *)
Lemma insertBatch_aborts_at_failing_chunk_witness :
  let disk_full :=
    {| pg_message := "could not extend file: No space left on device";
       pg_code := "53100" |} in
  let rpc_replies := fun _ : nat => @Resolved (list unit) None None in
  let insert_replies := fun k : nat =>
    if (k <? 1)%nat then @Resolved (list (Document float unit)) (Some []) None
    else Resolved None (Some disk_full) in
  let documents :=
    map example_document ["a"; "b"; "c"; "d"; "e"]%string in
  exists events,
    insertBatch 3 (scripted_backend rpc_replies insert_replies) "documents" tt
      documents 2 (Some recording_onProgress) O
    = Some (Thrown (SearchError batch_failed_message (Some "53100")),
            5%nat, events)
    /\ progress_calls events = [(2, 5)]
    /\ insert_calls events
       = map (map (insert_row tt))
           [map example_document ["a"; "b"]%string;
            map example_document ["c"; "d"]%string;
            map example_document ["c"; "d"]%string;
            map example_document ["c"; "d"]%string;
            map example_document ["c"; "d"]%string].
Proof.
  intros disk_full rpc_replies insert_replies documents.
  destruct (insertBatch_aborts_at_failing_chunk rpc_replies insert_replies
              "documents" tt documents 2 1%nat (fun _ => disk_full) 3%nat)
    as (events & Hrun & Hprogress & Hinserts).
  - lia.
  - intros k Hk. exists []. unfold insert_replies.
    destruct (Nat.ltb_spec k 1); [reflexivity | lia].
  - intros k Hk. exists None. reflexivity.
  - vm_compute. lia.
  - lia.
  - exists events. split; [exact Hrun|].
    split; [exact Hprogress | exact Hinserts].
Defined.


(** X26.  A reply to a chunk insert that carries neither data nor an error
    ends a batch insert as well.  Against a backend that accepts its first
    [f] inserts and answers the next one with [data: null, error: null]:
    that chunk is sent once and not retried (the failure arises after the
    retried operation has returned), no progress is reported for it, no
    later chunk is sent, and the call throws a [SearchError] with the fixed
    "unexpected error" text and no code. *)
Theorem insertBatch_reply_without_data
    {N} {NN : Number N} {Metadata SearchResult : Type}
    (rpc_replies : nat -> Reply (list SearchResult))
    (insert_replies : nat -> Reply (list (Document N Metadata)))
    (tableName : string) (empty_metadata : Metadata)
    (documents : list (Document N Metadata)) (b : Z)
    (f : nat) (fuel : nat) :
  0 < b ->
  (forall k, (k < f)%nat ->
             exists data, insert_replies k = Resolved (Some data) None) ->
  insert_replies f = Resolved None None ->
  let n := Z.of_nat (List.length documents) in
  let chunk := fun k : nat =>
    map (insert_row empty_metadata)
      (slice documents (Z.of_nat k * b) (Z.of_nat k * b + b)) in
  (f < chunk_count n b)%nat ->
  (f < fuel)%nat ->
  exists events,
    insertBatch fuel (scripted_backend rpc_replies insert_replies) tableName
      empty_metadata documents b (Some recording_onProgress) O
    = Some (Thrown (SearchError batch_unexpected_message None), S f, events)
    /\ progress_calls events = firstn f (expected_progress n b)
    /\ insert_calls events = map chunk (seq 0 f) ++ [chunk f].
Proof.
  intros Hb Haccepted Hreply n chunk Hchunks Hfuel.
  destruct (insertBatch_aborts rpc_replies insert_replies tableName
              empty_metadata documents b Hb f Haccepted _ _ _
              (fun results completed =>
                 insert_chunk_without_data rpc_replies insert_replies tableName
                   empty_metadata documents b f results completed Hreply)
              fuel Hchunks Hfuel)
    as (events & Hrun & Hreported & Hsent).
  exists events. split; [exact Hrun|].
  rewrite Hreported, Hsent, app_nil_r. split; reflexivity.
Qed.

(** Five documents in chunks of two; the backend accepts the first insert
    and answers the second with nothing. *)
Lemma insertBatch_reply_without_data_witness :
  let rpc_replies := fun _ : nat => @Resolved (list unit) None None in
  let insert_replies := fun k : nat =>
    if (k <? 1)%nat then @Resolved (list (Document float unit)) (Some []) None
    else Resolved None None in
  let documents :=
    map example_document ["a"; "b"; "c"; "d"; "e"]%string in
  exists events,
    insertBatch 3 (scripted_backend rpc_replies insert_replies) "documents" tt
      documents 2 (Some recording_onProgress) O
    = Some (Thrown (SearchError batch_unexpected_message None), 2%nat, events)
    /\ progress_calls events = [(2, 5)]
    /\ insert_calls events
       = map (map (insert_row tt))
           [map example_document ["a"; "b"]%string;
            map example_document ["c"; "d"]%string].
Proof.
  intros rpc_replies insert_replies documents.
  destruct (insertBatch_reply_without_data rpc_replies insert_replies
              "documents" tt documents 2 1%nat 3%nat)
    as (events & Hrun & Hprogress & Hinserts).
  - lia.
  - intros k Hk. exists []. unfold insert_replies.
    destruct (Nat.ltb_spec k 1); [reflexivity | lia].
  - reflexivity.
  - vm_compute. lia.
  - lia.
  - exists events. split; [exact Hrun|].
    split; [exact Hprogress | exact Hinserts].
Defined.

(* ================================================================== *)
(** ** Vector helpers on binary64 numbers *)
(* ================================================================== *)

(** Multiplication of binary64 numbers is commutative, NaN and the
    infinities included. *)
Lemma SFmul_comm prec emax x y :
  SpecFloat.SFmul prec emax x y = SpecFloat.SFmul prec emax y x.
Proof.
  destruct x as [sx | sx | | sx mx ex], y as [sy | sy | | sy my ey];
    cbn [SpecFloat.SFmul]; try reflexivity;
    try (rewrite (xorb_comm sx sy); reflexivity).
  rewrite (xorb_comm sx sy), (Pos.mul_comm mx my), (Z.add_comm ex ey).
  reflexivity.
Qed.

Lemma float_mul_comm (x y : float) : (x * y = y * x)%float.
Proof.
  apply FloatAxioms.Prim2SF_inj.
  rewrite !FloatAxioms.mul_spec. apply SFmul_comm.
Qed.

Lemma zero_square (x : float) :
  PrimFloat.eqb x 0%float = true -> (0 + x * x = 0)%float.
Proof.
  intros H. destruct (eqb_zero x H) as [-> | ->]; reflexivity.
Qed.

Lemma cosine_loop_swap (a : list float) :
  forall b d m1 m2,
    cosine_loop b a (d, m2, m1)
    = let '(d', m1', m2') := cosine_loop a b (d, m1, m2) in (d', m2', m1').
Proof.
  induction a as [|x a IH]; intros [|y b] d m1 m2; try reflexivity.
  cbn [cosine_loop]. rewrite IH.
  change (@num_mul float binary64) with PrimFloat.mul.
  rewrite (float_mul_comm y x). reflexivity.
Qed.

(** The first magnitude depends on the first vector only, and is 0 when all
    its components are zeros. *)
Lemma cosine_loop_zero_left (a : list float) :
  Forall (fun x => PrimFloat.eqb x 0%float = true) a ->
  forall b d m2,
    snd (fst (cosine_loop a b (d, 0%float, m2))) = 0%float.
Proof.
  induction 1 as [|x a Hx _ IH]; intros [|y b] d m2; try reflexivity.
  cbn [cosine_loop].
  change (@num_mul float binary64) with PrimFloat.mul.
  change (@num_add float binary64) with PrimFloat.add.
  rewrite (zero_square x Hx). apply IH.
Qed.

Lemma sum_of_squares_zero (a : list float) :
  Forall (fun x => PrimFloat.eqb x 0%float = true) a ->
  sum_of_squares a = 0%float.
Proof.
  unfold sum_of_squares. change (@lit_0 float binary64) with 0%float.
  induction 1 as [|x a Hx _ IH]; [reflexivity|].
  cbn [fold_left].
  change (@num_mul float binary64) with PrimFloat.mul.
  change (@num_add float binary64) with PrimFloat.add.
  rewrite (zero_square x Hx). exact IH.
Qed.

Lemma cosineSimilarity_swap (embedding1 embedding2 : list float) :
  cosineSimilarity embedding1 embedding2
  = cosineSimilarity embedding2 embedding1.
Proof.
  unfold cosineSimilarity.
  rewrite (Nat.eqb_sym (List.length embedding2) (List.length embedding1)).
  destruct (List.length embedding1 =? List.length embedding2)%nat;
    [|reflexivity].
  cbn [negb].
  change (@lit_0 float binary64) with 0%float.
  rewrite (cosine_loop_swap embedding1 embedding2 0%float 0%float 0%float).
  destruct (cosine_loop embedding1 embedding2 (0%float, 0%float, 0%float))
    as [[d m1] m2].
  change (@num_mul float binary64) with PrimFloat.mul.
  rewrite (float_mul_comm (math_sqrt m2) (math_sqrt m1)).
  rewrite (orb_comm (math_sqrt m2 === 0%float)%num).
  reflexivity.
Qed.

(** X13.  On binary64 numbers [cosineSimilarity] is symmetric in its two
    vectors, whatever they hold (NaN, infinities and vectors of different
    lengths included): the result, or the error, is the same either way
    round. *)
Theorem cosineSimilarity_symmetric (embedding1 embedding2 : list float) :
  cosineSimilarity embedding1 embedding2
  = cosineSimilarity embedding2 embedding1.
Proof. apply cosineSimilarity_swap. Qed.

(** X14.  A vector whose components are all zeros (of either sign, any
    length) has no direction: [normalizeEmbedding] throws an
    [EmbeddingError] with code ZERO_VECTOR for it, while [cosineSimilarity]
    of it with any vector of the same length, on either side, returns 0
    without dividing, whatever the other vector holds. *)
Theorem zero_vector_has_no_direction (zeros other : list float) :
  Forall (fun x => (x === 0%float)%num = true) zeros ->
  List.length other = List.length zeros ->
  normalizeEmbedding zeros
  = Thrown (EmbeddingError "Cannot normalize zero vector" (Some "ZERO_VECTOR"))
  /\ cosineSimilarity zeros other = Returned 0%float
  /\ cosineSimilarity other zeros = Returned 0%float.
Proof.
  intros Hzeros Hlength.
  assert (Hleft : cosineSimilarity zeros other = Returned 0%float).
  { unfold cosineSimilarity. rewrite Hlength, Nat.eqb_refl. cbn [negb].
    change (@lit_0 float binary64) with 0%float.
    pose proof (cosine_loop_zero_left zeros Hzeros other 0%float 0%float) as Hm.
    destruct (cosine_loop zeros other (0%float, 0%float, 0%float))
      as [[d m1] m2].
    cbn [fst snd] in Hm. subst m1. reflexivity. }
  split; [|split].
  - unfold normalizeEmbedding. rewrite (sum_of_squares_zero zeros Hzeros).
    reflexivity.
  - exact Hleft.
  - rewrite cosineSimilarity_swap. exact Hleft.
Qed.

(** Zeros of both signs against a vector that holds a NaN. *)
Lemma zero_vector_has_no_direction_witness :
  normalizeEmbedding [0%float; (-0)%float; 0%float]
  = Thrown (EmbeddingError "Cannot normalize zero vector" (Some "ZERO_VECTOR"))
  /\ cosineSimilarity [0%float; (-0)%float; 0%float]
       [1%float; nan; 3%float] = Returned 0%float
  /\ cosineSimilarity [1%float; nan; 3%float]
       [0%float; (-0)%float; 0%float] = Returned 0%float.
Proof.
  apply (zero_vector_has_no_direction [0%float; (-0)%float; 0%float]
           [1%float; nan; 3%float]).
  - repeat constructor.
  - reflexivity.
Defined.

(* ================================================================== *)
(** ** Generating embeddings *)
(* ================================================================== *)

(** [!text || !text.trim()] is the negation of the batch filter. *)
Lemma valid_text_truthy (text : string) :
  negb (truthy_string text) || negb (truthy_string (trim text))
  = negb (valid_text text).
Proof.
  unfold valid_text. destruct (truthy_string text); [|reflexivity].
  cbn [negb orb andb]. destruct (trim text); reflexivity.
Qed.

Section EmbedBatch.

Context {N : Type} {NN : Number N} {Metadata : Type}.

Variable embed : string -> list N.
Variable all_texts : list string.
Variables b delay : Z.
Hypothesis Hb : 0 < b.

Let n : Z := Z.of_nat (List.length all_texts).
Let provider : EmbeddingProvider N (list ProviderInput) Metadata :=
  recording_provider (embeds_each embed).
Let chunk (j : nat) : list string :=
  slice all_texts (Z.of_nat j * b) (Z.of_nat j * b + b).
Let valid (j : nat) : list string := filter valid_text (chunk j).

(** What the provider is asked for chunk [j]. *)
Let asked (j : nat) : list ProviderInput :=
  if (0 <? List.length (valid j))%nat then [ManyTexts (valid j)] else [].

(** What chunk [j] causes besides: its progress report and, when a pause
    is set and another chunk follows, the pause. *)
Let caused (j : nat) : list (Event N Metadata) :=
  EvProgress (completed_after n b j) n
  :: (if (0 <? delay) && (Z.of_nat (S j) * b <? n) then [EvSleep delay] else []).

Lemma embed_chunk_run (k : nat) results calls :
  embed_chunk provider all_texts b delay (Some recording_onProgress)
    (Z.of_nat k * b) results (Z.min (Z.of_nat k * b) n) calls
  = (Returned (results ++ map embed (valid k), Z.min (Z.of_nat (S k) * b) n),
     calls ++ asked k, caused k).
Proof.
  assert (Hcompleted :
            Z.min (Z.of_nat k * b) n + Z.of_nat (List.length (chunk k))
            = Z.min (Z.of_nat (S k) * b) n).
  { unfold chunk. rewrite slice_length by lia. fold n. lia. }
  unfold embed_chunk. fold (chunk k). fold (valid k). fold n.
  rewrite Hcompleted. unfold asked, caused.
  replace (Z.of_nat k * b + b) with (Z.of_nat (S k) * b) by lia.
  replace (completed_after n b k) with (Z.min (Z.of_nat (S k) * b) n)
    by (unfold completed_after; f_equal; lia).
  destruct (valid k) as [|text rest] eqn:Hvalid; cbn [List.length Nat.ltb Nat.leb];
    unfold bind, ret, when, sleep, emit, recording_onProgress;
    cbn [provider recording_provider provider_generateEmbedding embeds_each];
    destruct ((0 <? delay) && (Z.of_nat (S k) * b <? n));
    cbn [map app]; rewrite ?app_nil_r; reflexivity.
Qed.

(** The loop, entered after [k] chunks, runs the remaining chunks. *)
Lemma generateEmbeddingsBatch_loop_run fuel :
  forall k results calls,
    (chunk_count n b - k <= fuel)%nat ->
    generateEmbeddingsBatch_loop fuel provider all_texts b delay
      (Some recording_onProgress) (Z.of_nat k * b) results
      (Z.min (Z.of_nat k * b) n) calls
    = Some (Returned
              (results
               ++ List.concat (map (fun j => map embed (valid j))
                                 (seq k (chunk_count n b - k)))),
            calls ++ flat_map asked (seq k (chunk_count n b - k)),
            flat_map caused (seq k (chunk_count n b - k))).
Proof.
  assert (Hn : 0 <= n) by (unfold n; lia).
  induction fuel as [|fuel IH]; intros k results calls Hfuel;
    cbn [generateEmbeddingsBatch_loop]; fold n;
    destruct (Z.ltb_spec (Z.of_nat k * b) n) as [Hlt | Hge].
  - pose proof (proj1 (more_chunks n b Hn Hb k) Hlt). lia.
  - replace (chunk_count n b - k)%nat with O
      by (pose proof (more_chunks n b Hn Hb k); lia).
    cbn. now rewrite !app_nil_r.
  - pose proof (proj1 (more_chunks n b Hn Hb k) Hlt) as Hmore.
    rewrite embed_chunk_run.
    replace (Z.of_nat k * b + b) with (Z.of_nat (S k) * b) by lia.
    rewrite IH by lia.
    replace (chunk_count n b - k)%nat with (S (chunk_count n b - S k)) by lia.
    cbn [seq map flat_map List.concat]. now rewrite <- !app_assoc.
  - replace (chunk_count n b - k)%nat with O
      by (pose proof (more_chunks n b Hn Hb k); lia).
    cbn. now rewrite !app_nil_r.
Qed.

Lemma texts_sent_asked (l : list nat) :
  texts_sent (flat_map asked l) = List.concat (map valid l).
Proof.
  induction l as [|j l IH]; [reflexivity|].
  cbn [flat_map map List.concat]. unfold texts_sent in *.
  rewrite flat_map_app, IH. f_equal. unfold asked.
  destruct (valid j); cbn; now rewrite ?app_nil_r.
Qed.

Lemma valid_chunks_cover :
  List.concat (map valid (seq 0 (chunk_count n b))) = filter valid_text all_texts.
Proof.
  unfold valid.
  rewrite <- (map_map chunk (filter valid_text)), concat_filter_map.
  f_equal. unfold chunk.
  rewrite (slices_cover all_texts b Hb _ O) by reflexivity. reflexivity.
Qed.

Lemma asked_batches (l : list nat) :
  Forall (fun input =>
            exists batch,
              input = ManyTexts batch /\ batch <> []
              /\ Forall (fun text => valid_text text = true) batch
              /\ Z.of_nat (List.length batch) <= b)
    (flat_map asked l).
Proof.
  apply Forall_flat_map, Forall_forall. intros j _. unfold asked.
  destruct (valid j) as [|text rest] eqn:Hvalid; cbn [List.length Nat.ltb Nat.leb];
    constructor; [|constructor].
  exists (text :: rest). split; [reflexivity|]. split; [discriminate|].
  rewrite <- Hvalid. unfold valid. split.
  - apply Forall_forall. intros t Ht. now apply filter_In in Ht.
  - pose proof (filter_length_le valid_text (chunk j)) as Hle.
    assert (Z.of_nat (List.length (chunk j)) <= b); [|lia].
    unfold chunk. rewrite slice_length by lia. lia.
Qed.

Lemma progress_calls_caused (l : list nat) :
  progress_calls (flat_map caused l)
  = map (fun j => (completed_after n b j, n)) l.
Proof.
  induction l as [|j l IH]; [reflexivity|].
  cbn [flat_map map]. rewrite progress_calls_app, IH. unfold caused.
  destruct ((0 <? delay) && (Z.of_nat (S j) * b <? n)); reflexivity.
Qed.

(** A pause follows every chunk but the last. *)
Lemma sleep_calls_caused (count : nat) :
  forall k,
    (k + count = chunk_count n b)%nat ->
    sleep_calls (flat_map caused (seq k count))
    = if 0 <? delay then repeat delay (count - 1) else [].
Proof.
  assert (Hn : 0 <= n) by (unfold n; lia).
  induction count as [|count IH]; intros k Hk.
  - now destruct (0 <? delay).
  - cbn [seq flat_map]. rewrite sleep_calls_app, (IH (S k)) by lia.
    unfold caused. cbn [sleep_calls].
    destruct (0 <? delay); cbn [andb].
    + pose proof (more_chunks n b Hn Hb (S k)) as Hmore.
      destruct (Z.ltb_spec (Z.of_nat (S k) * b) n) as [Hlt | Hge].
      * destruct count as [|count]; [lia|].
        cbn [sleep_calls app Nat.sub repeat]. now rewrite Nat.sub_0_r.
      * destruct count as [|count]; [reflexivity | lia].
    + reflexivity.
Qed.

End EmbedBatch.

(** X15.  [generateEmbeddingsBatch] with a chunk size of at least 1 and a
    provider that embeds each text it is given: the call returns the
    embeddings of the texts that are not blank, in their order, so the
    result is shorter than the input, and its positions are shifted, as
    soon as one text is empty or white space only.  The provider is asked
    for exactly those texts, untrimmed, in batches that are never empty and
    never larger than the chunk size; progress is reported once per chunk
    of the input, blank texts counted; with a positive [delayMs] there is a
    pause after every chunk but the last, otherwise none. *)
Theorem generateEmbeddingsBatch_drops_blank_texts
    {N} {NN : Number N} {Metadata : Type}
    (embed : string -> list N) (all_texts : list string)
    (size pause : option Z) (fuel : nat) :
  let b := nullish size 100 in
  let delay := nullish pause 0 in
  let n := Z.of_nat (List.length all_texts) in
  0 < b ->
  (chunk_count n b <= fuel)%nat ->
  exists calls (events : list (Event N Metadata)),
    generateEmbeddingsBatch fuel
      {| texts := all_texts; batchSize := size; delayMs := pause;
         onProgress := Some recording_onProgress |}
      (recording_provider (embeds_each embed)) []
    = Some (Returned (map embed (filter valid_text all_texts)), calls, events)
    /\ texts_sent calls = filter valid_text all_texts
    /\ Forall (fun input =>
                 exists batch,
                   input = ManyTexts batch /\ batch <> []
                   /\ Forall (fun text => valid_text text = true) batch
                   /\ Z.of_nat (List.length batch) <= b) calls
    /\ progress_calls events = expected_progress n b
    /\ sleep_calls events
       = if 0 <? delay then repeat delay (chunk_count n b - 1) else [].
Proof.
  intros b delay n Hb Hfuel.
  assert (Hn : 0 <= n) by (unfold n; lia).
  unfold generateEmbeddingsBatch. cbn [texts batchSize delayMs onProgress].
  fold n b delay.
  destruct (Z.eqb_spec n 0) as [Hzero | Hpos].
  - assert (Hempty : all_texts = [])
      by (destruct all_texts; [reflexivity | unfold n in Hzero; cbn in Hzero; lia]).
    assert (Hcount : chunk_count n b = O).
    { pose proof (more_chunks n b Hn Hb O). lia. }
    exists [], []. unfold expected_progress. rewrite Hcount.
    subst all_texts. repeat split; try constructor.
    now destruct (0 <? delay).
  - pose proof (generateEmbeddingsBatch_loop_run (N := N) (Metadata := Metadata)
                  embed all_texts b delay Hb fuel O [] []) as Hloop.
    cbn [Z.of_nat Z.mul app] in Hloop. fold n in Hloop.
    rewrite Z.min_l, Nat.sub_0_r in Hloop by lia.
    rewrite Hloop by lia.
    eexists. eexists. split; [|split; [|split; [|split]]].
    + f_equal. f_equal. f_equal.
      rewrite <- (valid_chunks_cover all_texts b Hb), concat_map, map_map.
      reflexivity.
    + rewrite (texts_sent_asked all_texts b).
      apply (valid_chunks_cover all_texts b Hb).
    + apply (asked_batches all_texts b Hb).
    + apply (progress_calls_caused all_texts b delay).
    + rewrite (sleep_calls_caused all_texts b delay Hb (chunk_count n b) O)
        by reflexivity.
      reflexivity.
Qed.

(** Five texts, two of them blank, in chunks of two with a pause of half a
    second. *)
Lemma generateEmbeddingsBatch_drops_blank_texts_witness :
  let embed := fun text : string =>
    [if String.eqb text "alpha" then 1%float else 2%float] in
  let all_texts := ["alpha"; "  "; " beta"; ""; "gamma"]%string in
  exists calls (events : list (Event float unit)),
    generateEmbeddingsBatch 3
      {| texts := all_texts; batchSize := Some 2; delayMs := Some 500;
         onProgress := Some recording_onProgress |}
      (recording_provider (embeds_each embed)) []
    = Some (Returned [[1%float]; [2%float]; [2%float]], calls, events)
    /\ texts_sent calls = ["alpha"; " beta"; "gamma"]%string
    /\ progress_calls events = [(2, 5); (4, 5); (5, 5)]
    /\ sleep_calls events = [500; 500].
Proof.
  intros embed all_texts.
  destruct (generateEmbeddingsBatch_drops_blank_texts (Metadata := unit)
              embed all_texts (Some 2) (Some 500) 3%nat)
    as (calls & events & Hrun & Hsent & _ & Hprogress & Hsleeps).
  - cbn. lia.
  - vm_compute. lia.
  - exists calls, events. split; [exact Hrun|].
    split; [exact Hsent|]. split; [exact Hprogress | exact Hsleeps].
Defined.

Section GenerateEmbedding.

Context {N : Type} {NN : Number N} {St Metadata : Type}.

Variable text : string.
Variable provider : EmbeddingProvider N St Metadata.
Variable s : St.

Lemma generateEmbedding_blank :
  valid_text text = false ->
  generateEmbedding text provider s
  = (Thrown (EmbeddingError "Text cannot be empty" (Some "EMPTY_INPUT")), s, []).
Proof.
  intros Hvalid. unfold generateEmbedding, try_catch, bind.
  rewrite valid_text_truthy, Hvalid. reflexivity.
Qed.

Lemma generateEmbedding_returns embeddings s' events :
  valid_text text = true ->
  provider_generateEmbedding provider (OneText (trim text)) s
  = (Returned embeddings, s', events) ->
  generateEmbedding text provider s
  = (Returned (hd_error embeddings), s', events).
Proof.
  intros Hvalid Hrun. unfold generateEmbedding, try_catch, bind.
  rewrite valid_text_truthy, Hvalid. cbn [negb when]. unfold ret at 1.
  rewrite Hrun. cbn [app]. unfold ret. now rewrite app_nil_r.
Qed.

Lemma generateEmbedding_fails error s' events :
  valid_text text = true ->
  provider_generateEmbedding provider (OneText (trim text)) s
  = (Thrown error, s', events) ->
  generateEmbedding text provider s
  = (Thrown (if is_EmbeddingError error then error
             else EmbeddingError
                    ("Failed to generate embedding: "
                     ++ message_or_unknown error)
                    (Some "GENERATION_FAILED")),
     s', events).
Proof.
  intros Hvalid Hrun. unfold generateEmbedding, try_catch, bind.
  rewrite valid_text_truthy, Hvalid. cbn [negb when]. unfold ret at 1.
  rewrite Hrun. cbn [app]. destruct (is_EmbeddingError error); unfold throw;
    now rewrite app_nil_r.
Qed.

End GenerateEmbedding.

(** X16.  [generateEmbedding] rejects exactly the texts that the batch
    function drops, the empty ones and those of white space only: it throws
    an [EmbeddingError] with code EMPTY_INPUT and the provider is not
    called.  Any other text is sent to the provider trimmed, in one call;
    the first embedding of the answer is returned, and an answer without
    any embedding gives [undefined], not an error.  A failure of the
    provider is passed on when it is an [EmbeddingError]; anything else is
    replaced by an [EmbeddingError] with code GENERATION_FAILED that quotes
    its message. *)
Theorem generateEmbedding_cases {N} {NN : Number N} {St Metadata : Type}
    (text : string) (provider : EmbeddingProvider N St Metadata) (s : St) :
  (valid_text text = false ->
   generateEmbedding text provider s
   = (Thrown (EmbeddingError "Text cannot be empty" (Some "EMPTY_INPUT")), s, []))
  /\ (valid_text text = true ->
      forall embeddings s' events,
        provider_generateEmbedding provider (OneText (trim text)) s
        = (Returned embeddings, s', events) ->
        generateEmbedding text provider s
        = (Returned (hd_error embeddings), s', events))
  /\ (valid_text text = true ->
      forall error s' events,
        provider_generateEmbedding provider (OneText (trim text)) s
        = (Thrown error, s', events) ->
        generateEmbedding text provider s
        = (Thrown (if is_EmbeddingError error then error
                   else EmbeddingError
                          ("Failed to generate embedding: "
                           ++ message_or_unknown error)
                          (Some "GENERATION_FAILED")),
           s', events)).
Proof.
  split; [|split]; intros Hvalid.
  - now apply generateEmbedding_blank.
  - intros embeddings s' events. now apply generateEmbedding_returns.
  - intros error s' events. now apply generateEmbedding_fails.
Qed.

(** A text padded with white space, and a provider without embeddings. *)
Lemma generateEmbedding_cases_witness :
  generateEmbedding "  resume text " (recording_provider (embeds_each (fun _ => [1%float]))) []
  = (Returned (Some [1%float]), [OneText "resume text"],
     @nil (Event float unit))
  /\ generateEmbedding "resume" (recording_provider (fun _ => Returned [])) []
     = (Returned None, [OneText "resume"], @nil (Event float unit))
  /\ generateEmbedding "   " (recording_provider (embeds_each (fun _ => [1%float]))) []
     = (Thrown (EmbeddingError "Text cannot be empty" (Some "EMPTY_INPUT")),
        [], @nil (Event float unit)).
Proof.
  split; [|split].
  - exact (proj1 (proj2 (generateEmbedding_cases "  resume text "
                           (recording_provider (embeds_each (fun _ => [1%float])))
                           []))
             eq_refl [[1%float]] [OneText "resume text"] [] eq_refl).
  - exact (proj1 (proj2 (generateEmbedding_cases "resume"
                           (recording_provider (fun _ => Returned []))
                           []))
             eq_refl [] [OneText "resume"] [] eq_refl).
  - apply (proj1 (generateEmbedding_cases "   "
                    (recording_provider (embeds_each (fun _ => [1%float])))
                    [])).
    reflexivity.
Defined.

(** X17.  Whatever the provider, the texts, the options and the callback,
    [generateEmbedding] and [generateEmbeddingsBatch] throw nothing but an
    [EmbeddingError]. *)
Theorem embedding_functions_throw_only_embedding_errors
    {N} {NN : Number N} {St Metadata : Type}
    (provider : EmbeddingProvider N St Metadata) (s : St) :
  (forall text error s' events,
      generateEmbedding text provider s = (Thrown error, s', events) ->
      is_EmbeddingError error = true)
  /\ (forall fuel options error s' events,
        generateEmbeddingsBatch fuel options provider s
        = Some (Thrown error, s', events) ->
        is_EmbeddingError error = true).
Proof.
  split.
  - intros text error s' events. unfold generateEmbedding, try_catch.
    destruct (bind _ _ s) as [[[value | thrown] s1] ev1].
    + discriminate.
    + destruct (is_EmbeddingError thrown) eqn:Hclass; unfold throw;
        intros Hrun; injection Hrun as <- _ _; [exact Hclass | reflexivity].
  - intros fuel options error s' events. unfold generateEmbeddingsBatch.
    destruct (Z.of_nat (List.length (texts options)) =? 0); [discriminate|].
    destruct (generateEmbeddingsBatch_loop _ _ _ _ _ _ _ _ _ _)
      as [[[[value | thrown] s1] ev1]|]; try discriminate.
    destruct (is_EmbeddingError thrown) eqn:Hclass;
      intros Hrun; injection Hrun as <- _ _; [exact Hclass | reflexivity].
Qed.

(** A provider that is out of quota. *)
Lemma embedding_functions_throw_only_embedding_errors_witness :
  let provider : EmbeddingProvider float (list ProviderInput) unit :=
    recording_provider (fun _ => Thrown (OtherError "429 Too Many Requests")) in
  exists error,
    generateEmbedding "resume" provider []
    = (Thrown error, [OneText "resume"], [])
    /\ is_EmbeddingError error = true.
Proof.
  intros provider.
  exists (EmbeddingError "Failed to generate embedding: 429 Too Many Requests"
            (Some "GENERATION_FAILED")).
  split; [reflexivity|].
  apply (proj1 (embedding_functions_throw_only_embedding_errors provider [])
           "resume" _ [OneText "resume"] []).
  reflexivity.
Defined.

Section EmbedHang.

Context {N : Type} {NN : Number N} {Metadata : Type}.

Variable embed : string -> list N.
Variable all_texts : list string.
Variables b delay : Z.
Hypothesis Hb : b <= 0.
Hypothesis Htexts : all_texts <> [].

(** With this provider and this callback no iteration throws. *)
Lemma embed_chunk_returns i results completed calls :
  exists value calls' events,
    embed_chunk (Metadata := Metadata)
      (recording_provider (embeds_each embed)) all_texts b delay
      (Some recording_onProgress) i results completed calls
    = (Returned value, calls', events).
Proof.
  unfold embed_chunk.
  destruct (filter valid_text (slice all_texts i (i + b)));
    cbn [List.length Nat.ltb Nat.leb];
    unfold bind, ret, when, sleep, emit, recording_onProgress;
    cbn [recording_provider provider_generateEmbedding embeds_each];
    destruct ((0 <? delay) && (i + b <? Z.of_nat (List.length all_texts)));
    do 3 eexists; reflexivity.
Qed.

Lemma generateEmbeddingsBatch_loop_hangs fuel :
  forall i results completed calls,
    i <= 0 ->
    generateEmbeddingsBatch_loop (Metadata := Metadata) fuel
      (recording_provider (embeds_each embed)) all_texts b delay
      (Some recording_onProgress) i results completed calls
    = None.
Proof.
  assert (Hn : 0 < Z.of_nat (List.length all_texts))
    by (destruct all_texts; [congruence | cbn; lia]).
  induction fuel as [|fuel IH]; intros i results completed calls Hi;
    cbn [generateEmbeddingsBatch_loop];
    destruct (Z.ltb_spec i (Z.of_nat (List.length all_texts))); try lia;
    [reflexivity|].
  destruct (embed_chunk_returns i results completed calls)
    as ([results' completed'] & calls' & events & ->).
  rewrite IH by lia. reflexivity.
Qed.

End EmbedHang.

(** X18.  With a [batchSize] of 0 or less and at least one text,
    [generateEmbeddingsBatch] with a provider and a callback that do not
    fail never returns: the loop index never reaches the number of texts,
    so no number of iterations ends the call. *)
Theorem generateEmbeddingsBatch_never_returns
    {N} {NN : Number N} {Metadata : Type}
    (embed : string -> list N) (all_texts : list string)
    (size : Z) (pause : option Z) :
  size <= 0 ->
  all_texts <> [] ->
  forall fuel calls,
    generateEmbeddingsBatch (N := N) (Metadata := Metadata) fuel
      {| texts := all_texts; batchSize := Some size; delayMs := pause;
         onProgress := Some recording_onProgress |}
      (recording_provider (embeds_each embed)) calls
    = None.
Proof.
  intros Hsize Htexts fuel calls. unfold generateEmbeddingsBatch.
  cbn [texts batchSize delayMs onProgress nullish].
  destruct (Z.eqb_spec (Z.of_nat (List.length all_texts)) 0) as [Hzero|_].
  - destruct all_texts; [congruence | cbn in Hzero; lia].
  - rewrite (generateEmbeddingsBatch_loop_hangs embed all_texts size
               (nullish pause 0) Hsize Htexts fuel 0 [] 0 calls (Z.le_refl 0)).
    reflexivity.
Qed.

(** One text and a batch size of 0: a thousand iterations do not end the
    call. *)
Lemma generateEmbeddingsBatch_never_returns_witness :
  generateEmbeddingsBatch (N := float) (Metadata := unit) 1000
    {| texts := ["resume"%string]; batchSize := Some 0; delayMs := None;
       onProgress := Some recording_onProgress |}
    (recording_provider (embeds_each (fun _ => [1%float]))) []
  = None.
Proof.
  apply (generateEmbeddingsBatch_never_returns (fun _ => [1%float])
           ["resume"%string] 0 None).
  - lia.
  - discriminate.
Defined.

(* ================================================================== *)
(** ** Single documents *)
(* ================================================================== *)

Section GetScripted.

Context {N : Type} {NN : Number N} {Metadata : Type}.

Variable insert_replies select_replies : nat -> Reply (Document N Metadata).
Variable tableName id : string.

Let client := scripted_table insert_replies select_replies.

Lemma get_operation_scripted calls :
  DocumentManager.get_operation client tableName id calls
  = (get_outcome (select_replies calls), S calls, []).
Proof.
  unfold DocumentManager.get_operation, bind, DocumentManager.await_reply.
  cbn [DocumentManager.select_single client scripted_table].
  destruct (select_replies calls) as [data [error|] | reason];
    cbn [snd fst get_outcome]; try reflexivity.
  destruct (String.eqb (pg_code error) "PGRST116"); reflexivity.
Qed.

(** The trace of a [get] whose first [failures] attempts failed. *)
Lemma get_trace_observed errs failures :
  let trace :=
    retry_trace
      (retry_3 (fun _ _ => logger_warn (N := N) (St := nat) (Metadata := Metadata)
                             DocumentManager.get_retry_message))
      (fun _ => [])
      (fun _ _ => [EvLog Warn DocumentManager.get_retry_message])
      errs O failures in
  (failures <= 3)%nat ->
  sleep_calls trace = firstn failures [1000; 2000; 4000]
  /\ log_calls trace = repeat (Warn, DocumentManager.get_retry_message) failures.
Proof.
  intros trace Hle.
  destruct failures as [|[|[|[|]]]]; try lia; repeat split.
Qed.

End GetScripted.

(** X19.  [DocumentManager.get] treats the code PGRST116 as "not found":
    against a table that reports errors with other codes on its first
    [j <= 3] calls, a report with code PGRST116 on call [j] makes the call
    return [null] there and then, and a reply without error makes it return
    the reply's data; either way after [j + 1] calls, [j] warnings and
    sleeps of 1000, 2000, 4000 ms as far as needed.  When all four calls
    report errors with other codes the call throws a [SearchError] carrying
    the code of the fourth report. *)
Theorem get_not_found_is_null
    {N} {NN : Number N} {Metadata : Type}
    (insert_replies select_replies : nat -> Reply (Document N Metadata))
    (tableName id : string) (errs : nat -> PostgrestError) :
  let client := scripted_table insert_replies select_replies in
  let failed := fun k : nat =>
    (exists ignored, select_replies k = Resolved ignored (Some (errs k)))
    /\ pg_code (errs k) <> "PGRST116"%string in
  (forall j found,
      (j <= 3)%nat ->
      (forall k, (k < j)%nat -> failed k) ->
      ((exists ignored missing,
           select_replies j = Resolved ignored (Some missing)
           /\ pg_code missing = "PGRST116"%string)
       /\ found = None
       \/ select_replies j = Resolved found None) ->
      exists events,
        DocumentManager.get client tableName id O = (Returned found, S j, events)
        /\ sleep_calls events = firstn j [1000; 2000; 4000]
        /\ log_calls events
           = repeat (Warn, DocumentManager.get_retry_message) j)
  /\ ((forall k, (k <= 3)%nat -> failed k) ->
      exists events,
        DocumentManager.get client tableName id O
        = (Thrown (SearchError DocumentManager.get_failed_message
                     (Some (pg_code (errs 3%nat)))),
           4%nat, events)
        /\ sleep_calls events = [1000; 2000; 4000]
        /\ log_calls events
           = repeat (Warn, DocumentManager.get_retry_message) 3).
Proof.
  intros client failed.
  set (raised := fun k =>
         SearchError DocumentManager.get_failed_message (Some (pg_code (errs k)))).
  assert (Hfailed : forall k, failed k ->
             get_outcome (select_replies k) = Thrown (raised k)).
  { intros k [[ignored ->] Hcode]. cbn [get_outcome].
    apply String.eqb_neq in Hcode. now rewrite Hcode. }
  split.
  - intros j found Hj Hfail Hanswer.
    unfold DocumentManager.get, try_catch.
    rewrite (withRetry_counted_returns
               (DocumentManager.get_operation client tableName id)
               (fun k => get_outcome (select_replies k))
               (fun _ => [])
               (get_operation_scripted insert_replies select_replies tableName id)
               _ (fun _ _ => [EvLog Warn DocumentManager.get_retry_message])
               (logger_callback_returns DocumentManager.get_retry_message)
               (retry_3 (fun _ _ => logger_warn DocumentManager.get_retry_message))
               raised O j found eq_refl Hj).
    + eexists. split; [reflexivity|].
      apply (get_trace_observed raised j Hj).
    + intros k Hk. apply Hfailed, Hfail, Hk.
    + cbn [Nat.add].
      destruct Hanswer as [[(ignored & missing & -> & Hcode) ->] | ->];
        cbn [get_outcome]; [|reflexivity].
      rewrite Hcode. reflexivity.
  - intros Hfail.
    unfold DocumentManager.get, try_catch.
    rewrite (withRetry_counted_gives_up
               (DocumentManager.get_operation client tableName id)
               (fun k => get_outcome (select_replies k))
               (fun _ => [])
               (get_operation_scripted insert_replies select_replies tableName id)
               _ (fun _ _ => [EvLog Warn DocumentManager.get_retry_message])
               (logger_callback_returns DocumentManager.get_retry_message)
               (retry_3 (fun _ _ => logger_warn DocumentManager.get_retry_message))
               raised O eq_refl).
    + cbn [raised is_SearchError]. unfold throw. rewrite app_nil_r.
      eexists. split; [reflexivity|].
      apply (get_trace_observed raised 3 (Nat.le_refl _)).
    + intros k Hk. apply Hfailed, Hfail, Hk.
Qed.

(** A table that is unreachable once and then has no row with the id. *)
Lemma get_not_found_is_null_witness :
  let unreachable :=
    {| pg_message := "connection refused"; pg_code := "PGRST000" |} in
  let missing :=
    {| pg_message := "JSON object requested, multiple (or no) rows returned";
       pg_code := "PGRST116" |} in
  let insert_replies := fun _ : nat =>
    @Resolved (Document float unit) None None in
  let select_replies := fun k : nat =>
    if (k <? 1)%nat then @Resolved (Document float unit) None (Some unreachable)
    else Resolved None (Some missing) in
  exists events,
    DocumentManager.get (scripted_table insert_replies select_replies)
      "documents" "42" O
    = (Returned None, 2%nat, events)
    /\ sleep_calls events = [1000].
Proof.
  intros unreachable missing insert_replies select_replies.
  destruct (proj1 (get_not_found_is_null insert_replies select_replies
                     "documents" "42" (fun _ => unreachable)) 1%nat None)
    as (events & Hrun & Hsleeps & _).
  - lia.
  - intros k Hk. assert (k = O) as -> by lia. split.
    + exists None. reflexivity.
    + discriminate.
  - left. split; [|reflexivity]. exists None, missing. split; reflexivity.
  - exists events. split; [exact Hrun | exact Hsleeps].
Defined.

Section InsertDocument.

Context {N : Type} {NN : Number N} {St Metadata : Type}.

Variable client : DocumentManager.TableClient N St Metadata.
Variable tableName : string.
Variable empty_metadata : Metadata.
Variable document : Document N Metadata.

Lemma insert_blank_content (s : St) :
  valid_text (doc_content document) = false ->
  DocumentManager.insert client tableName empty_metadata document s
  = (Thrown (ValidationError "Document content is required" (Some "content")),
     s, []).
Proof.
  intros Hblank. unfold DocumentManager.insert, try_catch, bind.
  rewrite valid_text_truthy, Hblank. reflexivity.
Qed.

Lemma insertDocument_keeps_embedding provider (s : St) :
  match provider with
  | Some _ => truthy (doc_embedding document) = true
  | None => True
  end ->
  VectorSearchClient.insertDocument client tableName empty_metadata provider
    document s
  = DocumentManager.insert client tableName empty_metadata document s.
Proof.
  intros Hkept. unfold VectorSearchClient.insertDocument.
  assert (Hsame : match provider with
                  | Some provider =>
                      if negb (truthy (doc_embedding document)) then
                        embedding <- generateEmbedding (doc_content document) provider ;;
                        ret (VectorSearchClient.with_embedding document
                               (VectorSearchClient.embedding_value embedding))
                      else ret document
                  | None => ret document
                  end = ret document).
  { destruct provider; [rewrite Hkept|]; reflexivity. }
  rewrite Hsame. unfold bind at 1. unfold ret at 1.
  destruct (DocumentManager.insert _ _ _ _ s) as [[r s'] ev]. reflexivity.
Qed.

End InsertDocument.

(** X20.  What a document without content meets depends on the embedding
    provider.  [DocumentManager.insert] refuses a document whose content is
    empty or white space only with a [ValidationError] for the field
    [content], before any call of the table; so does [insertDocument] when
    the client has no provider or the document already carries an
    embedding.  With a provider and no embedding, [insertDocument] throws
    the [EmbeddingError] with code EMPTY_INPUT of [generateEmbedding]
    instead; neither the provider nor the table is called. *)
Theorem insertDocument_without_content
    {N} {NN : Number N} {St Metadata : Type}
    (client : DocumentManager.TableClient N St Metadata)
    (tableName : string) (empty_metadata : Metadata)
    (document : Document N Metadata) (s : St) :
  valid_text (doc_content document) = false ->
  let refused :=
    (Thrown (ValidationError "Document content is required" (Some "content")),
     s, @nil (Event N Metadata)) in
  DocumentManager.insert client tableName empty_metadata document s = refused
  /\ VectorSearchClient.insertDocument client tableName empty_metadata None
       document s = refused
  /\ (forall provider,
        truthy (doc_embedding document) = true ->
        VectorSearchClient.insertDocument client tableName empty_metadata
          (Some provider) document s = refused)
  /\ (forall provider,
        truthy (doc_embedding document) = false ->
        VectorSearchClient.insertDocument client tableName empty_metadata
          (Some provider) document s
        = (Thrown (EmbeddingError "Text cannot be empty" (Some "EMPTY_INPUT")),
           s, [])).
Proof.
  intros Hblank refused.
  pose proof (insert_blank_content client tableName empty_metadata document s
                Hblank) as Hinsert.
  split; [exact Hinsert|]. split; [|split].
  - rewrite (insertDocument_keeps_embedding client tableName empty_metadata
               document None s I).
    exact Hinsert.
  - intros provider Hkept.
    rewrite (insertDocument_keeps_embedding client tableName empty_metadata
               document (Some provider) s Hkept).
    exact Hinsert.
  - intros provider Hmissing. unfold VectorSearchClient.insertDocument.
    rewrite Hmissing. cbn [negb]. unfold bind.
    rewrite (generateEmbedding_blank (doc_content document) provider s Hblank).
    reflexivity.
Qed.

(** A document of white space, with and without a provider. *)
Lemma insertDocument_without_content_witness :
  let table : DocumentManager.TableClient float nat unit :=
    scripted_table (fun _ => Resolved None None) (fun _ => Resolved None None) in
  let provider := stateless_provider (embeds_each (fun _ => [1%float])) in
  VectorSearchClient.insertDocument table "documents" tt (Some provider)
    (example_document "   ") O
  = (Thrown (EmbeddingError "Text cannot be empty" (Some "EMPTY_INPUT")), O, [])
  /\ VectorSearchClient.insertDocument table "documents" tt None
       (example_document "   ") O
     = (Thrown (ValidationError "Document content is required" (Some "content")),
        O, []).
Proof.
  intros table provider.
  destruct (insertDocument_without_content table "documents" tt
              (example_document "   ") O eq_refl)
    as (_ & Hnone & _ & Hprovider).
  split; [apply Hprovider; reflexivity | exact Hnone].
Defined.

(** X21.  [insertDocument] with a provider, for a document that has content
    and no embedding: the provider is asked once, for the trimmed content,
    before the table is touched.  If it fails, the call ends there with an
    [EmbeddingError] (the provider's own, or one with code
    GENERATION_FAILED): no retry, no [SearchError], nothing inserted.
    Otherwise the document is inserted by [DocumentManager.insert] with the
    first embedding of the answer assigned to it, and without an embedding
    when the answer holds none. *)
Theorem insertDocument_generates_missing_embedding
    {N} {NN : Number N} {St Metadata : Type}
    (client : DocumentManager.TableClient N St Metadata)
    (tableName : string) (empty_metadata : Metadata)
    (provider : EmbeddingProvider N St Metadata)
    (document : Document N Metadata) (s s' : St)
    (events : list (Event N Metadata)) :
  valid_text (doc_content document) = true ->
  truthy (doc_embedding document) = false ->
  let asked :=
    provider_generateEmbedding provider (OneText (trim (doc_content document))) s in
  (forall error,
      asked = (Thrown error, s', events) ->
      VectorSearchClient.insertDocument client tableName empty_metadata
        (Some provider) document s
      = (Thrown (if is_EmbeddingError error then error
                 else EmbeddingError
                        ("Failed to generate embedding: "
                         ++ message_or_unknown error)
                        (Some "GENERATION_FAILED")),
         s', events))
  /\ (forall embeddings,
        asked = (Returned embeddings, s', events) ->
        VectorSearchClient.insertDocument client tableName empty_metadata
          (Some provider) document s
        = let '(result, s2, ev2) :=
            DocumentManager.insert client tableName empty_metadata
              (VectorSearchClient.with_embedding document
                 (VectorSearchClient.embedding_value (hd_error embeddings)))
              s' in
          (result, s2, events ++ ev2)).
Proof.
  intros Hvalid Hmissing asked. split.
  - intros error Hrun. unfold VectorSearchClient.insertDocument.
    rewrite Hmissing. cbn [negb]. unfold bind.
    rewrite (generateEmbedding_fails (doc_content document) provider s
               error s' events Hvalid Hrun).
    reflexivity.
  - intros embeddings Hrun. unfold VectorSearchClient.insertDocument.
    rewrite Hmissing. cbn [negb]. unfold bind at 1. unfold bind at 1.
    rewrite (generateEmbedding_returns (doc_content document) provider s
               embeddings s' events Hvalid Hrun).
    unfold ret at 1.
    destruct (DocumentManager.insert _ _ _ _ s') as [[result s2] ev2].
    now rewrite app_nil_r.
Qed.

(** A provider that is out of quota: the table's call counter stays at 0. *)
Lemma insertDocument_generates_missing_embedding_witness :
  let table : DocumentManager.TableClient float nat unit :=
    scripted_table (fun _ => Resolved None None) (fun _ => Resolved None None) in
  let provider :=
    stateless_provider (fun _ => Thrown (OtherError "429 Too Many Requests")) in
  VectorSearchClient.insertDocument table "documents" tt (Some provider)
    (example_document "resume") O
  = (Thrown (EmbeddingError "Failed to generate embedding: 429 Too Many Requests"
               (Some "GENERATION_FAILED")),
     O, []).
Proof.
  intros table provider.
  exact (proj1 (insertDocument_generates_missing_embedding table "documents" tt
                  provider (example_document "resume") O O [] eq_refl eq_refl)
           (OtherError "429 Too Many Requests") eq_refl).
Defined.

(* ================================================================== *)
(** ** The single-vector search function *)
(* ================================================================== *)

Section MatchDocumentsFacts.

Context {N : Type} {NN : Number N}.
Context {Vector Jsonb Uuid : Type}.
Variable cosine_distance : Vector -> Vector -> N.
Variable jsonb_contains : Jsonb -> Jsonb -> bool.

Notation Row := (Sql.DocumentsRow (Vector := Vector) (Jsonb := Jsonb) (Uuid := Uuid)).
Notation Args := (Sql.CallArgs (N := N) (Vector := Vector) (Jsonb := Jsonb)).
Notation Value := (Sql.Value (N := N) (Vector := Vector) (Jsonb := Jsonb) (Uuid := Uuid)).
Notation qualifies := (MatchDocuments.qualifies cosine_distance jsonb_contains).
Notation distance_of := (MatchDocuments.distance_of cosine_distance).
Notation key_of := (MatchDocuments.key_of cosine_distance).
Notation output := (MatchDocuments.output cosine_distance).
Notation ranked := (MatchDocuments.ranked cosine_distance jsonb_contains).
Notation match_documents :=
  (MatchDocuments.match_documents cosine_distance jsonb_contains).

Variable args : Args.

(** The WHERE clause, in three-valued logic, keeps the qualifying rows. *)
Lemma where_holds (row : Row) :
  Sql.holds cosine_distance jsonb_contains args (Some row)
    (Some (MatchDocuments.where_ MatchDocuments.statement))
  = Some (qualifies args row).
Proof.
  unfold Sql.holds, MatchDocuments.qualifies.
  cbn [MatchDocuments.where_ MatchDocuments.statement MatchDocuments.similarity
       MatchDocuments.distance Sql.eval Sql.parameter_value Sql.column_value
       option_map Sql.of_option].
  destruct (Sql.embedding row) as [e|], (Sql.query_embedding args) as [q|],
    (Sql.match_threshold args) as [t|], (Sql.filter_metadata args) as [f|],
    (Sql.metadata row) as [m|];
    cbn [Sql.of_option Sql.float_op]; try reflexivity;
    try (destruct (num_ltb t (lit_1 - cosine_distance e q)%num
                   || num_eqb (lit_1 - cosine_distance e q)%num t));
    try destruct (jsonb_contains m f); reflexivity.
Qed.

Lemma filter_rows_statement (table : list Row) :
  Sql.filter_rows cosine_distance jsonb_contains args
    (Some (MatchDocuments.where_ MatchDocuments.statement)) table
  = Some (filter (qualifies args) table).
Proof.
  induction table as [|row table IH]; [reflexivity|].
  cbn [Sql.filter_rows filter]. rewrite where_holds, IH.
  destruct (qualifies args row); reflexivity.
Qed.

Lemma eval_distance (row : Row) :
  Sql.eval cosine_distance jsonb_contains args (Some row) MatchDocuments.distance
  = Some (key_of args row).
Proof.
  unfold MatchDocuments.key_of, MatchDocuments.distance_of.
  cbn [MatchDocuments.distance Sql.eval Sql.parameter_value Sql.column_value
       option_map Sql.of_option].
  destruct (Sql.embedding row), (Sql.query_embedding args); reflexivity.
Qed.

Lemma with_keys_statement (rows : list Row) :
  MatchDocuments.with_keys cosine_distance jsonb_contains args
    MatchDocuments.distance rows
  = Some (map (fun row => (key_of args row, row)) rows).
Proof.
  induction rows as [|row rows IH]; [reflexivity|].
  cbn [MatchDocuments.with_keys map]. now rewrite eval_distance, IH.
Qed.

Lemma project_statement (row : Row) :
  MatchDocuments.project cosine_distance jsonb_contains args
    MatchDocuments.statement row
  = Some (output args row).
Proof.
  unfold MatchDocuments.project, MatchDocuments.output,
    MatchDocuments.distance_of.
  cbn [MatchDocuments.targets MatchDocuments.statement fold_right snd fst
       MatchDocuments.similarity MatchDocuments.distance
       Sql.eval Sql.parameter_value Sql.column_value option_map Sql.of_option].
  destruct (Sql.embedding row), (Sql.query_embedding args); reflexivity.
Qed.

Lemma project_rows_statement (rows : list Row) :
  MatchDocuments.project_rows cosine_distance jsonb_contains args
    MatchDocuments.statement rows
  = Some (map (output args) rows).
Proof.
  induction rows as [|row rows IH]; [reflexivity|].
  cbn [MatchDocuments.project_rows map]. now rewrite project_statement, IH.
Qed.

(** The function, in closed form. *)
Lemma match_documents_run (table : list Row) :
  match_documents args table
  = match Sql.match_count args with
    | Some c =>
        if c <? 0 then inl Sql.InvalidLimit
        else inr (map (output args)
                    (firstn (Z.to_nat c) (ranked args table)))
    | None => inr (map (output args) (ranked args table))
    end.
Proof.
  unfold MatchDocuments.match_documents, MatchDocuments.run.
  change (MatchDocuments.order_by MatchDocuments.statement)
    with (MatchDocuments.distance (N := N)).
  rewrite filter_rows_statement, with_keys_statement.
  fold (ranked args table).
  unfold MatchDocuments.apply_limit.
  cbn [MatchDocuments.limit MatchDocuments.statement Sql.eval
       Sql.parameter_value Sql.of_option].
  destruct (Sql.match_count args) as [c|]; cbn [Sql.of_option].
  - destruct (c <? 0); [reflexivity|]. now rewrite project_rows_statement.
  - now rewrite project_rows_statement.
Qed.

Lemma insert_asc_perm (entry : Value * Row) (sorted : list (Value * Row)) :
  Permutation.Permutation (MatchDocuments.insert_asc entry sorted)
    (entry :: sorted).
Proof.
  induction sorted as [|e rest IH]; cbn [MatchDocuments.insert_asc].
  - apply Permutation.Permutation_refl.
  - destruct (MatchDocuments.before_asc (fst entry) (fst e)).
    + apply Permutation.Permutation_refl.
    + eapply Permutation.perm_trans; [apply Permutation.perm_skip, IH|].
      apply Permutation.perm_swap.
Qed.

Lemma sort_asc_perm (entries : list (Value * Row)) :
  Permutation.Permutation (MatchDocuments.sort_asc entries) entries.
Proof.
  induction entries as [|entry entries IH]; cbn; [constructor|].
  eapply Permutation.perm_trans; [apply insert_asc_perm|].
  now apply Permutation.perm_skip.
Qed.

(** The ranked rows are the qualifying rows, in some order. *)
Lemma ranked_perm (table : list Row) :
  Permutation.Permutation (ranked args table) (filter (qualifies args) table).
Proof.
  unfold MatchDocuments.ranked.
  eapply Permutation.perm_trans;
    [apply Permutation.Permutation_map, sort_asc_perm|].
  rewrite map_map. cbn [snd]. rewrite map_id.
  apply Permutation.Permutation_refl.
Qed.

Lemma ranked_qualify (table : list Row) (row : Row) :
  In row (ranked args table) -> In row table /\ qualifies args row = true.
Proof.
  intros Hin. apply filter_In.
  exact (Permutation.Permutation_in _ (ranked_perm table) Hin).
Qed.

End MatchDocumentsFacts.

Lemma In_firstn {A} (k : nat) (l : list A) (x : A) :
  In x (firstn k l) -> In x l.
Proof.
  intros Hin. rewrite <- (firstn_skipn k l). apply in_or_app. now left.
Qed.

(** X22.  A call of [match_documents] that returns rows returns at most
    [match_count] of them, and no more than the table has qualifying rows;
    with a negative [match_count] no call returns rows (LIMIT must not be
    negative). *)
Theorem match_documents_returns_at_most_match_count
    {N} {NN : Number N} {Vector Jsonb Uuid : Type}
    (cosine_distance : Vector -> Vector -> N)
    (jsonb_contains : Jsonb -> Jsonb -> bool)
    (args : Sql.CallArgs (N := N) (Vector := Vector) (Jsonb := Jsonb))
    (table : list (Sql.DocumentsRow (Vector := Vector) (Jsonb := Jsonb)
                     (Uuid := Uuid)))
    (outs : list (list (string * Sql.Value))) :
  MatchDocuments.match_documents cosine_distance jsonb_contains args table
  = inr outs ->
  (forall c, Sql.match_count args = Some c ->
             0 <= c /\ Z.of_nat (List.length outs) <= c)
  /\ (List.length outs
      <= List.length
           (filter (MatchDocuments.qualifies cosine_distance jsonb_contains args)
              table))%nat.
Proof.
  intros Hrun.
  pose proof (Permutation.Permutation_length
                (ranked_perm cosine_distance jsonb_contains args table))
    as Hlength.
  rewrite match_documents_run in Hrun.
  destruct (Sql.match_count args) as [c|].
  - destruct (Z.ltb_spec c 0); [discriminate|]. injection Hrun as <-.
    rewrite length_map, length_firstn, Hlength. split; [|lia].
    intros c' Hc. injection Hc as <-. lia.
  - injection Hrun as <-. rewrite length_map, Hlength.
    split; [intros c Hc; discriminate | lia].
Qed.

(** The table of the examples, asked for one row: two rows qualify. *)
Lemma match_documents_returns_at_most_match_count_witness :
  exists outs,
    MatchDocuments.match_documents example_distance example_contains
      (MatchDocuments.call (Some 0%Q) (Some 0.5%Q) (Some 1) None) example_table
    = inr outs
    /\ Z.of_nat (List.length outs) <= 1.
Proof.
  eexists. split; [vm_compute; reflexivity|].
  match goal with
  | |- Z.of_nat (List.length ?outs) <= 1 =>
      assert (Hrun :
                MatchDocuments.match_documents example_distance example_contains
                  (MatchDocuments.call (Some 0%Q) (Some 0.5%Q) (Some 1) None)
                  example_table
                = inr outs) by (vm_compute; reflexivity);
      exact (proj2 (proj1 (match_documents_returns_at_most_match_count
                             example_distance example_contains
                             (MatchDocuments.call (Some 0%Q) (Some 0.5%Q)
                                (Some 1) None)
                             example_table outs Hrun) 1 eq_refl))
  end.
Defined.

(** X23.  Every row that [match_documents] returns is the projection of a
    row of the table that has an embedding, whose similarity to the query
    vector reaches the threshold, and whose metadata, when a filter is
    given, are present and contain it; its [similarity] column is 1 minus
    the distance.  So a document without an embedding is never found, a
    document without metadata never passes a filter, and a NULL query
    vector or a NULL threshold gives no row at all. *)
Theorem match_documents_returns_qualifying_rows
    {N} {NN : Number N} {Vector Jsonb Uuid : Type}
    (cosine_distance : Vector -> Vector -> N)
    (jsonb_contains : Jsonb -> Jsonb -> bool)
    (args : Sql.CallArgs (N := N) (Vector := Vector) (Jsonb := Jsonb))
    (table : list (Sql.DocumentsRow (Vector := Vector) (Jsonb := Jsonb)
                     (Uuid := Uuid)))
    (outs : list (list (string * Sql.Value))) :
  MatchDocuments.match_documents cosine_distance jsonb_contains args table
  = inr outs ->
  (forall out, In out outs ->
     exists row e q t,
       In row table
       /\ Sql.embedding row = Some e
       /\ Sql.query_embedding args = Some q
       /\ Sql.match_threshold args = Some t
       /\ ((lit_1 - cosine_distance e q)%num >= t)%num = true
       /\ (forall f, Sql.filter_metadata args = Some f ->
             exists m, Sql.metadata row = Some m /\ jsonb_contains m f = true)
       /\ out = [ ("id", Sql.VUuid (Sql.id row));
                  ("content", Sql.VText (Sql.content row));
                  ("metadata", Sql.of_option Sql.VJsonb (Sql.metadata row));
                  ("similarity",
                     Sql.VFloat (lit_1 - cosine_distance e q)%num) ])
  /\ (Sql.query_embedding args = None \/ Sql.match_threshold args = None ->
      outs = []).
Proof.
  intros Hrun.
  assert (Hrows : exists rows,
             outs = map (MatchDocuments.output cosine_distance args) rows
             /\ forall row, In row rows ->
                  In row table
                  /\ MatchDocuments.qualifies cosine_distance jsonb_contains
                       args row = true).
  { rewrite match_documents_run in Hrun.
    destruct (Sql.match_count args) as [c|].
    - destruct (c <? 0); [discriminate|]. injection Hrun as <-.
      eexists. split; [reflexivity|]. intros row Hin.
      apply In_firstn in Hin. now apply ranked_qualify in Hin.
    - injection Hrun as <-. eexists. split; [reflexivity|].
      intros row Hin. now apply ranked_qualify in Hin. }
  destruct Hrows as (rows & -> & Hrows).
  assert (Hsound : forall row, In row rows ->
             exists e q t,
               Sql.embedding row = Some e
               /\ Sql.query_embedding args = Some q
               /\ Sql.match_threshold args = Some t
               /\ ((lit_1 - cosine_distance e q)%num >= t)%num = true
               /\ (forall f, Sql.filter_metadata args = Some f ->
                     exists m, Sql.metadata row = Some m
                               /\ jsonb_contains m f = true)).
  { intros row Hin. destruct (Hrows row Hin) as [_ Hq].
    unfold MatchDocuments.qualifies in Hq.
    destruct (Sql.embedding row) as [e|]; [|discriminate].
    destruct (Sql.query_embedding args) as [q|]; [|discriminate].
    destruct (Sql.match_threshold args) as [t|]; [|discriminate].
    apply andb_prop in Hq. destruct Hq as [Hsim Hfilter].
    exists e, q, t. repeat split; try assumption.
    intros f Hf. rewrite Hf in Hfilter.
    destruct (Sql.metadata row) as [m|]; [|discriminate]. eauto. }
  split.
  - intros out Hout. apply in_map_iff in Hout.
    destruct Hout as (row & <- & Hin).
    destruct (Hsound row Hin) as (e & q & t & He & Hq & Ht & Hsim & Hfilter).
    exists row, e, q, t. repeat split; try assumption.
    + apply (Hrows row Hin).
    + unfold MatchDocuments.output, MatchDocuments.distance_of.
      now rewrite He, Hq.
  - intros Hnull. destruct rows as [|row rows]; [reflexivity|].
    destruct (Hsound row (or_introl eq_refl))
      as (e & q & t & _ & Hq & Ht & _).
    destruct Hnull; congruence.
Qed.

(** The table of the examples with the filter "resume": of its four rows
    one is too far, one has no embedding and one has no metadata. *)
Lemma match_documents_returns_qualifying_rows_witness :
  exists outs,
    MatchDocuments.match_documents example_distance example_contains
      (MatchDocuments.call (Some 0%Q) (Some 0.5%Q) None (Some ["resume"%string]))
      example_table
    = inr outs
    /\ List.length outs = 1%nat
    /\ forall out, In out outs ->
         exists row e,
           In row example_table /\ Sql.embedding row = Some e
           /\ Sql.metadata row = Some ["resume"%string].
Proof.
  eexists. split; [vm_compute; reflexivity|]. split; [reflexivity|].
  intros out Hout.
  match type of Hout with
  | In out ?outs =>
      assert (Hrun :
                MatchDocuments.match_documents example_distance example_contains
                  (MatchDocuments.call (Some 0%Q) (Some 0.5%Q) None
                     (Some ["resume"%string]))
                  example_table
                = inr outs) by (vm_compute; reflexivity);
      destruct (proj1 (match_documents_returns_qualifying_rows
                         example_distance example_contains
                         (MatchDocuments.call (Some 0%Q) (Some 0.5%Q) None
                            (Some ["resume"%string]))
                         example_table outs Hrun) out Hout)
        as (row & e & q & t & Hrow & He & _ & _ & _ & Hfilter & _)
  end.
  destruct (Hfilter ["resume"%string] eq_refl) as (m & Hm & _).
  exists row, e. split; [exact Hrow|]. split; [exact He|].
  rewrite Hm. f_equal.
  destruct Hrow as [<- | [<- | [<- | [<- | []]]]];
    cbn in Hm; congruence.
Defined.



(* ================================================================== *)
(** ** Searches without an expected dimension *)
(* ================================================================== *)

(** X25.  An [expectedDimensions] of 0 counts as none.  Without one, nothing
    but the presence of the main query vector is checked: whatever the
    caller passed as vectors (a string, a number, an array that holds NaN)
    is sent to the backend as it is, a falsy section vector as [null]. *)
Theorem searches_validate_nothing_without_expected_dimensions
    {N} {NN : Number N} {St Metadata SearchResult : Type}
    (client : SupabaseClient N St Metadata SearchResult)
    (expectedDimensions : option Z) (s : St) :
  expectedDimensions = None \/ expectedDimensions = Some 0 ->
  (forall options,
      missing_or_empty (so_queryEmbedding options) = false ->
      exists k,
        (1 <= k <= 4)%nat
        /\ dispatched (snd (search client options expectedDimensions s))
           = repeat ("match_documents", Match (search_args options)) k
        /\ ma_query_embedding (search_args options) = so_queryEmbedding options)
  /\ (forall options,
        missing_or_empty (queryEmbedding options) = false ->
        (sumWeights (providedWeights options) === lit_0)%num = false ->
        exists k args,
          (1 <= k <= 4)%nat
          /\ dispatched (snd (searchWeighted client options expectedDimensions s))
             = repeat ("match_documents_weighted", MatchWeighted args) k
          /\ query_embedding args = queryEmbedding options
          /\ query_section_1 args = or_null (querySection1 options)
          /\ query_section_2 args = or_null (querySection2 options)
          /\ query_section_3 args = or_null (querySection3 options)).
Proof.
  intros Hnone.
  assert (Hgiven : given expectedDimensions = None)
    by (destruct Hnone as [-> | ->]; reflexivity).
  split.
  - intros options Hmain.
    destruct (search_dispatched client options expectedDimensions s)
      as (k & Hk & Hcalls).
    + split; [exact Hmain|]. now rewrite Hgiven.
    + exists k. repeat split; try apply Hk. exact Hcalls.
  - intros options Hmain Hzero.
    destruct (searchWeighted_calls client options expectedDimensions s)
      as (k & [[[wMain w1] w2] w3] & Hk & Hcalls).
    + split; [exact Hmain|]. now rewrite Hgiven.
    + exact Hzero.
    + exists k, (weighted_args options (wMain, w1, w2, w3)).
      repeat split; try apply Hk. exact Hcalls.
Qed.

(** A string as query vector, with an expected dimension of 0. *)
Lemma searches_validate_nothing_without_expected_dimensions_witness :
  let options : SearchOptions float unit :=
    {| so_queryEmbedding := JSString "0.1, 0.2, 0.3";
       so_matchThreshold := None; so_matchCount := None;
       so_filterMetadata := None |} in
  exists k,
    (1 <= k <= 4)%nat
    /\ dispatched (snd (search example_client options (Some 0) tt))
       = repeat ("match_documents", Match (search_args options)) k
    /\ ma_query_embedding (search_args options) = JSString "0.1, 0.2, 0.3".
Proof.
  intros options.
  exact (proj1 (searches_validate_nothing_without_expected_dimensions
                  example_client (Some 0) tt (or_intror eq_refl))
           options eq_refl).
Defined.
